(** * satflow: nowcasting models, training-step protocol

    A shallow embedding of [satflow/models/conv_lstm.py]
    ([EncoderDecoderConvLSTM]) and [satflow/models/nowcasting_gan.py]
    ([NowcastingGAN]).

    - Tensors are a shape together with an index function; the torch
      operations the two files call ([torch.cat], [torch.stack],
      [torch.mean], [permute], [moveaxis], indexing, [F.mse_loss],
      [nn.Conv3d], [nn.Sigmoid]) are written out with the shape checks torch
      performs, and raise where torch raises.
    - Scalars are abstract ([Scalar]); the development is instantiated with
      exact rationals [Q] (to evaluate), with the reals [R] (the sigmoid in
      exact arithmetic) and with single-precision floats [float32], the
      dtype the models run in (the sigmoid as it rounds).
    - Python exceptions are the [Raise] case of [result]; code that logs,
      draws random numbers or creates optimizers threads a [world].
    - The sub-networks whose classes live outside these two files
      (ConvLSTMCell, the conditioning stacks, the sampler, the discriminators,
      the loss classes) are parameters. *)

From Stdlib Require Import ZArith NArith QArith Qreals Reals Lra Lia SpecFloat.
From stdpp Require Import base option list gmap strings pretty.

Set Default Proof Using "Type".
Local Open Scope string_scope.
Local Open Scope nat_scope.

(* ===================================================================== *)
(** ** Python results *)

Inductive exn : Type :=
| AttributeError (name : string)
| TypeError (msg : string)
| ValueError (msg : string)
| AssertionError
| IndexError (msg : string)
| RuntimeError (msg : string).

Inductive result (X : Type) : Type :=
| Ok (x : X)
| Raise (e : exn).
Arguments Ok {X} x.
Arguments Raise {X} e.

Definition rbind {X Y} (r : result X) (k : X -> result Y) : result Y :=
  match r with
  | Ok x => k x
  | Raise e => Raise e
  end.

Definition is_ok {X} (r : result X) : bool :=
  match r with Ok _ => true | Raise _ => false end.

#[export] Instance result_ret : MRet result := @Ok.
#[export] Instance result_bind : MBind result := fun X Y k r => rbind r k.

(* ===================================================================== *)
(** ** Scalars *)

Class Scalar (A : Type) : Type := {
  s0 : A;
  sadd : A -> A -> A;
  ssub : A -> A -> A;
  smul : A -> A -> A;
  sdiv : A -> A -> A;
  s_of_nat : nat -> A;
  s_of_Q : Q -> A                (* a Python float read as a scalar *)
}.

#[export] Instance Q_scalar : Scalar Q := {|
  s0 := 0%Q;
  sadd := Qplus;
  ssub := Qminus;
  smul := Qmult;
  sdiv := Qdiv;
  s_of_nat := fun n => inject_Z (Z.of_nat n);
  s_of_Q := fun q => q
|}.

#[export] Instance R_scalar : Scalar R := {|
  s0 := 0%R;
  sadd := Rplus;
  ssub := Rminus;
  smul := Rmult;
  sdiv := Rdiv;
  s_of_nat := INR;
  s_of_Q := Q2R
|}.

(** Single-precision floats, the default dtype of torch: IEEE 754
    binary32, that is 24 bits of precision and the exponent of the
    infinities at 128, every operation rounded to nearest, ties to even
    (the Standard Library's [SpecFloat]). *)
Definition float32 : Type := spec_float.

Definition f32_add : float32 -> float32 -> float32 := SFadd 24 128.
Definition f32_sub : float32 -> float32 -> float32 := SFsub 24 128.
Definition f32_mul : float32 -> float32 -> float32 := SFmul 24 128.
Definition f32_div : float32 -> float32 -> float32 := SFdiv 24 128.

(** The float32 nearest to an integer, and to [n * 2 ^ e]. *)
Definition f32_of_Z (z : Z) : float32 := binary_normalize 24 128 z 0 false.

Definition f32_of_N (n : N) (e : Z) : float32 :=
  match n with
  | N0 => S754_zero false
  | Npos p => binary_round 24 128 false p e
  end.

Definition f32_one : float32 := f32_of_Z 1.

#[export] Instance float32_scalar : Scalar float32 := {|
  s0 := S754_zero false;
  sadd := f32_add;
  ssub := f32_sub;
  smul := f32_mul;
  sdiv := f32_div;
  s_of_nat := fun n => f32_of_Z (Z.of_nat n);
  s_of_Q := fun q => f32_div (f32_of_Z (Qnum q)) (f32_of_Z (Zpos (Qden q)))
|}.

(* ===================================================================== *)
(** ** Tensors and the torch operations used by the models *)

Section Torch.
Context {A : Type} {SA : Scalar A}.

Record Tensor : Type := mkTensor {
  shape : list nat;
  at_ : list nat -> A
}.

Definition ndim (t : Tensor) : nat := length (shape t).

Definition insert_at {X} (i : nat) (x : X) (l : list X) : list X :=
  take i l ++ x :: drop i l.

Definition remove_at {X} (i : nat) (l : list X) : list X :=
  take i l ++ drop (S i) l.

(** All indices of a shape, in row-major order. *)
Fixpoint indices (sh : list nat) : list (list nat) :=
  match sh with
  | [] => [[]]
  | n :: sh' =>
      flat_map (fun i => map (cons i) (indices sh')) (seq 0 n)
  end.

Definition ssum (l : list A) : A := foldr sadd s0 l.

Definition smean (l : list A) : A := sdiv (ssum l) (s_of_nat (length l)).

(** Row-major position of an index, and a tensor read from flat data. *)
Fixpoint flat_index (acc : nat) (sh idx : list nat) : nat :=
  match sh, idx with
  | n :: sh', i :: idx' => flat_index (acc * n + i) sh' idx'
  | _, _ => acc
  end.

Definition of_list (sh : list nat) (data : list A) : Tensor :=
  mkTensor sh (fun idx => nth (flat_index 0 sh idx) data s0).

Definition to_list (t : Tensor) : list A := map (at_ t) (indices (shape t)).

(** [torch.zeros(shape)] *)
Definition zeros (sh : list nat) : Tensor := mkTensor sh (fun _ => s0).

Definition tmap (f : A -> A) (t : Tensor) : Tensor :=
  mkTensor (shape t) (fun idx => f (at_ t idx)).

Definition list_eqb (l1 l2 : list nat) : bool := bool_decide (l1 = l2).

(** [torch.cat(ts, dim)]: the tensors agree on their number of dimensions
    and on every size but the one at [dim]. *)
Fixpoint cat_at (ts : list Tensor) (dim : nat) (idx : list nat) : A :=
  match ts with
  | [] => s0
  | t :: ts' =>
      let n := nth dim (shape t) 0 in
      let i := nth dim idx 0 in
      if i <? n then at_ t idx
      else cat_at ts' dim (<[dim := i - n]> idx)
  end.

Definition torch_cat (ts : list Tensor) (dim : nat) : result Tensor :=
  match ts with
  | [] => Raise (RuntimeError "torch.cat(): expected a non-empty list of Tensors")
  | t0 :: rest =>
      if negb (forallb (fun t => ndim t =? ndim t0) rest) then
        Raise (RuntimeError "Tensors must have same number of dimensions")
      else if negb (dim <? ndim t0) then
        Raise (IndexError "Dimension out of range")
      else if negb (forallb (fun t => list_eqb (remove_at dim (shape t))
                                               (remove_at dim (shape t0))) rest) then
        Raise (RuntimeError "Sizes of tensors must match except in the cat dimension")
      else
        let total := foldr Nat.add 0 (map (fun t => nth dim (shape t) 0) ts) in
        Ok (mkTensor (<[dim := total]> (shape t0)) (cat_at ts dim))
  end.

(** [torch.stack(ts, dim)]: a new dimension of size [len(ts)] at [dim]. *)
Definition torch_stack (ts : list Tensor) (dim : nat) : result Tensor :=
  match ts with
  | [] => Raise (RuntimeError "stack expects a non-empty TensorList")
  | t0 :: rest =>
      if negb (forallb (fun t => list_eqb (shape t) (shape t0)) rest) then
        Raise (RuntimeError "stack expects each tensor to be equal size")
      else if negb (dim <=? ndim t0) then
        Raise (IndexError "Dimension out of range")
      else
        Ok (mkTensor (insert_at dim (length ts) (shape t0))
              (fun idx => at_ (nth (nth dim idx 0) ts t0) (remove_at dim idx)))
  end.

(** [torch.mean(t, dim=dim)]: the dimension is reduced away. *)
Definition torch_mean (t : Tensor) (dim : nat) : result Tensor :=
  if negb (dim <? ndim t) then Raise (IndexError "Dimension out of range")
  else
    let n := nth dim (shape t) 0 in
    Ok (mkTensor (remove_at dim (shape t))
          (fun idx => smean (map (fun i => at_ t (insert_at dim i idx)) (seq 0 n)))).

(** [t.permute(dims)] *)
Fixpoint position (j : nat) (dims : list nat) : nat :=
  match dims with
  | [] => 0
  | d :: dims' => if d =? j then 0 else S (position j dims')
  end.

Definition is_permutation (dims : list nat) (n : nat) : bool :=
  (length dims =? n) && forallb (fun j => position j dims <? n) (seq 0 n).

Definition permute (t : Tensor) (dims : list nat) : result Tensor :=
  if negb (is_permutation dims (ndim t)) then
    Raise (RuntimeError "permute: dims do not match the tensor")
  else
    Ok (mkTensor (map (fun d => nth d (shape t) 0) dims)
          (fun idx => at_ t (map (fun j => nth (position j dims) idx 0)
                                 (seq 0 (ndim t))))).

(** [torch.moveaxis(t, src, dst)] *)
Definition moveaxis (t : Tensor) (src dst : nat) : result Tensor :=
  if negb ((src <? ndim t) && (dst <? ndim t)) then
    Raise (IndexError "Dimension out of range")
  else permute t (insert_at dst src (remove_at src (seq 0 (ndim t)))).

(** [t[:, ..., i]] with the integer at position [dim]: that dimension is
    dropped. *)
Definition select (t : Tensor) (dim i : nat) : result Tensor :=
  if negb (dim <? ndim t) then Raise (IndexError "too many indices for tensor")
  else if negb (i <? nth dim (shape t) 0) then
    Raise (IndexError "index out of range")
  else
    Ok (mkTensor (remove_at dim (shape t))
          (fun idx => at_ t (insert_at dim i idx))).

(** Broadcasting of two shapes, aligned at the last dimension. *)
Fixpoint broadcast_rev (r1 r2 : list nat) : option (list nat) :=
  match r1, r2 with
  | [], r | r, [] => Some r
  | n1 :: r1', n2 :: r2' =>
      match broadcast_rev r1' r2' with
      | None => None
      | Some r =>
          if n1 =? n2 then Some (n1 :: r)
          else if n1 =? 1 then Some (n2 :: r)
          else if n2 =? 1 then Some (n1 :: r)
          else None
      end
  end.

Definition broadcast_shapes (sh1 sh2 : list nat) : option (list nat) :=
  match broadcast_rev (rev sh1) (rev sh2) with
  | Some r => Some (rev r)
  | None => None
  end.

(** The element of [t] that position [idx] of the broadcast result reads. *)
Definition expand_at (t : Tensor) (idx : list nat) : A :=
  let idx' := drop (length idx - ndim t) idx in
  at_ t (zip_with (fun i n => if n =? 1 then 0 else i) idx' (shape t)).

(** [F.mse_loss(input, target)] with the default mean reduction: the two
    tensors are broadcast against each other first. *)
Definition mse_loss (input target : Tensor) : result A :=
  match broadcast_shapes (shape input) (shape target) with
  | None =>
      Raise (RuntimeError "The size of tensor a must match the size of tensor b")
  | Some sh =>
      Ok (smean (map (fun idx =>
                        let d := ssub (expand_at input idx) (expand_at target idx) in
                        smul d d)
                     (indices sh)))
  end.

(** A loss is called on a prediction and a target. *)
Definition loss_fn : Type := Tensor -> Tensor -> result A.

(** The [loss] argument of the constructors: a string, a
    [torch.nn.Module], or any other object.  Of such an object the
    constructor can use two things: what calling it computes, and what its
    [__eq__] answers when Python compares it with a string. *)
Inductive loss_arg : Type :=
| LossName (s : string)
| LossModule (m : loss_fn)
| LossObject (f : loss_fn) (eq_str : string -> bool).

(** A plain function such as [F.mse_loss]: functions compare by identity,
    so it is equal to no string. *)
Definition plain_function (f : loss_fn) : loss_arg :=
  LossObject f (fun _ => false).

End Torch.

Arguments Tensor A : clear implicits.
Arguments loss_fn A : clear implicits.
Arguments loss_arg A : clear implicits.

(* ===================================================================== *)
(** ** Python calls with keyword arguments *)

Inductive pyval : Type :=
| PInt (n : Z)
| PFloat (q : Q)
| PBool (b : bool)
| PStr (s : string).

(** [config.get(key, default)] on a mapping. *)
Definition config_get (config : gmap string pyval) (key : string)
    (dflt : pyval) : pyval :=
  default dflt (config !! key).

(** A signature lists the parameters after [self] with their defaults. *)
Definition signature : Type := list (string * option pyval).

Definition accepts (sig : signature) (name : string) : bool :=
  bool_decide (name ∈ sig.*1).

Definition unexpected_keyword (sig : signature) (kwargs : list (string * pyval))
    : option string :=
  head (filter (fun k => negb (accepts sig k)) kwargs.*1).

Fixpoint bind_params (sig : signature) (kwargs : gmap string pyval)
    : result (gmap string pyval) :=
  match sig with
  | [] => Ok ∅
  | (name, dflt) :: sig' =>
      match kwargs !! name, dflt with
      | Some v, _ | None, Some v =>
          rest ← bind_params sig' kwargs; Ok (<[name := v]> rest)
      | None, None =>
          Raise (TypeError ("missing 1 required positional argument: '" +:+ name +:+ "'"))
      end
  end.

(** A call [f(k1=v1, ..., kn=vn)]: a keyword the signature does not have is
    a [TypeError]; so is a parameter left without a value. *)
Definition bind_kwargs (sig : signature) (kwargs : list (string * pyval))
    : result (gmap string pyval) :=
  match unexpected_keyword sig kwargs with
  | Some k => Raise (TypeError ("got an unexpected keyword argument '" +:+ k +:+ "'"))
  | None => bind_params sig (list_to_map kwargs)
  end.

(** Reading a bound argument at the type the constructor uses it at.  A
    value of another kind is refused here (Python would store it as it
    is and fail at its first use). *)
Definition arg_nat (args : gmap string pyval) (name : string) : result nat :=
  match args !! name with
  | Some (PInt n) => if (0 <=? n)%Z then Ok (Z.to_nat n)
                     else Raise (ValueError name)
  | _ => Raise (TypeError name)
  end.

Definition arg_float (args : gmap string pyval) (name : string) : result Q :=
  match args !! name with
  | Some (PFloat q) => Ok q
  | Some (PInt n) => Ok (inject_Z n)
  | _ => Raise (TypeError name)
  end.

Definition arg_bool (args : gmap string pyval) (name : string) : result bool :=
  match args !! name with
  | Some (PBool b) => Ok b
  | _ => Raise (TypeError name)
  end.

Definition arg_str (args : gmap string pyval) (name : string) : result string :=
  match args !! name with
  | Some (PStr s) => Ok s
  | _ => Raise (TypeError name)
  end.

(** [self.name] for an attribute that may never have been assigned. *)
Definition getattr {X} (name : string) (o : option X) : result X :=
  match o with
  | Some x => Ok x
  | None => Raise (AttributeError name)
  end.

(* ===================================================================== *)
(** ** The world outside the models

    What the framework and the libraries keep between calls: the
    process-wide random sources, the metrics sink, the image sink and the
    optimizers that have been created. *)

Record optimizer : Type := Adam {
  opt_params : string;
  opt_lr : Q;
  opt_betas : Q * Q
}.

Record world (A : Type) : Type := mkWorld {
  np_stream : nat -> Q;          (* outcomes of np.random.random() *)
  np_cursor : nat;
  torch_cursor : nat;            (* draws taken from torch's generator *)
  scalars_logged : list (string * A);
  images_logged : list (string * nat);
  optimizers_created : list optimizer
}.
Arguments mkWorld {A}.
Arguments np_stream {A}.
Arguments np_cursor {A}.
Arguments torch_cursor {A}.
Arguments scalars_logged {A}.
Arguments images_logged {A}.
Arguments optimizers_created {A}.

Definition M (A X : Type) : Type := world A -> result X * world A.

Definition pure {A X} (x : X) : M A X := fun w => (Ok x, w).

Definition mbind_ {A X Y} (m : M A X) (k : X -> M A Y) : M A Y :=
  fun w => match m w with
           | (Ok x, w') => k x w'
           | (Raise e, w') => (Raise e, w')
           end.

Notation "x <- m ;; k" := (mbind_ m (fun x => k))
  (at level 100, m at next level, k at level 200, right associativity).

(** A computation that cannot touch the world. *)
Definition lift {A X} (r : result X) : M A X := fun w => (r, w).

Definition raise {A X} (e : exn) : M A X := lift (Raise e).

Definition Qltb (a b : Q) : bool := negb (Qle_bool b a).

(** [np.random.random()] *)
Definition np_random {A} : M A Q :=
  fun w => (Ok (np_stream w (np_cursor w)),
            mkWorld (np_stream w) (S (np_cursor w)) (torch_cursor w)
                    (scalars_logged w) (images_logged w) (optimizers_created w)).

(** The next draw of torch's generator: the caller gets its position. *)
Definition torch_draw {A} : M A nat :=
  fun w => (Ok (torch_cursor w),
            mkWorld (np_stream w) (np_cursor w) (S (torch_cursor w))
                    (scalars_logged w) (images_logged w) (optimizers_created w)).

(** [self.log(name, value)] and [self.log_dict(d)] *)
Definition log_dict {A} (d : list (string * A)) : M A unit :=
  fun w => (Ok tt,
            mkWorld (np_stream w) (np_cursor w) (torch_cursor w)
                    (scalars_logged w ++ d) (images_logged w) (optimizers_created w)).

Definition log {A} (name : string) (v : A) : M A unit := log_dict [(name, v)].

(** [tensorboard.add_image(tag, img, global_step)] *)
Definition add_image {A} (tag : string) (step : nat) : M A unit :=
  fun w => (Ok tt,
            mkWorld (np_stream w) (np_cursor w) (torch_cursor w)
                    (scalars_logged w) (images_logged w ++ [(tag, step)])
                    (optimizers_created w)).

(** [torch.optim.Adam(params, lr=lr, betas=betas)] *)
Definition new_Adam {A} (params : string) (lr : Q) (betas : Q * Q) : M A optimizer :=
  fun w => let o := Adam params lr betas in
           (Ok o,
            mkWorld (np_stream w) (np_cursor w) (torch_cursor w)
                    (scalars_logged w) (images_logged w)
                    (optimizers_created w ++ [o])).

(** [for i in range(n): body(i)] *)
Fixpoint for_range {A} (rg : list nat) (body : nat -> M A unit) : M A unit :=
  match rg with
  | [] => pure tt
  | i :: rg' => mbind_ (body i) (fun _ => for_range rg' body)
  end.

(* ===================================================================== *)
(** ** satflow/models/conv_lstm.py *)

Module ConvLSTM.
Section Model.
Context {A : Type} {SA : Scalar A}.

(** The scalar function that [torch.nn.Sigmoid] applies to every element. *)
Variable sigmoid : A -> A.

(** [satflow.models.layers.ConvLSTM.ConvLSTMCell] is not part of the two
    files: a cell is its dimensions and its forward function. *)
Record ConvLSTMCell : Type := mkCell {
  input_dim : nat;
  hidden_dim : nat;
  cell_forward : Tensor A -> Tensor A * Tensor A -> result (Tensor A * Tensor A)
}.

(** Modelled from the spec: [ConvLSTMCell.init_hidden] is missing from the
    sources; the hidden and cell state are "allocated (zero-initialized)",
    of shape [[batch, hidden_dim, height, width]]. *)
Definition init_hidden (cell : ConvLSTMCell) (batch_size : nat)
    (image_size : nat * nat) : Tensor A * Tensor A :=
  let sh := [batch_size; hidden_dim cell; image_size.1; image_size.2] in
  (zeros sh, zeros sh).

(** [torch.nn.Conv3d(in_channels, out_channels, kernel_size=(1, 3, 3),
    padding=(0, 1, 1))]: weight of shape [[out, in, 1, 3, 3]], bias of
    shape [[out]], zero padding of one pixel in height and width. *)
Record Conv3d : Type := mkConv3d {
  in_channels : nat;
  out_channels : nat;
  weight : Tensor A;
  bias : Tensor A
}.

Definition padded_at (x : Tensor A) (b c t : nat) (y x' : nat) (ky kx : nat) : A :=
  let h := nth 3 (shape x) 0 in
  let w := nth 4 (shape x) 0 in
  if (1 <=? y + ky) && (y + ky <=? h) && (1 <=? x' + kx) && (x' + kx <=? w)
  then at_ x [b; c; t; y + ky - 1; x' + kx - 1]
  else s0.

Definition conv3d_forward (m : Conv3d) (x : Tensor A) : result (Tensor A) :=
  match shape x with
  | [b; c; t; h; w] =>
      if negb (c =? in_channels m) then
        Raise (RuntimeError "Conv3d: input channels do not match the weight")
      else
        Ok (mkTensor [b; out_channels m; t; h; w]
              (fun idx =>
                 match idx with
                 | [ib; o; it; y; x'] =>
                     sadd (at_ (bias m) [o])
                          (ssum (map (fun k =>
                                        match k with
                                        | [ic; ky; kx] =>
                                            smul (at_ (weight m) [o; ic; 0; ky; kx])
                                                 (padded_at x ib ic it y x' ky kx)
                                        | _ => s0
                                        end)
                                     (indices [in_channels m; 3; 3])))
                 | _ => s0
                 end))
  | _ => Raise (RuntimeError "Conv3d: expected a 5D input")
  end.

(** What the constructor takes from outside the file. *)
Record Env : Type := mkEnv {
  new_ConvLSTMCell : nat -> nat -> ConvLSTMCell;
  new_Conv3d : nat -> nat -> Conv3d;
  F_nll_loss : loss_fn A;
  FocalLoss : loss_fn A;
  debug : bool                   (* Python's __debug__: are asserts run *)
}.

Record EncoderDecoderConvLSTM : Type := mkModel {
  forecast_steps : nat;
  criterion : loss_fn A;
  lr : Q;
  make_vis : bool;
  encoder_1_convlstm : ConvLSTMCell;
  encoder_2_convlstm : ConvLSTMCell;
  decoder_1_convlstm : ConvLSTMCell;
  decoder_2_convlstm : ConvLSTMCell;
  decoder_CNN : Conv3d;
  logger : bool                  (* has the trainer attached a logger *)
}.

Definition recognized : list string :=
  ["mse"; "bce"; "binary_crossentropy"; "crossentropy"; "focal"].

(** [loss in [...]] and [loss == "mse"] (a membership test in a list of one
    name).  For an object that is not a string Python asks the object's own
    [__eq__], name by name; a [torch.nn.Module] compares by identity. *)
Definition loss_in (l : loss_arg A) (names : list string) : bool :=
  match l with
  | LossName s => bool_decide (s ∈ names)
  | LossModule _ => false
  | LossObject _ eq_str => existsb eq_str names
  end.

(** Lines 30-41: the loss is resolved into [self.criterion]. *)
Definition resolve_loss (env : Env) (loss : loss_arg A) : result (loss_fn A) :=
  match loss with
  | LossModule m => Ok m
  | _ =>
      if debug env && negb (loss_in loss recognized) then Raise AssertionError
      else if loss_in loss ["mse"] then Ok mse_loss
      else if loss_in loss ["bce"; "binary_crossentropy"; "crossentropy"] then
        Ok (F_nll_loss env)
      else if loss_in loss ["focal"] then Ok (FocalLoss env)
      else Raise (ValueError "loss not recognized")
  end.

Definition __init__ (env : Env) (hidden_dim input_channels out_channels
    forecast_steps : nat) (lr : Q) (make_vis : bool) (loss : loss_arg A)
    (pretrained : bool) : result EncoderDecoderConvLSTM :=
  crit ← resolve_loss env loss;
  Ok {| forecast_steps := forecast_steps;
        criterion := crit;
        lr := lr;
        make_vis := make_vis;
        encoder_1_convlstm := new_ConvLSTMCell env input_channels hidden_dim;
        encoder_2_convlstm := new_ConvLSTMCell env hidden_dim hidden_dim;
        decoder_1_convlstm := new_ConvLSTMCell env hidden_dim hidden_dim;
        decoder_2_convlstm := new_ConvLSTMCell env hidden_dim hidden_dim;
        decoder_CNN := new_Conv3d env hidden_dim out_channels;
        logger := false |}.

Definition init_signature : signature :=
  [("hidden_dim", Some (PInt 64)); ("input_channels", Some (PInt 12));
   ("out_channels", Some (PInt 1)); ("forecast_steps", Some (PInt 48));
   ("lr", Some (PFloat 0.001)); ("make_vis", Some (PBool false));
   ("loss", Some (PStr "mse")); ("pretrained", Some (PBool false))].

(** [EncoderDecoderConvLSTM(k1=v1, ...)] *)
Definition construct (env : Env) (kwargs : list (string * pyval))
    : result EncoderDecoderConvLSTM :=
  args ← bind_kwargs init_signature kwargs;
  hidden_dim ← arg_nat args "hidden_dim";
  input_channels ← arg_nat args "input_channels";
  out_channels ← arg_nat args "out_channels";
  forecast_steps ← arg_nat args "forecast_steps";
  lr ← arg_float args "lr";
  make_vis ← arg_bool args "make_vis";
  loss ← arg_str args "loss";
  pretrained ← arg_bool args "pretrained";
  __init__ env hidden_dim input_channels out_channels forecast_steps lr
    make_vis (LossName loss) pretrained.

Definition from_config (env : Env) (config : gmap string pyval)
    : result EncoderDecoderConvLSTM :=
  construct env
    [("hidden_dim", config_get config "num_hidden" (PInt 64));
     ("input_channels", config_get config "in_channels" (PInt 12));
     ("out_channels", config_get config "out_channels" (PInt 1));
     ("forecast_steps", config_get config "forecast_steps" (PInt 1));
     ("lr", config_get config "lr" (PFloat 0.001))].

(** The encoder loop, lines 94-100. *)
Fixpoint encode (self : EncoderDecoderConvLSTM) (x : Tensor A) (ts : list nat)
    (st : (Tensor A * Tensor A) * (Tensor A * Tensor A))
    : result ((Tensor A * Tensor A) * (Tensor A * Tensor A)) :=
  match ts with
  | [] => Ok st
  | t :: ts' =>
      x_t ← select x 1 t;
      s1 ← cell_forward (encoder_1_convlstm self) x_t st.1;
      s2 ← cell_forward (encoder_2_convlstm self) s1.1 st.2;
      encode self x ts' (s1, s2)
  end.

(** The decoder loop, lines 106-114: the state is the encoder vector, the
    two decoder states and the outputs collected so far. *)
Fixpoint decode (self : EncoderDecoderConvLSTM) (ts : list nat)
    (encoder_vector : Tensor A)
    (st : (Tensor A * Tensor A) * (Tensor A * Tensor A))
    (outputs : list (Tensor A)) : result (list (Tensor A)) :=
  match ts with
  | [] => Ok outputs
  | _ :: ts' =>
      s3 ← cell_forward (decoder_1_convlstm self) encoder_vector st.1;
      s4 ← cell_forward (decoder_2_convlstm self) s3.1 st.2;
      decode self ts' s4.1 (s3, s4) (outputs ++ [s4.1])
  end.

Definition autoencoder (self : EncoderDecoderConvLSTM) (x : Tensor A)
    (seq_len future_step : nat) (s1 s2 s3 s4 : Tensor A * Tensor A)
    : result (Tensor A) :=
  enc ← encode self x (seq 0 seq_len) (s1, s2);
  let encoder_vector := enc.2.1 in
  outputs ← decode self (seq 0 future_step) encoder_vector (s3, s4) [];
  outputs ← torch_stack outputs 1;
  outputs ← permute outputs [0; 2; 1; 3; 4];
  outputs ← conv3d_forward (decoder_CNN self) outputs;
  Ok (tmap sigmoid outputs).

Definition forward (self : EncoderDecoderConvLSTM) (x : Tensor A)
    (future_seq : nat) : result (Tensor A) :=
  match shape x with
  | [b; seq_len; _; h; w] =>
      let s1 := init_hidden (encoder_1_convlstm self) b (h, w) in
      let s2 := init_hidden (encoder_2_convlstm self) b (h, w) in
      let s3 := init_hidden (decoder_1_convlstm self) b (h, w) in
      let s4 := init_hidden (decoder_2_convlstm self) b (h, w) in
      autoencoder self x seq_len future_seq s1 s2 s3 s4
  | _ => Raise (ValueError "x.size(): expected 5 values to unpack")
  end.

(** [t[:, f, :, :, :]]: five index items need five dimensions. *)
Definition frame (t : Tensor A) (f : nat) : result (Tensor A) :=
  if ndim t <? 5 then Raise (IndexError "too many indices for tensor")
  else select t 1 f.

(** The per-frame loop of lines 166-168 and 179-181: one entry per
    forecast index, in order. *)
Fixpoint frame_losses (crit : loss_fn A) (prefix : string) (y_hat y : Tensor A)
    (fs : list nat) : result (list (string * A)) :=
  match fs with
  | [] => Ok []
  | f :: fs' =>
      p ← frame y_hat f;
      t ← frame y f;
      frame_loss ← crit p t;
      rest ← frame_losses crit prefix y_hat y fs';
      Ok ((prefix +:+ pretty f +:+ "_loss", frame_loss) :: rest)
  end.

(** [visualize], lines 192-219: one image per time step and channel of
    the first example of the batch. *)
Definition add_images (tag : string) (t : Tensor A) (step : nat) : M A unit :=
  img <- lift (select t 0 0) ;;
  match shape img with
  | n :: m :: _ =>
      for_range (seq 0 n) (fun i =>
        for_range (seq 0 m) (fun j =>
          add_image (tag +:+ pretty i +:+ "_Channel_" +:+ pretty j) step))
  | _ => raise (TypeError "iteration over a 0-d array")
  end.

Definition visualize (self : EncoderDecoderConvLSTM) (x y y_hat : Tensor A)
    (batch_idx : nat) : M A unit :=
  if negb (logger self) then raise (AttributeError "experiment")
  else
    _ <- add_images "Input_Image_" x batch_idx ;;
    _ <- add_images "Output_Image_" y_hat batch_idx ;;
    add_images "Target_" y batch_idx.

Definition training_step (self : EncoderDecoderConvLSTM)
    (batch : Tensor A * Tensor A) (batch_idx : nat) : M A A :=
  let '(x, y) := batch in
  y_hat <- lift (forward self x (forecast_steps self)) ;;
  _ <- (if make_vis self then
          r <- np_random ;;
          if Qltb r 0.01 then visualize self x y y_hat batch_idx
          else pure tt
        else pure tt) ;;
  loss <- lift (criterion self y_hat y) ;;
  _ <- log "train/loss" loss ;;
  y_hat <- lift (moveaxis y_hat 2 1) ;;
  frame_loss_dict <- lift (frame_losses (criterion self) "train/frame_" y_hat y
                             (seq 0 (forecast_steps self))) ;;
  _ <- log_dict frame_loss_dict ;;
  pure loss.

Definition validation_step (self : EncoderDecoderConvLSTM)
    (batch : Tensor A * Tensor A) (batch_idx : nat) : M A A :=
  let '(x, y) := batch in
  y_hat <- lift (forward self x (forecast_steps self)) ;;
  val_loss <- lift (criterion self y_hat y) ;;
  y_hat <- lift (moveaxis y_hat 2 1) ;;
  frame_loss_dict <- lift (frame_losses (criterion self) "val/frame_" y_hat y
                             (seq 0 (forecast_steps self))) ;;
  _ <- log "val/loss" val_loss ;;
  _ <- log_dict frame_loss_dict ;;
  pure val_loss.

Definition test_step (self : EncoderDecoderConvLSTM)
    (batch : Tensor A * Tensor A) (batch_idx : nat) : M A A :=
  let '(x, y) := batch in
  y_hat <- lift (forward self x (forecast_steps self)) ;;
  lift (criterion self y_hat y).

End Model.

Arguments ConvLSTMCell A : clear implicits.
Arguments Conv3d A : clear implicits.
Arguments Env A : clear implicits.
Arguments EncoderDecoderConvLSTM A : clear implicits.
End ConvLSTM.

(* ===================================================================== *)
(** ** satflow/models/nowcasting_gan.py *)

Module GAN.
Section Model.
Context {A : Type} {SA : Scalar A}.

(** A sub-network: what calling it computes and the handle of its
    parameters. *)
Record module : Type := mkModule {
  call : Tensor A -> result (Tensor A);
  parameters : string
}.

(** The classes the constructor instantiates; none of them is defined in
    the file. *)
Record Env : Type := mkEnv {
  get_loss : loss_arg A -> result (loss_fn A);
  NowcastingLoss : loss_fn A;
  GridCellLoss : loss_fn A;
  ContextConditioningStack : nat -> string -> Tensor A -> result (list (Tensor A));
  LatentConditioningStack : list nat -> nat -> result (Tensor A);
  NowcastingSampler : nat -> nat -> list (Tensor A) -> Tensor A -> result (Tensor A);
  NowcastingTemporalDiscriminator : nat -> nat -> module;
  NowcastingSpatialDiscriminator : nat -> nat -> module
}.

Record NowcastingGAN : Type := mkModel {
  (* assigned by __init__, lines 54-77 *)
  gen_lr : Q;
  disc_lr : Q;
  beta1 : Q;
  beta2 : Q;
  criterion : loss_fn A;
  discriminator_loss : loss_fn A;
  grid_regularizer : loss_fn A;
  grid_lambda : A;
  num_samples : nat;
  make_vis : bool;
  input_channels : nat;
  conditioning_stack : Tensor A -> result (list (Tensor A));
  latent_stack : nat -> result (Tensor A);
  sampler : list (Tensor A) -> Tensor A -> result (Tensor A);
  temporal_discriminator : module;
  spatial_discriminator : module;
  (* read by the methods, assigned nowhere in the class *)
  visualize_step :
    option (Tensor A -> Tensor A -> Tensor A -> nat -> string -> M A unit);
  criterionGAN : option (Tensor A -> bool -> result A);
  discriminator : option module;
  criterionL1 : option (loss_fn A);
  lambda_l1 : option A;
  b1 : option Q;
  b2 : option Q;
  generator : option module;
  lr_method : option string;
  lr_epochs : option nat
}.

Definition __init__ (env : Env) (forecast_steps input_channels output_shape
    hidden_dim : nat) (bilinear : bool) (gen_lr disc_lr : Q) (make_vis : bool)
    (loss : loss_arg A) (pretrained : bool) (conv_type : string)
    (num_samples : nat) (grid_lambda beta1 beta2 : Q) : result NowcastingGAN :=
  crit ← get_loss env loss;
  Ok {| gen_lr := gen_lr;
        disc_lr := disc_lr;
        beta1 := beta1;
        beta2 := beta2;
        criterion := crit;
        discriminator_loss := NowcastingLoss env;
        grid_regularizer := GridCellLoss env;
        grid_lambda := s_of_Q grid_lambda;
        num_samples := num_samples;
        make_vis := make_vis;
        input_channels := input_channels;
        conditioning_stack := ContextConditioningStack env input_channels conv_type;
        latent_stack :=
          LatentConditioningStack env
            [output_shape / 32; output_shape / 32; 8 * input_channels];
        sampler := NowcastingSampler env forecast_steps 768;
        temporal_discriminator :=
          NowcastingTemporalDiscriminator env input_channels (output_shape / 4);
        spatial_discriminator :=
          NowcastingSpatialDiscriminator env input_channels 8;
        visualize_step := None;
        criterionGAN := None;
        discriminator := None;
        criterionL1 := None;
        lambda_l1 := None;
        b1 := None;
        b2 := None;
        generator := None;
        lr_method := None;
        lr_epochs := None |}.

(** Assignments to attributes from outside the class
    ([model.visualize_step = hook] and the like): the only way the
    attributes that [__init__] leaves out come to exist. *)
Definition set_visualize_step (self : NowcastingGAN)
    (hook : Tensor A -> Tensor A -> Tensor A -> nat -> string -> M A unit)
    : NowcastingGAN :=
  mkModel (gen_lr self) (disc_lr self) (beta1 self) (beta2 self)
    (criterion self) (discriminator_loss self) (grid_regularizer self)
    (grid_lambda self) (num_samples self) (make_vis self) (input_channels self)
    (conditioning_stack self) (latent_stack self) (sampler self)
    (temporal_discriminator self) (spatial_discriminator self)
    (Some hook) (criterionGAN self) (discriminator self) (criterionL1 self)
    (lambda_l1 self) (b1 self) (b2 self) (generator self) (lr_method self)
    (lr_epochs self).

Definition set_validation_attributes (self : NowcastingGAN)
    (crit_gan : Tensor A -> bool -> result A) (d : module)
    (crit_l1 : loss_fn A) (lam : A) : NowcastingGAN :=
  mkModel (gen_lr self) (disc_lr self) (beta1 self) (beta2 self)
    (criterion self) (discriminator_loss self) (grid_regularizer self)
    (grid_lambda self) (num_samples self) (make_vis self) (input_channels self)
    (conditioning_stack self) (latent_stack self) (sampler self)
    (temporal_discriminator self) (spatial_discriminator self)
    (visualize_step self) (Some crit_gan) (Some d) (Some crit_l1)
    (Some lam) (b1 self) (b2 self) (generator self) (lr_method self)
    (lr_epochs self).

Definition set_optimizer_attributes (self : NowcastingGAN)
    (b1' b2' : Q) (gen d : module) (method : string) (epochs : nat)
    : NowcastingGAN :=
  mkModel (gen_lr self) (disc_lr self) (beta1 self) (beta2 self)
    (criterion self) (discriminator_loss self) (grid_regularizer self)
    (grid_lambda self) (num_samples self) (make_vis self) (input_channels self)
    (conditioning_stack self) (latent_stack self) (sampler self)
    (temporal_discriminator self) (spatial_discriminator self)
    (visualize_step self) (criterionGAN self) (Some d) (criterionL1 self)
    (lambda_l1 self) (Some b1') (Some b2') (Some gen) (Some method)
    (Some epochs).

(** Lines 21-38: the parameters of [__init__]. *)
Definition init_signature : signature :=
  [("forecast_steps", None); ("input_channels", Some (PInt 3));
   ("output_shape", Some (PInt 256)); ("hidden_dim", Some (PInt 64));
   ("bilinear", Some (PBool false)); ("gen_lr", Some (PFloat 0.00005));
   ("disc_lr", Some (PFloat 0.0002)); ("make_vis", Some (PBool false));
   ("loss", Some (PStr "mse")); ("pretrained", Some (PBool false));
   ("conv_type", Some (PStr "standard")); ("num_samples", Some (PInt 6));
   ("grid_lambda", Some (PFloat 20.0)); ("beta1", Some (PFloat 0.0));
   ("beta2", Some (PFloat 0.999))].

(** [NowcastingGAN(k1=v1, ...)] *)
Definition construct (env : Env) (kwargs : list (string * pyval))
    : result NowcastingGAN :=
  args ← bind_kwargs init_signature kwargs;
  forecast_steps ← arg_nat args "forecast_steps";
  input_channels ← arg_nat args "input_channels";
  output_shape ← arg_nat args "output_shape";
  hidden_dim ← arg_nat args "hidden_dim";
  bilinear ← arg_bool args "bilinear";
  gen_lr ← arg_float args "gen_lr";
  disc_lr ← arg_float args "disc_lr";
  make_vis ← arg_bool args "make_vis";
  loss ← arg_str args "loss";
  pretrained ← arg_bool args "pretrained";
  conv_type ← arg_str args "conv_type";
  num_samples ← arg_nat args "num_samples";
  grid_lambda ← arg_float args "grid_lambda";
  beta1 ← arg_float args "beta1";
  beta2 ← arg_float args "beta2";
  __init__ env forecast_steps input_channels output_shape hidden_dim bilinear
    gen_lr disc_lr make_vis (LossName loss) pretrained conv_type num_samples
    grid_lambda beta1 beta2.

(** Lines 80-89. *)
Definition from_config (env : Env) (config : gmap string pyval)
    : result NowcastingGAN :=
  construct env
    [("forecast_steps", config_get config "forecast_steps" (PInt 12));
     ("input_channels", config_get config "in_channels" (PInt 12));
     ("hidden_dim", config_get config "features" (PInt 64));
     ("num_layers", config_get config "num_layers" (PInt 5));
     ("bilinear", config_get config "bilinear" (PBool false));
     ("lr", config_get config "lr" (PFloat 0.001))].

(** Lines 91-95: every call draws its latent from torch's generator. *)
Definition forward (self : NowcastingGAN) (x : Tensor A) : M A (Tensor A) :=
  conditioning_states <- lift (conditioning_stack self x) ;;
  n <- torch_draw ;;
  latent_dim <- lift (latent_stack self n) ;;
  lift (sampler self conditioning_states latent_dim).

(** Lines 109-112 and 139-142: [num_samples] forward passes, concatenated
    along dimension 0 and averaged along dimension 0. *)
Fixpoint sample (self : NowcastingGAN) (images : Tensor A) (n : nat)
    (mean_prediction : list (Tensor A)) : M A (list (Tensor A)) :=
  match n with
  | 0 => pure mean_prediction
  | S n' =>
      g <- forward self images ;;
      sample self images n' (mean_prediction ++ [g])
  end.

Definition mean_of_samples (samples : list (Tensor A)) : result (Tensor A) :=
  c ← torch_cat samples 0;
  torch_mean c 0.

Definition sample_mean (self : NowcastingGAN) (images : Tensor A)
    : M A (Tensor A) :=
  samples <- sample self images (num_samples self) [] ;;
  lift (mean_of_samples samples).

(** Lines 115-122 and 145-152: one discriminator scores the real and the
    averaged sequence, each concatenated to the context along time. *)
Definition adversarial_loss (self : NowcastingGAN) (d : module)
    (images future_images mean_prediction : Tensor A) : result A :=
  real ← torch_cat [images; future_images] 1;
  d_real ← call d real;
  fake ← torch_cat [images; mean_prediction] 1;
  d_fake ← call d fake;
  discriminator_loss self d_real d_fake.

(** The [OrderedDict] a training step returns. *)
Record step_output : Type := mkOutput {
  out_loss : A;
  out_progress_bar : list (string * A);
  out_log : list (string * A)
}.

Definition generator_loss (grid_lambda spatial_loss temporal_loss grid_loss : A)
    : A :=
  ssub (sadd spatial_loss temporal_loss) (smul grid_lambda grid_loss).

Definition training_step (self : NowcastingGAN) (batch : Tensor A * Tensor A)
    (batch_idx : nat) (optimizer_idx : nat) : M A (option step_output) :=
  let '(images, future_images) := batch in
  match optimizer_idx with
  | 0 =>
      generated_images <- forward self images ;;
      vis <- lift (getattr "visualize_step" (visualize_step self)) ;;
      _ <- vis images future_images generated_images batch_idx "train" ;;
      mean_prediction <- sample_mean self images ;;
      spatial_loss <- lift (adversarial_loss self (spatial_discriminator self)
                              images future_images mean_prediction) ;;
      temporal_loss <- lift (adversarial_loss self (temporal_discriminator self)
                               images future_images mean_prediction) ;;
      grid_loss <- lift (grid_regularizer self mean_prediction future_images) ;;
      let g_loss :=
        generator_loss (grid_lambda self) spatial_loss temporal_loss grid_loss in
      let tqdm_dict := [("g_loss", g_loss)] in
      _ <- log_dict [("train/g_loss", g_loss)] ;;
      pure (Some (mkOutput g_loss tqdm_dict tqdm_dict))
  | 1 =>
      mean_prediction <- sample_mean self images ;;
      spatial_loss <- lift (adversarial_loss self (spatial_discriminator self)
                              images future_images mean_prediction) ;;
      temporal_loss <- lift (adversarial_loss self (temporal_discriminator self)
                               images future_images mean_prediction) ;;
      let d_loss := sadd spatial_loss temporal_loss in
      let tqdm_dict := [("d_loss", d_loss)] in
      _ <- log_dict [("train/d_loss", d_loss);
                     ("train/temporal_loss", temporal_loss);
                     ("train/spatial_loss", spatial_loss)] ;;
      pure (Some (mkOutput d_loss tqdm_dict tqdm_dict))
  | _ => pure None
  end.

(** The [OrderedDict] the validation step returns. *)
Record val_output : Type := mkValOutput {
  val_discriminator_loss : A;
  val_generator_loss : A;
  val_progress_bar : list (string * A);
  val_log : list (string * A)
}.

(** [self.criterionGAN(self.discriminator(t), True)] *)
Definition score (self : NowcastingGAN) (t : Tensor A) : result A :=
  crit ← getattr "criterionGAN" (criterionGAN self);
  d ← getattr "discriminator" (discriminator self);
  s ← call d t;
  crit s true.

Definition validation_step (self : NowcastingGAN) (batch : Tensor A * Tensor A)
    (batch_idx : nat) : M A val_output :=
  let '(images, future_images) := batch in
  generated_images <- forward self images ;;
  fake <- lift (torch_cat [images; generated_images] 1) ;;
  r <- np_random ;;
  _ <- (if Qltb r 0.01 then
          vis <- lift (getattr "visualize_step" (visualize_step self)) ;;
          vis images future_images generated_images batch_idx "val"
        else pure tt) ;;
  gan_loss <- lift (score self fake) ;;
  crit_l1 <- lift (getattr "criterionL1" (criterionL1 self)) ;;
  l1 <- lift (crit_l1 generated_images future_images) ;;
  lam <- lift (getattr "lambda_l1" (lambda_l1 self)) ;;
  let l1_loss := smul l1 lam in
  let g_loss := sadd gan_loss l1_loss in
  real <- lift (torch_cat [images; future_images] 1) ;;
  real_loss <- lift (score self real) ;;
  fake_loss <- lift (score self fake) ;;
  let d_loss := sdiv (sadd real_loss fake_loss) (s_of_nat 2) in
  let tqdm_dict := [("d_loss", d_loss)] in
  _ <- log_dict [("val/d_loss", d_loss); ("val/g_loss", g_loss);
                 ("val/loss", sadd d_loss g_loss)] ;;
  pure (mkValOutput d_loss g_loss tqdm_dict tqdm_dict).

(** Learning-rate schedulers of [torch.optim.lr_scheduler]. *)
Inductive scheduler : Type :=
| ReduceLROnPlateau (opt : optimizer) (mode : string) (factor threshold : Q)
    (patience : nat)
| CosineAnnealingLR (opt : optimizer) (T_max : nat) (eta_min : Q).

(** What [configure_optimizers] hands back to its caller with [return]. *)
Inductive configured : Type :=
| Configured (optimizers : list optimizer) (schedulers : list scheduler)
| NotImplementedError_object (msg : string).

(** Lines 201-220. *)
Definition configure_optimizers (self : NowcastingGAN) : M A configured :=
  b1 <- lift (getattr "b1" (b1 self)) ;;
  b2 <- lift (getattr "b2" (b2 self)) ;;
  gen <- lift (getattr "generator" (generator self)) ;;
  opt_g <- new_Adam (parameters gen) (gen_lr self) (b1, b2) ;;
  disc <- lift (getattr "discriminator" (discriminator self)) ;;
  opt_d <- new_Adam (parameters disc) (disc_lr self) (b1, b2) ;;
  lr_method <- lift (getattr "lr_method" (lr_method self)) ;;
  if String.eqb lr_method "plateau" then
    let g_scheduler := ReduceLROnPlateau opt_g "min" 0.2 0.01 10 in
    let d_scheduler := ReduceLROnPlateau opt_d "min" 0.2 0.01 10 in
    pure (Configured [opt_g; opt_d] [g_scheduler; d_scheduler])
  else if String.eqb lr_method "cosine" then
    lr_epochs <- lift (getattr "lr_epochs" (lr_epochs self)) ;;
    let g_scheduler := CosineAnnealingLR opt_g lr_epochs 0 in
    let d_scheduler := CosineAnnealingLR opt_d lr_epochs 0 in
    pure (Configured [opt_g; opt_d] [g_scheduler; d_scheduler])
  else
    pure (NotImplementedError_object "learning rate policy is not implemented").

End Model.

Arguments module A : clear implicits.
Arguments Env A : clear implicits.
Arguments NowcastingGAN A : clear implicits.
Arguments step_output A : clear implicits.
Arguments val_output A : clear implicits.
End GAN.

(* ===================================================================== *)
(** ** What is assumed of the cells *)

Section Contracts.
Context {A : Type} {SA : Scalar A}.
Import ConvLSTM.

Definition state_shape (s : Tensor A * Tensor A) (sh : list nat) : Prop :=
  shape s.1 = sh /\ shape s.2 = sh.

(** What is assumed of a ConvLSTM cell: on an input of its [input_dim]
    channels and a state of its [hidden_dim] channels, it returns a state
    of the same shape. *)
Definition cell_contract (cell : ConvLSTMCell A) (b h w : nat) : Prop :=
  forall x s,
    shape x = [b; input_dim cell; h; w] ->
    state_shape s [b; hidden_dim cell; h; w] ->
    exists s', cell_forward cell x s = Ok s'
               /\ state_shape s' [b; hidden_dim cell; h; w].

(** The model is wired as [__init__] wires it, for inputs of [c] channels:
    the first encoder cell takes [c] channels, every cell has [hd] hidden
    channels, which the next cell and the final convolution take. *)
Record wired (self : EncoderDecoderConvLSTM A) (c hd b h w : nat) : Prop := {
  w_in1 : input_dim (encoder_1_convlstm self) = c;
  w_hd1 : hidden_dim (encoder_1_convlstm self) = hd;
  w_in2 : input_dim (encoder_2_convlstm self) = hd;
  w_hd2 : hidden_dim (encoder_2_convlstm self) = hd;
  w_in3 : input_dim (decoder_1_convlstm self) = hd;
  w_hd3 : hidden_dim (decoder_1_convlstm self) = hd;
  w_in4 : input_dim (decoder_2_convlstm self) = hd;
  w_hd4 : hidden_dim (decoder_2_convlstm self) = hd;
  w_cnn : in_channels (decoder_CNN self) = hd;
  w_c1 : cell_contract (encoder_1_convlstm self) b h w;
  w_c2 : cell_contract (encoder_2_convlstm self) b h w;
  w_c3 : cell_contract (decoder_1_convlstm self) b h w;
  w_c4 : cell_contract (decoder_2_convlstm self) b h w
}.

End Contracts.

(* ===================================================================== *)
(** ** Stand-ins for the sub-networks

    The cells, the convolution weights, the discriminators and the sampler
    are free parameters of the models.  These small ones are used to run the
    steps on concrete batches. *)

Section Fixtures.
Context {A : Type} {SA : Scalar A}.

(** A cell that leaves its state as it is. *)
Definition idle_cell (i h : nat) : ConvLSTM.ConvLSTMCell A :=
  ConvLSTM.mkCell i h (fun _ s => Ok s).

(** A cell whose hidden output is its cell state, which it increments. *)
Definition counting_cell (i h : nat) : ConvLSTM.ConvLSTMCell A :=
  ConvLSTM.mkCell i h (fun _ s => Ok (s.2, tmap (sadd (s_of_nat 1)) s.2)).

(** A convolution with zero bias whose kernels are 1 at the centre. *)
Definition centre_conv (i o : nat) : ConvLSTM.Conv3d A :=
  ConvLSTM.mkConv3d i o
    (mkTensor [o; i; 1; 3; 3]
       (fun idx => match idx with
                   | [_; _; _; 1; 1] => s_of_nat 1
                   | _ => s0
                   end))
    (zeros [o]).


Definition const_loss (v : A) : loss_fn A := fun _ _ => Ok v.

Definition idle_env : ConvLSTM.Env A :=
  ConvLSTM.mkEnv idle_cell centre_conv (const_loss s0) (const_loss s0) true.

Definition counting_env : ConvLSTM.Env A :=
  ConvLSTM.mkEnv counting_cell centre_conv (const_loss s0) (const_loss s0) true.

Definition fresh_world : world A :=
  mkWorld (fun _ => 1%Q) 0 0 [] [] [].

End Fixtures.

Section GANFixtures.
Context {A : Type} {SA : Scalar A}.

(** A discriminator that scores every sequence [v]. *)
Definition const_module (name : string) (v : A) : GAN.module A :=
  GAN.mkModule (fun _ => Ok (of_list [] [v])) name.

(** A loss that reports the score given to the generated sequence. *)
Definition fake_score : loss_fn A := fun _ fake => Ok (at_ fake []).

(** The conditioning states are the context itself; the latent is the
    number of the draw. *)
Definition context_itself (x : Tensor A) : result (list (Tensor A)) := Ok [x].

Definition draw_number (n : nat) : result (Tensor A) :=
  Ok (of_list [] [s_of_nat n]).

(** A sampler whose forecast is the context plus the latent. *)
Definition shifting_sampler (states : list (Tensor A)) (latent : Tensor A)
    : result (Tensor A) :=
  match states with
  | [x] => Ok (tmap (sadd (at_ latent [])) x)
  | _ => Raise (RuntimeError "sampler: one conditioning state expected")
  end.

(** The same forecast under one more leading dimension of size 1. *)
Definition lifting_sampler (states : list (Tensor A)) (latent : Tensor A)
    : result (Tensor A) :=
  match states with
  | [x] => Ok (mkTensor (1 :: shape x)
                 (fun idx => sadd (at_ latent []) (at_ x (tail idx))))
  | _ => Raise (RuntimeError "sampler: one conditioning state expected")
  end.

Definition gan_env
    (sampler : list (Tensor A) -> Tensor A -> result (Tensor A))
    (spatial temporal grid : A) : GAN.Env A :=
  GAN.mkEnv (fun _ => Ok mse_loss) fake_score (const_loss grid)
    (fun _ _ => context_itself) (fun _ => draw_number) (fun _ _ => sampler)
    (fun _ _ => const_module "temporal" temporal)
    (fun _ _ => const_module "spatial" spatial).

Definition silent_hook (x y y_hat : Tensor A) (batch_idx : nat) (step : string)
    : M A unit :=
  pure tt.

End GANFixtures.

(* ===================================================================== *)
(** ** Concrete models, batches and worlds *)

(** [torch.nn.Sigmoid] on one element, in exact arithmetic. *)
Definition sigmoid_R (x : R) : R := (1 / (1 + exp (- x)))%R.

(** [torch.nn.Sigmoid] on one float32 element: torch computes
    [1 / (1 + exp(-x))] with float32 operations.

    The exponential comes from the C library.  [exp32] stands for it: the
    series [sum x^k / k!] of [|x|] is evaluated in fixed point with 128
    fractional bits (400 terms, [|x|] capped at 128, beyond which the
    result overflows or underflows anyway), the reciprocal is taken for a
    negative argument, and the result is rounded once to float32; this is
    within one unit in the last place of [e^x]. *)
Fixpoint exp_series (x term k : N) (n : nat) (acc : N) : N :=
  match n with
  | O => acc
  | S n' =>
      let term' := (N.shiftr (term * x) 128 / k)%N in
      exp_series x term' (N.succ k) n' (acc + term')%N
  end.

(** [e^x] in units of [2^-128], for [x] in units of [2^-128]. *)
Definition exp_fixed (x : N) : N :=
  exp_series x (N.shiftl 1 128) 1 400 (N.shiftl 1 128).

Definition exp32 (x : float32) : float32 :=
  match x with
  | S754_nan => S754_nan
  | S754_zero _ => f32_one
  | S754_infinity false => S754_infinity false
  | S754_infinity true => S754_zero false
  | S754_finite s m e =>
      let mag := N.min (Z.to_N (Z.shiftl (Zpos m) (e + 128))) (N.shiftl 128 128) in
      let big := exp_fixed mag in
      if s then f32_of_N (N.shiftl 1 512 / big) (-384)
      else f32_of_N big (-128)
  end.

Definition sigmoid_f32 (x : float32) : float32 :=
  f32_div f32_one (f32_add f32_one (exp32 (SFopp x))).

(** A float32 that is a number of the closed interval [[0, 1]]: a zero, or
    a positive [m * 2 ^ e] with [m <= 2 ^ (- e)]. *)
Definition in_unit_interval (v : float32) : bool :=
  match v with
  | S754_zero _ => true
  | S754_finite false m e => ((e <=? 0) && (Zpos m <=? 2 ^ (- e)))%Z
  | _ => false
  end.

(** A float32 that is at least 1, and one that is not negative. *)
Definition at_least_one (v : float32) : Prop :=
  match v with
  | S754_infinity false => True
  | S754_finite false m e => (0 <= e \/ 2 ^ (- e) <= Zpos m)%Z
  | _ => False
  end.

Definition not_negative (v : float32) : Prop :=
  match v with
  | S754_zero false | S754_infinity false | S754_finite false _ _ => True
  | _ => False
  end.


Definition idle_model : ConvLSTM.EncoderDecoderConvLSTM R :=
  ConvLSTM.mkModel 2 mse_loss 0.001 false
    (idle_cell 1 4) (idle_cell 4 4) (idle_cell 4 4) (idle_cell 4 4)
    (centre_conv 4 1) false.

Definition counting_model : ConvLSTM.EncoderDecoderConvLSTM R :=
  ConvLSTM.mkModel 2 mse_loss 0.001 false
    (counting_cell 1 1) (counting_cell 1 1) (counting_cell 1 1)
    (counting_cell 1 1) (centre_conv 1 1) false.

Definition log_to {A} (w : world A) (d : list (string * A)) : world A :=
  mkWorld (np_stream w) (np_cursor w) (torch_cursor w)
    (scalars_logged w ++ d) (images_logged w) (optimizers_created w).

Definition adam_created {A} (w : world A) (o1 o2 : optimizer) : world A :=
  mkWorld (np_stream w) (np_cursor w) (torch_cursor w)
    (scalars_logged w) (images_logged w) ((optimizers_created w ++ [o1]) ++ [o2]).

Definition one_frame : Tensor Q := of_list [1; 1; 1; 1; 1] [1%Q].

Definition batch_of_two : Tensor Q := of_list [2; 1; 1; 1; 1] [1%Q; 2%Q].

Definition first_output {X} (r : result X * world Q) : result X := r.1.

(** Discriminators that score 2 (spatial) and 3 (temporal), a grid
    regularizer that returns 1/10. *)
Definition stub_env (sampler : list (Tensor Q) -> Tensor Q -> result (Tensor Q))
    : GAN.Env Q :=
  gan_env sampler 2%Q 3%Q (1 # 10)%Q.

(* ===================================================================== *)
(** ** Definitions for the further properties *)

(** [self.make_vis = b], assigned from outside. *)
Definition set_make_vis {A : Type} (self : ConvLSTM.EncoderDecoderConvLSTM A)
    (b : bool) : ConvLSTM.EncoderDecoderConvLSTM A :=
  ConvLSTM.mkModel (ConvLSTM.forecast_steps self) (ConvLSTM.criterion self)
    (ConvLSTM.lr self) b
    (ConvLSTM.encoder_1_convlstm self) (ConvLSTM.encoder_2_convlstm self)
    (ConvLSTM.decoder_1_convlstm self) (ConvLSTM.decoder_2_convlstm self)
    (ConvLSTM.decoder_CNN self) (ConvLSTM.logger self).

(** The part of [autoencoder] after the two loops, lines 116-119. *)
Definition head_of {A : Type} {SA : Scalar A} (sigmoid : A -> A)
    (outputs : list (Tensor A)) (cnn : ConvLSTM.Conv3d A) : result (Tensor A) :=
  outputs ← torch_stack outputs 1;
  outputs ← permute outputs [0; 2; 1; 3; 4];
  outputs ← ConvLSTM.conv3d_forward cnn outputs;
  Ok (tmap sigmoid outputs).

(** What a training step of the recurrent model does after the optional
    visualisation, lines 162-170. *)
Definition after_visualisation {A : Type} {SA : Scalar A}
    (self : ConvLSTM.EncoderDecoderConvLSTM A) (y_hat y : Tensor A) : M A A :=
  loss <- lift (ConvLSTM.criterion self y_hat y) ;;
  _ <- log "train/loss" loss ;;
  y_hat <- lift (moveaxis y_hat 2 1) ;;
  frame_loss_dict <- lift (ConvLSTM.frame_losses (ConvLSTM.criterion self)
                             "train/frame_" y_hat y
                             (seq 0 (ConvLSTM.forecast_steps self))) ;;
  _ <- log_dict frame_loss_dict ;;
  pure loss.

(** Its result and the scalars it logs, which do not depend on the world. *)
Definition step_outcome {A : Type} {SA : Scalar A}
    (self : ConvLSTM.EncoderDecoderConvLSTM A) (y_hat y : Tensor A)
    : result A * list (string * A) :=
  match ConvLSTM.criterion self y_hat y with
  | Raise e => (Raise e, [])
  | Ok loss =>
      match moveaxis y_hat 2 1 with
      | Raise e => (Raise e, [("train/loss", loss)])
      | Ok mv =>
          match ConvLSTM.frame_losses (ConvLSTM.criterion self) "train/frame_"
                  mv y (seq 0 (ConvLSTM.forecast_steps self)) with
          | Raise e => (Raise e, [("train/loss", loss)])
          | Ok d => (Ok loss, ("train/loss", loss) :: d)
          end
      end
  end.


(** The keys [EncoderDecoderConvLSTM.from_config] looks up, lines 82-86. *)
Definition read_keys : list string :=
  ["num_hidden"; "in_channels"; "out_channels"; "forecast_steps"; "lr"].

(** The world after [n] more draws from torch's generator. *)
Definition advance {A : Type} (w : world A) (n : nat) : world A :=
  mkWorld (np_stream w) (np_cursor w) (torch_cursor w + n)
    (scalars_logged w) (images_logged w) (optimizers_created w).

(** More concrete models and worlds. *)
Definition no_horizon_model : ConvLSTM.EncoderDecoderConvLSTM R :=
  ConvLSTM.mkModel 0 mse_loss 0.001 false
    (idle_cell 1 1) (idle_cell 1 1) (idle_cell 1 1) (idle_cell 1 1)
    (centre_conv 1 1) false.


(** [counting_model] with visualisation switched on and a logger attached. *)
Definition watched_model : ConvLSTM.EncoderDecoderConvLSTM R :=
  ConvLSTM.mkModel 2 mse_loss 0.001 true
    (counting_cell 1 1) (counting_cell 1 1) (counting_cell 1 1)
    (counting_cell 1 1) (centre_conv 1 1) true.

(** A world in which every [np.random.random()] returns 0. *)
Definition eager_world {A : Type} : world A :=
  mkWorld (fun _ => 0%Q) 0 0 [] [] [].

Definition two_frames : Tensor R := of_list [1; 2; 1; 1; 1] [0; 1]%R.

(** The adversarial model as [__init__] builds it from [stub_env], with
    [n] samples. *)
Definition stub_gan (n : nat)
    (sampler : list (Tensor Q) -> Tensor Q -> result (Tensor Q))
    : GAN.NowcastingGAN Q :=
  GAN.mkModel 0.00005 0.0002 0.0 0.999 mse_loss fake_score
    (const_loss (1 # 10)%Q) 20.0%Q n false 3 context_itself draw_number sampler
    (const_module "temporal" 3%Q) (const_module "spatial" 2%Q)
    None None None None None None None None None None.

(** A criterion that reports the score when the label is [True]. *)
Definition score_if_real (t : Tensor Q) (label : bool) : result Q :=
  Ok (if label then at_ t [] else 0%Q).

(** [stub_gan] with the attributes of the validation step assigned. *)
Definition validated_gan : GAN.NowcastingGAN Q :=
  GAN.set_validation_attributes (stub_gan 6 shifting_sampler) score_if_real
    (const_module "discriminator" (1 # 2)%Q) (const_loss (1 # 4)%Q) 100%Q.

(** [stub_gan] with the optimizer attributes assigned, [lr_epochs] left
    out. *)
Definition cosine_without_epochs : GAN.NowcastingGAN Q :=
  GAN.mkModel 0.00005 0.0002 0.0 0.999 mse_loss fake_score
    (const_loss (1 # 10)%Q) 20.0%Q 6 false 3 context_itself draw_number
    shifting_sampler
    (const_module "temporal" 3%Q) (const_module "spatial" 2%Q)
    None None (Some (const_module "discriminator" 0%Q)) None None
    (Some 0.5%Q) (Some 0.999%Q) (Some (const_module "generator" 0%Q))
    (Some "cosine") None.

(** Samples of a batch of two and of a batch of one. *)
Definition three_samples : list (Tensor Q) :=
  [of_list [2; 1; 1] [1; 2]%Q; of_list [2; 1; 1] [3; 4]%Q;
   of_list [2; 1; 1] [5; 6]%Q].

Definition three_single_samples : list (Tensor Q) :=
  [of_list [1; 2] [1; 2]%Q; of_list [1; 2] [3; 4]%Q; of_list [1; 2] [5; 9]%Q].

Definition plateau_gan : GAN.NowcastingGAN Q :=
  GAN.set_optimizer_attributes (stub_gan 6 shifting_sampler) 0.5 0.999
    (const_module "generator" 0%Q) (const_module "discriminator" 0%Q)
    "plateau" 10.

(** The constructors of the environment build what they are asked for:
    cells and convolutions of the requested dimensions, the cells keeping
    the shape of their state. *)
Definition env_respects_dims {A : Type} {SA : Scalar A} (env : ConvLSTM.Env A)
    (b h w : nat) : Prop :=
  (forall i hd,
      ConvLSTM.input_dim (ConvLSTM.new_ConvLSTMCell env i hd) = i
      /\ ConvLSTM.hidden_dim (ConvLSTM.new_ConvLSTMCell env i hd) = hd
      /\ cell_contract (ConvLSTM.new_ConvLSTMCell env i hd) b h w)
  /\ (forall i o,
        ConvLSTM.in_channels (ConvLSTM.new_Conv3d env i o) = i
        /\ ConvLSTM.out_channels (ConvLSTM.new_Conv3d env i o) = o).

(* ===================================================================== *)
(** ** Results on the constructors *)

Section Constructors.
Context {A : Type} {SA : Scalar A}.

Lemma loss_in_name (s : string) (names : list string) :
  ConvLSTM.loss_in (A:=A) (LossName s) names = bool_decide (s ∈ names).
Proof. reflexivity. Qed.

Lemma loss_in_sublist (s : string) (names : list string) :
  s ∉ ConvLSTM.recognized ->
  forallb (fun n => bool_decide (n ∈ ConvLSTM.recognized)) names = true ->
  bool_decide (s ∈ names) = false.
Proof.
  intros Hs Hsub. apply bool_decide_eq_false. intros Hin. apply Hs.
  rewrite forallb_forall in Hsub.
  apply list_elem_of_In in Hin.
  specialize (Hsub s Hin). apply bool_decide_eq_true in Hsub. exact Hsub.
Qed.

(** An unrecognized name never resolves to a criterion: the assertion
    stops it, and without assertions the final [raise] does. *)
Lemma resolve_loss_unrecognized (env : ConvLSTM.Env A) (s : string) :
  s ∉ ConvLSTM.recognized ->
  ConvLSTM.resolve_loss env (LossName s) =
    Raise (if ConvLSTM.debug env then AssertionError
           else ValueError "loss not recognized").
Proof.
  intros Hs. unfold ConvLSTM.resolve_loss. rewrite !loss_in_name.
  rewrite !(loss_in_sublist s _ Hs) by reflexivity.
  destruct (ConvLSTM.debug env); reflexivity.
Qed.

(** An object that is neither a string nor a [torch.nn.Module] goes
    through the same tests as a name.  When its [__eq__] accepts none of
    the recognized names it is refused like an unrecognized name. *)
Lemma resolve_loss_object (env : ConvLSTM.Env A) (f : loss_fn A)
    (eq_str : string -> bool) :
  (forall n, n ∈ ConvLSTM.recognized -> eq_str n = false) ->
  ConvLSTM.resolve_loss env (LossObject f eq_str) =
    Raise (if ConvLSTM.debug env then AssertionError
           else ValueError "loss not recognized").
Proof.
  intros Hne. unfold ConvLSTM.resolve_loss, ConvLSTM.loss_in.
  assert (forall names,
            forallb (fun n => bool_decide (n ∈ ConvLSTM.recognized)) names = true ->
            existsb eq_str names = false) as Hnone.
  { intros names Hsub. rewrite forallb_forall in Hsub.
    destruct (existsb eq_str names) eqn:Hex; [|reflexivity].
    apply existsb_exists in Hex as (n & Hin & Hn).
    specialize (Hsub n Hin). apply bool_decide_eq_true in Hsub.
    rewrite (Hne n Hsub) in Hn. discriminate Hn. }
  rewrite !Hnone by reflexivity.
  destruct (ConvLSTM.debug env); reflexivity.
Qed.

(** What the callable computes plays no part: the outcome depends on the
    answers of its [__eq__] alone. *)
Lemma resolve_loss_object_callable (env : ConvLSTM.Env A) (f f' : loss_fn A)
    (eq_str : string -> bool) :
  ConvLSTM.resolve_loss env (LossObject f eq_str)
  = ConvLSTM.resolve_loss env (LossObject f' eq_str).
Proof. reflexivity. Qed.

(** An object whose [__eq__] accepts "mse" passes line 33 and takes the
    branch of line 34; one that accepts "focal" only takes line 38. *)
Lemma resolve_loss_object_equal (env : ConvLSTM.Env A) (f : loss_fn A)
    (eq_str : string -> bool) :
  (eq_str "mse" = true ->
   ConvLSTM.resolve_loss env (LossObject f eq_str) = Ok mse_loss)
  /\ (eq_str "focal" = true ->
      (forall n, n ∈ ConvLSTM.recognized -> n <> "focal" -> eq_str n = false) ->
      ConvLSTM.resolve_loss env (LossObject f eq_str)
      = Ok (ConvLSTM.FocalLoss env)).
Proof.
  split.
  - intros Hmse. unfold ConvLSTM.resolve_loss, ConvLSTM.loss_in, ConvLSTM.recognized.
    cbn [existsb]. rewrite Hmse. cbn [orb negb andb].
    rewrite andb_false_r. reflexivity.
  - intros Hfocal Hother.
    unfold ConvLSTM.resolve_loss, ConvLSTM.loss_in, ConvLSTM.recognized.
    cbn [existsb]. rewrite Hfocal.
    rewrite (Hother "mse"), (Hother "bce"), (Hother "binary_crossentropy"),
      (Hother "crossentropy");
      try discriminate;
      try (unfold ConvLSTM.recognized; rewrite !elem_of_cons; tauto).
    cbn [orb negb andb]. rewrite andb_false_r. reflexivity.
Qed.

Lemma resolve_loss_recognized (env : ConvLSTM.Env A) (s : string) :
  s ∈ ConvLSTM.recognized -> is_ok (ConvLSTM.resolve_loss env (LossName s)) = true.
Proof.
  unfold ConvLSTM.recognized. rewrite !elem_of_cons, elem_of_nil.
  intros [->|[->|[->|[->|[->|[]]]]]]; unfold ConvLSTM.resolve_loss;
    destruct (ConvLSTM.debug env); reflexivity.
Qed.

(** C8 (amended).  Constructing the recurrent model with a loss name
    outside the recognized set raises during construction (the assertion of
    line 33, or the [ValueError] of line 41 when assertions are off), so
    no model exists that could fail later.  A [torch.nn.Module] becomes the
    criterion as it is.  A callable that is not a [torch.nn.Module] is not
    taken as it is: it goes through the tests of lines 33-38 like a name,
    what it computes is never looked at, and when it is equal to none of
    the recognized names (a plain function is equal to no string) the
    construction raises the same error. *)
Theorem init_loss_resolution (env : ConvLSTM.Env A)
    (hidden_dim input_channels out_channels forecast_steps : nat) (lr : Q)
    (make_vis pretrained : bool) :
  let construct loss :=
    ConvLSTM.__init__ env hidden_dim input_channels out_channels
      forecast_steps lr make_vis loss pretrained in
  let failure :=
    if ConvLSTM.debug env then AssertionError
    else ValueError "loss not recognized" in
  (forall s, s ∉ ConvLSTM.recognized -> construct (LossName s) = Raise failure)
  /\ (forall m, exists self,
        construct (LossModule m) = Ok self /\ ConvLSTM.criterion self = m)
  /\ (forall f eq_str,
        (forall n, n ∈ ConvLSTM.recognized -> eq_str n = false) ->
        construct (LossObject f eq_str) = Raise failure)
  /\ (forall f, construct (plain_function f) = Raise failure)
  /\ (forall f f' eq_str,
        construct (LossObject f eq_str) = construct (LossObject f' eq_str)).
Proof.
  intros construct failure. subst construct failure.
  split; [|split; [|split; [|split]]].
  - intros s Hs. unfold ConvLSTM.__init__.
    rewrite (resolve_loss_unrecognized env s Hs). reflexivity.
  - intros m. eexists. split; reflexivity.
  - intros f eq_str Hne. unfold ConvLSTM.__init__.
    rewrite (resolve_loss_object env f eq_str Hne). reflexivity.
  - intros f. unfold ConvLSTM.__init__, plain_function.
    rewrite resolve_loss_object by reflexivity. reflexivity.
  - intros f f' eq_str. unfold ConvLSTM.__init__.
    rewrite (resolve_loss_object_callable env f f'). reflexivity.
Qed.

(** C10.  Whatever the configuration mapping holds, [from_config] of the
    adversarial model raises a [TypeError]: it calls the constructor with
    the keyword [num_layers], which [__init__] does not have. *)
Theorem from_config_raises (env : GAN.Env A) (config : gmap string pyval) :
  GAN.from_config env config =
    Raise (TypeError "got an unexpected keyword argument 'num_layers'").
Proof. reflexivity. Qed.

(** The recurrent model's [from_config] passes only keywords its
    constructor has: on the empty mapping it builds a model with the
    defaults of lines 82-86. *)
Lemma recurrent_from_config_default (env : ConvLSTM.Env A) :
  exists self,
    ConvLSTM.from_config env ∅ = Ok self
    /\ ConvLSTM.forecast_steps self = 1
    /\ ConvLSTM.encoder_1_convlstm self = ConvLSTM.new_ConvLSTMCell env 12 64
    /\ ConvLSTM.decoder_CNN self = ConvLSTM.new_Conv3d env 64 1.
Proof.
  destruct env as [new_cell new_conv nll focal dbg].
  destruct dbg; (eexists; split; [reflexivity | repeat split]).
Qed.

(** The keyword [lr] alone would be refused as well. *)
Lemma init_rejects_lr :
  accepts GAN.init_signature "lr" = false
  /\ accepts GAN.init_signature "num_layers" = false.
Proof. split; reflexivity. Qed.

End Constructors.

(* ===================================================================== *)
(** ** Shapes through the torch operations *)

Section TorchFacts.
Context {A : Type} {SA : Scalar A}.

Lemma forallb_list_eqb (ts : list (Tensor A)) (sh : list nat) (f : list nat -> list nat) :
  Forall (fun t => shape t = sh) ts ->
  forallb (fun t => list_eqb (f (shape t)) (f sh)) ts = true.
Proof.
  induction 1 as [|t ts Ht _ IH]; simpl; [reflexivity|].
  rewrite Ht, IH. unfold list_eqb. rewrite bool_decide_eq_true_2 by reflexivity.
  reflexivity.
Qed.

Lemma torch_stack_ok (ts : list (Tensor A)) (sh : list nat) (dim : nat) :
  ts <> [] -> Forall (fun t => shape t = sh) ts -> dim <= length sh ->
  exists t, torch_stack ts dim = Ok t
            /\ shape t = insert_at dim (length ts) sh.
Proof.
  intros Hne Hall Hdim. destruct ts as [|t0 rest]; [congruence|].
  apply Forall_cons in Hall as [H0 Hrest].
  unfold torch_stack.
  pose proof (forallb_list_eqb rest sh (fun l => l) Hrest) as Hf.
  rewrite H0. simpl in Hf. rewrite Hf. simpl negb. cbv iota.
  unfold ndim. rewrite H0.
  destruct (Nat.leb_spec dim (length sh)) as [_|Hlt]; [|lia].
  simpl. eexists. split; [reflexivity|]. simpl. reflexivity.
Qed.

Lemma torch_stack_empty (dim : nat) :
  torch_stack (A:=A) [] dim = Raise (RuntimeError "stack expects a non-empty TensorList").
Proof. reflexivity. Qed.

Lemma permute_swap_1_2 (t : Tensor A) (a b c d e : nat) :
  shape t = [a; b; c; d; e] ->
  exists t', permute t [0; 2; 1; 3; 4] = Ok t'
             /\ shape t' = [a; c; b; d; e]
             /\ forall i j k l m, at_ t' [i; j; k; l; m] = at_ t [i; k; j; l; m].
Proof.
  intros Hsh. unfold permute, ndim. rewrite Hsh. simpl.
  eexists. split; [reflexivity|]. split; reflexivity.
Qed.


Lemma select_time (x : Tensor A) (b T c h w t : nat) :
  shape x = [b; T; c; h; w] -> t < T ->
  exists x_t, select x 1 t = Ok x_t /\ shape x_t = [b; c; h; w].
Proof.
  intros Hsh Ht. unfold select, ndim. rewrite Hsh. simpl.
  destruct (Nat.ltb_spec t T) as [_|Hge]; [|lia].
  simpl. eexists. split; reflexivity.
Qed.

(** Concatenating along dimension 0 and averaging along dimension 0 removes
    the leading dimension of the pieces. *)
Lemma cat_mean_drops_leading (ts : list (Tensor A)) (n : nat) (sh : list nat) :
  ts <> [] -> Forall (fun t => shape t = n :: sh) ts ->
  exists c m, torch_cat ts 0 = Ok c /\ torch_mean c 0 = Ok m /\ shape m = sh.
Proof.
  intros Hne Hall. destruct ts as [|t0 rest]; [congruence|].
  apply Forall_cons in Hall as [H0 Hrest].
  unfold torch_cat.
  assert (forallb (fun t => ndim t =? ndim t0) rest = true) as ->.
  { apply forallb_forall. intros t Hin. apply Nat.eqb_eq.
    rewrite Forall_forall in Hrest. unfold ndim.
    rewrite (Hrest t), H0; [reflexivity|]. apply list_elem_of_In, Hin. }
  unfold ndim at 1. rewrite H0. simpl negb. cbv iota.
  pose proof (forallb_list_eqb rest (n :: sh) (remove_at 0) Hrest) as Hf.
  rewrite Hf. simpl negb. cbv iota.
  eexists. eexists. split; [reflexivity|].
  unfold torch_mean, ndim. simpl. split; reflexivity.
Qed.

End TorchFacts.

(* ===================================================================== *)
(** ** The forward pass of the recurrent encoder-decoder *)

Section Recurrence.
Context {A : Type} {SA : Scalar A}.
Variable sigmoid : A -> A.

Import ConvLSTM.


Lemma init_hidden_shape (cell : ConvLSTMCell A) (b h w : nat) :
  state_shape (init_hidden cell b (h, w)) [b; hidden_dim cell; h; w].
Proof. split; reflexivity. Qed.

Lemma encode_ok (self : EncoderDecoderConvLSTM A) (x : Tensor A)
    (c hd b T h w : nat) (ts : list nat) :
  wired self c hd b h w -> shape x = [b; T; c; h; w] ->
  Forall (fun t => t < T) ts ->
  forall s1 s2,
    state_shape s1 [b; hd; h; w] -> state_shape s2 [b; hd; h; w] ->
    exists st, encode self x ts (s1, s2) = Ok st
               /\ state_shape st.1 [b; hd; h; w]
               /\ state_shape st.2 [b; hd; h; w].
Proof.
  intros W Hx Hts. induction Hts as [|t ts Ht _ IH]; intros s1 s2 H1 H2.
  - exists (s1, s2). simpl. auto.
  - simpl. destruct (select_time x b T c h w t Hx Ht) as (x_t & -> & Hxt). simpl.
    destruct (w_c1 _ _ _ _ _ _ W x_t s1) as (s1' & -> & H1').
    { rewrite (w_in1 _ _ _ _ _ _ W). exact Hxt. }
    { rewrite (w_hd1 _ _ _ _ _ _ W). exact H1. }
    simpl. rewrite (w_hd1 _ _ _ _ _ _ W) in H1'.
    destruct (w_c2 _ _ _ _ _ _ W s1'.1 s2) as (s2' & -> & H2').
    { rewrite (w_in2 _ _ _ _ _ _ W). apply H1'. }
    { rewrite (w_hd2 _ _ _ _ _ _ W). exact H2. }
    simpl. rewrite (w_hd2 _ _ _ _ _ _ W) in H2'.
    apply IH; assumption.
Qed.

Lemma decode_ok (self : EncoderDecoderConvLSTM A) (c hd b h w : nat)
    (ts : list nat) :
  wired self c hd b h w ->
  forall ev s3 s4 outs,
    shape ev = [b; hd; h; w] ->
    state_shape s3 [b; hd; h; w] -> state_shape s4 [b; hd; h; w] ->
    Forall (fun t => shape t = [b; hd; h; w]) outs ->
    exists outs', decode self ts ev (s3, s4) outs = Ok outs'
                  /\ Forall (fun t => shape t = [b; hd; h; w]) outs'
                  /\ length outs' = length outs + length ts.
Proof.
  intros W. induction ts as [|t ts IH]; intros ev s3 s4 outs Hev H3 H4 Houts.
  - exists outs. simpl. repeat split; [assumption|lia].
  - simpl.
    destruct (w_c3 _ _ _ _ _ _ W ev s3) as (s3' & -> & H3').
    { rewrite (w_in3 _ _ _ _ _ _ W). exact Hev. }
    { rewrite (w_hd3 _ _ _ _ _ _ W). exact H3. }
    simpl. rewrite (w_hd3 _ _ _ _ _ _ W) in H3'.
    destruct (w_c4 _ _ _ _ _ _ W s3'.1 s4) as (s4' & -> & H4').
    { rewrite (w_in4 _ _ _ _ _ _ W). apply H3'. }
    { rewrite (w_hd4 _ _ _ _ _ _ W). exact H4. }
    simpl. rewrite (w_hd4 _ _ _ _ _ _ W) in H4'.
    destruct (IH s4'.1 s3' s4' (outs ++ [s4'.1])%list) as (outs' & -> & Hall & Hlen).
    + apply H4'.
    + exact H3'.
    + exact H4'.
    + apply Forall_app. split; [assumption|]. constructor; [apply H4'|constructor].
    + exists outs'. split; [reflexivity|]. split; [assumption|].
      rewrite Hlen, length_app. simpl. lia.
Qed.

Lemma conv3d_ok (m : Conv3d A) (x : Tensor A) (b t h w : nat) :
  shape x = [b; in_channels m; t; h; w] ->
  exists y, conv3d_forward m x = Ok y
            /\ shape y = [b; out_channels m; t; h; w].
Proof.
  intros Hx. unfold conv3d_forward. rewrite Hx.
  rewrite Nat.eqb_refl. simpl. eexists. split; reflexivity.
Qed.

(** The forward pass returns, with the shape
    [[batch, out_channels, T_out, H, W]], and every element of the result
    is an image of the sigmoid. *)
Lemma forward_ok (self : EncoderDecoderConvLSTM A) (x : Tensor A)
    (c hd b T h w T_out : nat) :
  wired self c hd b h w -> shape x = [b; T; c; h; w] -> 1 <= T_out ->
  exists pre,
    forward sigmoid self x T_out = Ok (tmap sigmoid pre)
    /\ shape pre = [b; out_channels (decoder_CNN self); T_out; h; w].
Proof.
  intros W Hx HT. unfold forward. rewrite Hx. unfold autoencoder.
  destruct (encode_ok self x c hd b T h w (seq 0 T) W Hx) with
    (s1 := init_hidden (encoder_1_convlstm self) b (h, w))
    (s2 := init_hidden (encoder_2_convlstm self) b (h, w))
    as (st & -> & _ & Hst2).
  { apply Forall_forall. intros t Ht. apply list_elem_of_In, in_seq in Ht. lia. }
  { rewrite <- (w_hd1 _ _ _ _ _ _ W). apply init_hidden_shape. }
  { rewrite <- (w_hd2 _ _ _ _ _ _ W). apply init_hidden_shape. }
  simpl.
  destruct (decode_ok self c hd b h w (seq 0 T_out) W st.2.1
              (init_hidden (decoder_1_convlstm self) b (h, w))
              (init_hidden (decoder_2_convlstm self) b (h, w)) [])
    as (outs & -> & Hall & Hlen).
  { apply Hst2. }
  { rewrite <- (w_hd3 _ _ _ _ _ _ W). apply init_hidden_shape. }
  { rewrite <- (w_hd4 _ _ _ _ _ _ W). apply init_hidden_shape. }
  { constructor. }
  simpl. rewrite length_seq in Hlen. simpl in Hlen.
  destruct (torch_stack_ok outs [b; hd; h; w] 1) as (stacked & -> & Hstk).
  { intros ->. simpl in Hlen. lia. }
  { exact Hall. }
  { simpl. lia. }
  simpl. rewrite Hlen in Hstk. unfold insert_at in Hstk. simpl in Hstk.
  destruct (permute_swap_1_2 stacked _ _ _ _ _ Hstk) as (perm & -> & Hperm & _).
  simpl. rewrite <- (w_cnn _ _ _ _ _ _ W) in Hperm.
  destruct (conv3d_ok (decoder_CNN self) perm _ _ _ _ Hperm) as (pre & -> & Hpre).
  simpl. exists pre. split; [reflexivity | exact Hpre].
Qed.

(** C6.  With a forecast horizon of zero the forward pass never returns a
    tensor: it raises.  When the input is 5-D and the encoder runs through,
    the exception is the one [torch.stack] raises on the empty list of
    decoder outputs. *)
Theorem forward_zero_horizon_raises (self : EncoderDecoderConvLSTM A)
    (x : Tensor A) :
  (exists e, forward sigmoid self x 0 = Raise e)
  /\ (forall b T c h w st,
        shape x = [b; T; c; h; w] ->
        encode self x (seq 0 T)
          (init_hidden (encoder_1_convlstm self) b (h, w),
           init_hidden (encoder_2_convlstm self) b (h, w)) = Ok st ->
        forward sigmoid self x 0 =
          Raise (RuntimeError "stack expects a non-empty TensorList")).
Proof.
  split.
  - unfold forward.
    destruct (shape x) as [|b [|T [|c [|h [|w [|? ?]]]]]]; try (eexists; reflexivity).
    unfold autoencoder.
    destruct (encode self x (seq 0 T) _) as [st|e]; simpl; eexists; reflexivity.
  - intros b T c h w st Hx Henc. unfold forward. rewrite Hx.
    unfold autoencoder. rewrite Henc. reflexivity.
Qed.

End Recurrence.


(* ===================================================================== *)
(** ** The sigmoid and the value range of the forward pass *)


Lemma sigmoid_R_range (x : R) : (0 < sigmoid_R x < 1)%R.
Proof.
  unfold sigmoid_R. pose proof (exp_pos (- x)) as Hpos.
  split.
  - apply Rdiv_lt_0_compat; lra.
  - apply (Rmult_lt_reg_r (1 + exp (- x))); [lra|].
    unfold Rdiv. rewrite Rmult_assoc, Rinv_l by lra. lra.
Qed.

Lemma sigmoid_R_0 : sigmoid_R 0 = (1 / 2)%R.
Proof. unfold sigmoid_R. rewrite Ropp_0, exp_0. lra. Qed.

Lemma sigmoid_R_1 : (2 / 3 < sigmoid_R 1)%R.
Proof.
  unfold sigmoid_R. rewrite exp_Ropp.
  assert (2 < exp 1)%R as He by (pose proof (exp_ineq1 1); lra).
  assert (/ exp 1 < / 2)%R as Hi by (apply Rinv_lt_contravar; lra).
  apply (Rmult_lt_reg_r (1 + / exp 1)).
  - pose proof (Rinv_0_lt_compat (exp 1)). lra.
  - unfold Rdiv at 2. rewrite Rmult_assoc, Rinv_l.
    + lra.
    + pose proof (Rinv_0_lt_compat (exp 1)). lra.
Qed.

Lemma idle_cell_contract (i hd b h w : nat) :
  cell_contract (idle_cell (A:=R) i hd) b h w.
Proof. intros x s _ Hs. exists s. split; [reflexivity | exact Hs]. Qed.


Lemma idle_model_wired : wired idle_model 1 4 1 8 8.
Proof. constructor; try reflexivity; apply idle_cell_contract. Qed.

(** In exact arithmetic: for a 5-D input [[batch, T_in, channels, H, W]]
    whose channels are those of the first encoder cell, and a horizon
    [T_out >= 1], the forward pass over the reals returns a tensor of shape
    [[batch, out_channels, T_out, H, W]] whose elements all lie strictly
    between 0 and 1.  The cells are assumed to keep the shape of their
    state.  What becomes of the two bounds in float32 is the subject of
    the next section. *)
Lemma forward_shape_and_range (self : ConvLSTM.EncoderDecoderConvLSTM R)
    (x : Tensor R) (c hd b T h w T_out : nat) :
  wired self c hd b h w -> shape x = [b; T; c; h; w] -> 1 <= T_out ->
  exists out,
    ConvLSTM.forward sigmoid_R self x T_out = Ok out
    /\ shape out = [b; ConvLSTM.out_channels (ConvLSTM.decoder_CNN self); T_out; h; w]
    /\ forall idx, (0 < at_ out idx < 1)%R.
Proof.
  intros W Hx HT.
  destruct (forward_ok sigmoid_R self x c hd b T h w T_out W Hx HT)
    as (pre & Hfw & Hpre).
  exists (tmap sigmoid_R pre). split; [exact Hfw|]. split; [exact Hpre|].
  intros idx. simpl. apply sigmoid_R_range.
Qed.

Lemma forward_shape_and_range_witness :
  exists out,
    ConvLSTM.forward sigmoid_R idle_model (zeros [1; 3; 1; 8; 8]) 2 = Ok out
    /\ shape out = [1; 1; 2; 8; 8]
    /\ forall idx, (0 < at_ out idx < 1)%R.
Proof.
  apply (forward_shape_and_range idle_model (zeros [1; 3; 1; 8; 8]) 1 4 1 3 8 8 2).
  - exact idle_model_wired.
  - reflexivity.
  - lia.
Defined.

(** The end-to-end scenario of the specification: zero input, all 0.5. *)
Lemma idle_model_half :
  exists out,
    ConvLSTM.forward sigmoid_R idle_model (zeros [1; 3; 1; 8; 8]) 2 = Ok out
    /\ shape out = [1; 1; 2; 8; 8]
    /\ forall t y x', t < 2 -> y < 8 -> x' < 8 ->
         at_ out [0; 0; t; y; x'] = (1 / 2)%R.
Proof.
  eexists. split; [reflexivity|]. split; [reflexivity|].
  intros t y x' Ht Hy Hx.
  rewrite <- sigmoid_R_0.
  destruct t as [|[|t]]; [| |lia];
    cbv -[sigmoid_R exp IZR INR Rdiv Rminus Rplus Rmult Nat.leb Nat.add Nat.sub andb];
    f_equal;
    repeat match goal with |- context [if ?b then _ else _] => destruct b end;
    simpl INR; lra.
Qed.

Lemma forward_zero_horizon_raises_witness :
  ConvLSTM.forward sigmoid_R idle_model (zeros [1; 3; 1; 8; 8]) 0 =
    Raise (RuntimeError "stack expects a non-empty TensorList").
Proof.
  apply (proj2 (forward_zero_horizon_raises sigmoid_R idle_model
                  (zeros [1; 3; 1; 8; 8]))
           1 3 1 8 8
           (ConvLSTM.init_hidden (idle_cell 1 4) 1 (8, 8),
            ConvLSTM.init_hidden (idle_cell 4 4) 1 (8, 8))).
  - reflexivity.
  - reflexivity.
Defined.

(* ===================================================================== *)
(** ** Rounding in float32 and the range of the sigmoid *)

Section Float32.
Local Open Scope Z_scope.

Lemma digits2_pos_size (p : positive) : digits2_pos p = Pos.size p.
Proof. induction p as [p IH|p IH|]; simpl; congruence. Qed.

Lemma digits2_pos_bounds (p : positive) :
  2 ^ (Zpos (digits2_pos p) - 1) <= Zpos p < 2 ^ Zpos (digits2_pos p).
Proof.
  rewrite digits2_pos_size. split.
  - pose proof (Pos.size_le p) as H.
    assert (Zpos (2 ^ Pos.size p) <= Zpos p~0) as H' by exact H.
    rewrite Pos2Z.inj_pow in H'.
    replace (Zpos (Pos.size p)) with (Zpos (Pos.size p) - 1 + 1) in H' by lia.
    rewrite Z.pow_add_r in H' by lia. lia.
  - pose proof (Pos.size_gt p) as H.
    assert (Zpos p < Zpos (2 ^ Pos.size p)) as H' by exact H.
    rewrite Pos2Z.inj_pow in H'. exact H'.
Qed.

Lemma iter_pos_nat {X : Type} (f : X -> X) (p : positive) :
  forall x, SpecFloat.iter_pos f p x = Nat.iter (Pos.to_nat p) f x.
Proof.
  induction p as [p IH|p IH|]; intros x; cbn [SpecFloat.iter_pos].
  - rewrite !IH. rewrite Pos2Nat.inj_xI.
    replace (S (2 * Pos.to_nat p))%nat
      with (Pos.to_nat p + (Pos.to_nat p + 1))%nat by lia.
    rewrite !Nat.iter_add. reflexivity.
  - rewrite !IH. rewrite Pos2Nat.inj_xO.
    replace (2 * Pos.to_nat p)%nat with (Pos.to_nat p + Pos.to_nat p)%nat by lia.
    rewrite Nat.iter_add. reflexivity.
  - reflexivity.
Qed.

(** One step of the right shift: the mantissa is halved, the bit that
    falls off becomes the round bit, the old round bit joins the sticky
    bit. *)
Lemma shr_1_spec (m : Z) (r s : bool) :
  0 <= m ->
  shr_1 (Build_shr_record m r s) = Build_shr_record (m / 2) (Z.odd m) (r || s).
Proof.
  intros Hm. rewrite <- Z.div2_div.
  destruct m as [|[p|p|]|p]; try reflexivity. lia.
Qed.

Lemma shr_iter (n : nat) (m : Z) (r s : bool) :
  0 <= m ->
  let mrs := Nat.iter n shr_1 (Build_shr_record m r s) in
  shr_m mrs = m / 2 ^ Z.of_nat n
  /\ (m mod 2 ^ Z.of_nat n = 0 -> r = false -> s = false ->
      shr_r mrs = false /\ shr_s mrs = false).
Proof.
  intros Hm. induction n as [|n IH]; cbn zeta.
  - simpl. rewrite Z.div_1_r. auto.
  - cbn zeta in IH. destruct IH as [IHm IHx].
    rewrite Nat.iter_succ.
    destruct (Nat.iter n shr_1 (Build_shr_record m r s)) as [mn rn sn].
    simpl in IHm, IHx. subst mn.
    rewrite Nat2Z.inj_succ, Z.pow_succ_r by lia.
    assert (0 < 2 ^ Z.of_nat n) as Hpow by (apply Z.pow_pos_nonneg; lia).
    set (P := 2 ^ Z.of_nat n) in *.
    rewrite shr_1_spec by (apply Z.div_pos; assumption).
    cbn [shr_m shr_r shr_s]. split.
    + rewrite Z.div_div by lia. f_equal. lia.
    + intros Hmod Hr Hs.
      apply Z.mod_divide in Hmod; [|lia]. destruct Hmod as [k Hk].
      assert (m mod P = 0) as Hmod'.
      { apply Z.mod_divide; [lia|]. exists (k * 2). lia. }
      destruct (IHx Hmod' Hr Hs) as [-> ->]. split; [|reflexivity].
      subst m. replace (k * (2 * P)) with (2 * k * P) by lia.
      rewrite Z.div_mul by lia. rewrite Z.odd_mul. reflexivity.
Qed.

(** [n] steps: the mantissa is divided by [2 ^ n], and nothing is recorded
    as lost when nothing is. *)
Lemma shr_spec (m : Z) (r s : bool) (e n : Z) :
  0 <= m -> 0 < n ->
  let res := shr (Build_shr_record m r s) e n in
  shr_m res.1 = m / 2 ^ n /\ res.2 = e + n
  /\ (m mod 2 ^ n = 0 -> r = false -> s = false ->
      shr_r res.1 = false /\ shr_s res.1 = false).
Proof.
  intros Hm Hn. destruct n as [|p|p]; try lia. cbn zeta. unfold shr.
  cbn [fst snd]. rewrite iter_pos_nat.
  pose proof (shr_iter (Pos.to_nat p) m r s Hm) as H. cbn zeta in H.
  rewrite positive_nat_Z in H. destruct H as [H1 H2]. auto.
Qed.

Lemma shr_keep (mrs : shr_record) (e n : Z) : n <= 0 -> shr mrs e n = (mrs, e).
Proof. intros Hn. destruct n; try reflexivity. lia. Qed.

Lemma fexp32 (e : Z) : fexp 24 128 e = Z.max (e - 24) (-149).
Proof. reflexivity. Qed.

Lemma pow2_pos (k : Z) : 0 <= k -> 0 < 2 ^ k.
Proof. intros Hk. apply Z.pow_pos_nonneg; [reflexivity | exact Hk]. Qed.

Lemma pow2_split (a b : Z) : 0 <= a -> 0 <= b -> 2 ^ (a + b) = 2 ^ a * 2 ^ b.
Proof. intros Ha Hb. apply Z.pow_add_r; assumption. Qed.

Lemma Zdigits2_upper (m e : Z) :
  0 <= m -> e <= 0 -> m <= 2 ^ (- e) -> Zdigits2 m + e <= 1.
Proof.
  intros Hm He Hle. destruct m as [|p|p]; [simpl; lia | | lia].
  cbn [Zdigits2]. pose proof (digits2_pos_bounds p) as [Hlo _].
  assert (2 ^ (Zpos (digits2_pos p) - 1) <= 2 ^ (- e)) as Hpow by lia.
  apply Z.pow_le_mono_r_iff in Hpow; lia.
Qed.

Lemma Zdigits2_lower (m e : Z) :
  1 <= m -> 0 <= e \/ 2 ^ (- e) <= m -> 1 <= Zdigits2 m + e.
Proof.
  intros Hm Hge. destruct m as [|p|p]; try lia.
  cbn [Zdigits2]. pose proof (digits2_pos_bounds p) as [_ Hhi].
  destruct (Z_le_gt_dec 0 e) as [He|He]; [lia|].
  destruct Hge as [Hge|Hge]; [lia|].
  assert (2 ^ (- e) < 2 ^ Zpos (digits2_pos p)) as Hpow by lia.
  apply Z.pow_lt_mono_r_iff in Hpow; lia.
Qed.

Lemma Zdigits2_pow (m : Z) : 1 <= m -> 2 ^ (Zdigits2 m - 1) <= m.
Proof.
  intros Hm. destruct m as [|p|p]; try lia.
  cbn [Zdigits2]. apply digits2_pos_bounds.
Qed.

Lemma shr_record_of_loc_spec (m : Z) (l : location) :
  exists r s,
    shr_record_of_loc m l = Build_shr_record m r s
    /\ (l = loc_Exact -> r = false /\ s = false).
Proof.
  destruct l as [|[| |]]; simpl; eexists; eexists; split;
    try reflexivity; try discriminate; auto.
Qed.

Lemma loc_of_shr_record_of_loc (m : Z) (l : location) :
  loc_of_shr_record (shr_record_of_loc m l) = l.
Proof. destruct l as [|[| |]]; reflexivity. Qed.

Lemma shr_m_of_loc (m : Z) (l : location) : shr_m (shr_record_of_loc m l) = m.
Proof. destruct l as [|[| |]]; reflexivity. Qed.

Lemma round_nearest_even_bounds (m : Z) (l : location) :
  m <= round_nearest_even m l <= m + 1.
Proof.
  destruct l as [|[| |]]; simpl; try lia. destruct (Z.even m); lia.
Qed.

(** Truncation to the precision of the format keeps a mantissa that is not
    negative so. *)
Lemma shr_fexp_nonneg (m e : Z) (l : location) :
  0 <= m -> 0 <= shr_m (shr_fexp 24 128 m e l).1.
Proof.
  intros Hm. unfold shr_fexp.
  set (n := fexp 24 128 (Zdigits2 m + e) - e).
  destruct (Z_lt_le_dec 0 n) as [Hn|Hn].
  - destruct (shr_record_of_loc_spec m l) as (r & s & -> & _).
    destruct (shr_spec m r s e n Hm Hn) as (-> & _).
    apply Z.div_pos; [exact Hm | apply pow2_pos; lia].
  - rewrite (shr_keep _ _ _ Hn). cbn [fst]. rewrite shr_m_of_loc. exact Hm.
Qed.

(** Rounding a number that is not negative gives a zero, a positive
    float32 or plus infinity, never a NaN. *)
Lemma binary_round_aux_not_negative (m e : Z) (l : location) :
  0 <= m -> not_negative (binary_round_aux 24 128 false m e l).
Proof.
  intros Hm. unfold binary_round_aux.
  pose proof (shr_fexp_nonneg m e l Hm) as H1.
  destruct (shr_fexp 24 128 m e l) as [mrs1 e1]. cbn [fst] in H1.
  pose proof (round_nearest_even_bounds (shr_m mrs1) (loc_of_shr_record mrs1))
    as Hrne.
  set (m1 := round_nearest_even (shr_m mrs1) (loc_of_shr_record mrs1)) in *.
  assert (0 <= m1) as Hm1 by lia.
  pose proof (shr_fexp_nonneg m1 e1 loc_Exact Hm1) as H2.
  destruct (shr_fexp 24 128 m1 e1 loc_Exact) as [mrs2 e2]. cbn [fst] in H2.
  destruct (shr_m mrs2) as [|p|p]; [exact I | | lia].
  destruct (e2 <=? 128 - 24); exact I.
Qed.

(** Truncation of a value that is at most 1: it stays at most 1, and
    unless it is strictly below 1 nothing is cut off. *)
Lemma shr_fexp_upper (m e : Z) (l : location) :
  0 <= m -> e <= 0 -> m <= 2 ^ (- e) ->
  m + 1 <= 2 ^ (- e) \/ l = loc_Exact ->
  let res := shr_fexp 24 128 m e l in
  0 <= shr_m res.1 /\ res.2 <= 0
  /\ shr_m res.1 <= 2 ^ (- res.2)
  /\ (shr_m res.1 + 1 <= 2 ^ (- res.2)
      \/ loc_of_shr_record res.1 = loc_Exact).
Proof.
  intros Hm He Hle Hstrict. cbn zeta. unfold shr_fexp.
  pose proof (Zdigits2_upper m e Hm He Hle) as Hd.
  rewrite fexp32.
  set (n := Z.max (Zdigits2 m + e - 24) (-149) - e).
  destruct (Z_lt_le_dec 0 n) as [Hn|Hn].
  - destruct (shr_record_of_loc_spec m l) as (r & s & -> & Hex).
    destruct (shr_spec m r s e n Hm Hn) as (Hm' & He' & Hexact).
    rewrite Hm', He'.
    assert (e + n <= 0) as He1 by lia.
    assert (0 < 2 ^ n) as Hpn by (apply pow2_pos; lia).
    assert (0 < 2 ^ (- (e + n))) as Hpe by (apply pow2_pos; lia).
    assert (2 ^ (- e) = 2 ^ (- (e + n)) * 2 ^ n) as Hsplit.
    { rewrite <- pow2_split by lia. f_equal. lia. }
    set (P := 2 ^ n) in *. set (B := 2 ^ (- (e + n))) in *.
    split; [apply Z.div_pos; lia|]. split; [exact He1|]. split.
    + rewrite <- (Z.div_mul B P) by lia. apply Z.div_le_mono; lia.
    + destruct (Z_lt_le_dec m (B * P)) as [Hlt|Hge].
      * left. assert (m / P < B); [|lia].
        apply Z.div_lt_upper_bound; lia.
      * right. destruct Hstrict as [Hs|Hl]; [lia|].
        destruct (Hex Hl) as [-> ->].
        assert (m = B * P) as Heq by lia.
        destruct Hexact as [Hr Hs]; try reflexivity.
        { rewrite Heq. apply Z.mod_mul. lia. }
        destruct (shr _ e n).1 as [m1 r1 s1]. simpl in Hr, Hs.
        subst r1 s1. reflexivity.
  - rewrite (shr_keep _ _ _ Hn). cbn [fst snd].
    rewrite shr_m_of_loc, loc_of_shr_record_of_loc. auto.
Qed.

(** Rounding a value of at most 1 gives a float32 of [[0, 1]]: 1 is a
    float32, and rounding to nearest does not step over it. *)
Lemma binary_round_aux_upper (m e : Z) (l : location) :
  0 <= m -> e <= 0 -> m <= 2 ^ (- e) ->
  m + 1 <= 2 ^ (- e) \/ l = loc_Exact ->
  in_unit_interval (binary_round_aux 24 128 false m e l) = true.
Proof.
  intros Hm He Hle Hstrict. unfold binary_round_aux.
  pose proof (shr_fexp_upper m e l Hm He Hle Hstrict) as H1. cbn zeta in H1.
  destruct (shr_fexp 24 128 m e l) as [mrs1 e1]. cbn [fst snd] in H1.
  destruct H1 as (Hm1 & He1 & Hle1 & Hs1).
  set (m1 := round_nearest_even (shr_m mrs1) (loc_of_shr_record mrs1)).
  assert (0 <= m1 /\ m1 <= 2 ^ (- e1)) as [Hm1' Hle1'].
  { pose proof (round_nearest_even_bounds (shr_m mrs1) (loc_of_shr_record mrs1)).
    subst m1. destruct Hs1 as [Hs1|Hs1]; [lia|].
    rewrite Hs1. cbn [round_nearest_even]. lia. }
  pose proof (shr_fexp_upper m1 e1 loc_Exact Hm1' He1 Hle1' (or_intror eq_refl))
    as H2. cbn zeta in H2.
  destruct (shr_fexp 24 128 m1 e1 loc_Exact) as [mrs2 e2]. cbn [fst snd] in H2.
  destruct H2 as (Hm2 & He2 & Hle2 & _).
  destruct (shr_m mrs2) as [|p|p]; [reflexivity | | lia].
  assert ((e2 <=? 128 - 24) = true) as -> by (apply Z.leb_le; lia).
  cbn [in_unit_interval]. apply andb_true_intro. split; apply Z.leb_le; lia.
Qed.

(** Truncation of a value that is at least 1. *)
Lemma shr_fexp_lower (m e : Z) (l : location) :
  1 <= m -> 0 <= e \/ 2 ^ (- e) <= m ->
  let res := shr_fexp 24 128 m e l in
  1 <= shr_m res.1 /\ (0 <= res.2 \/ 2 ^ (- res.2) <= shr_m res.1).
Proof.
  intros Hm Hge. cbn zeta. unfold shr_fexp.
  pose proof (Zdigits2_lower m e Hm Hge) as Hd.
  pose proof (Zdigits2_pow m Hm) as Hdp.
  rewrite fexp32.
  set (n := Z.max (Zdigits2 m + e - 24) (-149) - e).
  destruct (Z_lt_le_dec 0 n) as [Hn|Hn].
  - destruct (shr_record_of_loc_spec m l) as (r & s & -> & _).
    assert (0 <= m) as Hm0 by lia.
    destruct (shr_spec m r s e n Hm0 Hn) as (Hm' & He' & _).
    rewrite Hm', He'.
    assert (0 < 2 ^ n) as Hpn by (apply pow2_pos; lia).
    assert (n <= Zdigits2 m - 1) as Hnd by lia.
    assert (2 ^ n <= m) as Hpm.
    { apply Z.le_trans with (2 ^ (Zdigits2 m - 1)); [|exact Hdp].
      apply Z.pow_le_mono_r; lia. }
    split.
    + apply Z.div_le_lower_bound; lia.
    + destruct (Z_le_gt_dec 0 (e + n)) as [He1|He1]; [left; exact He1|].
      right. destruct Hge as [Hge|Hge]; [lia|].
      assert (2 ^ (- e) = 2 ^ (- (e + n)) * 2 ^ n) as Hsplit.
      { rewrite <- pow2_split by lia. f_equal. lia. }
      set (P := 2 ^ n) in *. set (B := 2 ^ (- (e + n))) in *.
      apply Z.div_le_lower_bound; lia.
  - rewrite (shr_keep _ _ _ Hn). cbn [fst snd].
    rewrite shr_m_of_loc. auto.
Qed.

(** Rounding a value of at least 1 gives a float32 that is at least 1. *)
Lemma binary_round_aux_lower (m e : Z) (l : location) :
  1 <= m -> 0 <= e \/ 2 ^ (- e) <= m ->
  at_least_one (binary_round_aux 24 128 false m e l).
Proof.
  intros Hm Hge. unfold binary_round_aux.
  pose proof (shr_fexp_lower m e l Hm Hge) as H1. cbn zeta in H1.
  destruct (shr_fexp 24 128 m e l) as [mrs1 e1]. cbn [fst snd] in H1.
  destruct H1 as (Hm1 & Hge1).
  pose proof (round_nearest_even_bounds (shr_m mrs1) (loc_of_shr_record mrs1))
    as Hrne.
  set (m1 := round_nearest_even (shr_m mrs1) (loc_of_shr_record mrs1)) in *.
  assert (1 <= m1) as Hm1' by lia.
  assert (0 <= e1 \/ 2 ^ (- e1) <= m1) as Hge1'.
  { destruct Hge1 as [|]; [left; assumption | right; lia]. }
  pose proof (shr_fexp_lower m1 e1 loc_Exact Hm1' Hge1') as H2. cbn zeta in H2.
  destruct (shr_fexp 24 128 m1 e1 loc_Exact) as [mrs2 e2]. cbn [fst snd] in H2.
  destruct H2 as (Hm2 & Hge2).
  destruct (shr_m mrs2) as [|p|p]; try lia.
  destruct (e2 <=? 128 - 24); [exact Hge2 | exact I].
Qed.

Lemma iter_xO (m d : positive) : Zpos (Pos.iter xO m d) = Zpos m * 2 ^ Zpos d.
Proof.
  induction d as [|d IH] using Pos.peano_ind.
  - simpl. lia.
  - rewrite Pos.iter_succ, Pos2Z.inj_xO, IH, Pos2Z.inj_succ.
    rewrite Z.pow_succ_r by lia. lia.
Qed.

(** Aligning a mantissa to a smaller exponent keeps the value. *)
Lemma shl_align_le (m : positive) (e e' : Z) :
  e' <= e ->
  exists m', shl_align m e e' = (m', e') /\ Zpos m' = Zpos m * 2 ^ (e - e').
Proof.
  intros He. unfold shl_align.
  destruct (e' - e) as [|d|d] eqn:Hd; try lia.
  - assert (e' = e) as -> by lia. exists m. rewrite Z.sub_diag.
    split; [reflexivity|lia].
  - exists (Pos.iter xO m d). split; [reflexivity|].
    rewrite iter_xO. f_equal. f_equal. lia.
Qed.

Lemma shl_align_gt (m : positive) (e e' : Z) : e < e' -> shl_align m e e' = (m, e).
Proof.
  intros He. unfold shl_align. destruct (e' - e) eqn:Hd; try reflexivity. lia.
Qed.

Lemma binary_round_lower (m : positive) (e : Z) :
  0 <= e \/ 2 ^ (- e) <= Zpos m ->
  at_least_one (binary_round 24 128 false m e).
Proof.
  intros Hge. unfold binary_round.
  set (e' := fexp 24 128 (Zpos (digits2_pos m) + e)).
  destruct (Z_le_gt_dec e' e) as [He|He].
  - destruct (shl_align_le m e e' He) as (m' & -> & Hm').
    apply binary_round_aux_lower; [lia|].
    destruct (Z_le_gt_dec 0 e') as [He'|He']; [left; exact He'|]. right.
    rewrite Hm'.
    assert (0 < 2 ^ (e - e')) as Hp by (apply pow2_pos; lia).
    destruct (Z_le_gt_dec 0 e) as [He0|He0].
    + apply Z.le_trans with (1 * 2 ^ (e - e'));
        [|apply Z.mul_le_mono_nonneg_r; lia].
      rewrite Z.mul_1_l. apply Z.pow_le_mono_r; lia.
    + destruct Hge as [Hge|Hge]; [lia|].
      replace (- e') with (- e + (e - e')) by lia.
      rewrite pow2_split by lia. apply Z.mul_le_mono_nonneg_r; lia.
  - rewrite (shl_align_gt m e e') by lia.
    apply binary_round_aux_lower; [lia | exact Hge].
Qed.

Lemma binary_round_not_negative (m : positive) (e : Z) :
  not_negative (binary_round 24 128 false m e).
Proof.
  unfold binary_round. destruct (shl_align m e _) as [mz ez].
  apply binary_round_aux_not_negative. lia.
Qed.

Lemma f32_one_eq : f32_one = S754_finite false 8388608 (-23).
Proof. reflexivity. Qed.

(** [1 + y] is at least 1 for a positive [y]. *)
Lemma add_one_lower (m : positive) (e : Z) :
  at_least_one (f32_add f32_one (S754_finite false m e)).
Proof.
  rewrite f32_one_eq. unfold f32_add, SFadd.
  set (ez := Z.min (-23) e).
  destruct (shl_align_le 8388608 (-23) ez) as (a & -> & Ha); [lia|].
  destruct (shl_align_le m e ez) as (b & -> & Hb); [lia|].
  cbn [fst cond_Zopp]. change (Zpos a + Zpos b) with (Zpos (a + b)).
  cbn [binary_normalize].
  apply binary_round_lower. right.
  rewrite Pos2Z.inj_add, Ha.
  change (Zpos 8388608) with (2 ^ 23).
  rewrite <- pow2_split by lia.
  replace (23 + (-23 - ez)) with (- ez) by lia. lia.
Qed.

Lemma new_location_exact (n : Z) : new_location n 0 = loc_Exact.
Proof.
  unfold new_location, new_location_even, new_location_odd.
  destruct (Z.even n); reflexivity.
Qed.

(** [1 / d] is in [[0, 1]] for a finite [d] that is at least 1. *)
Lemma div_one_upper (m : positive) (e : Z) :
  0 <= e \/ 2 ^ (- e) <= Zpos m ->
  in_unit_interval (f32_div f32_one (S754_finite false m e)) = true.
Proof.
  intros Hge. rewrite f32_one_eq. unfold f32_div, SFdiv, SFdiv_core_binary.
  cbn [xorb]. change (Zdigits2 (Zpos 8388608)) with 24.
  assert (1 <= Zpos m) as Hm1 by lia.
  pose proof (Zdigits2_lower (Zpos m) e Hm1 Hge) as Hd.
  rewrite fexp32.
  set (e' := Z.min (Z.max (24 + -23 - (Zdigits2 (Zpos m) + e) - 24) (-149))
               (-23 - e)).
  assert (e' <= 0) as He' by lia.
  assert (0 <= -23 - e - e') as Hs by lia.
  set (s := -23 - e - e') in *.
  set (m' := match s with
             | 0 => Zpos 8388608
             | Zpos _ => Z.shiftl (Zpos 8388608) s
             | Zneg _ => 0
             end).
  assert (m' = 2 ^ (23 + s)) as Hm'.
  { subst m'. destruct s as [|p|p] eqn:Hsp; [reflexivity | | lia].
    rewrite Z.shiftl_mul_pow2 by lia. change (Zpos 8388608) with (2 ^ 23).
    rewrite <- pow2_split by lia. reflexivity. }
  assert (Zpos m > 0) as Hmpos by lia.
  pose proof (Z_div_mod m' (Zpos m) Hmpos) as Hdm.
  destruct (Z.div_eucl m' (Zpos m)) as [q r]. destruct Hdm as [Hq Hr].
  assert (0 < 2 ^ (23 + s)) as Hpow by (apply pow2_pos; lia).
  assert (0 < 2 ^ (- e')) as Hpe by (apply pow2_pos; lia).
  assert (0 <= q) as Hq0 by nia.
  assert (q <= 2 ^ (- e') /\ (q + 1 <= 2 ^ (- e') \/ r = 0)) as [Hle Hstrict].
  { destruct (Z_le_gt_dec 0 e) as [He0|He0].
    - assert (2 ^ (- e') = 2 ^ (23 + s) * 2 ^ e) as Hsplit.
      { rewrite <- pow2_split by lia. f_equal. lia. }
      assert (0 < 2 ^ e) as Hp2 by (apply pow2_pos; lia).
      set (K := 2 ^ (23 + s)) in *. set (E := 2 ^ e) in *.
      set (B := 2 ^ (- e')) in *.
      destruct (Z.eq_dec (Zpos m) 1) as [Hone|Hone].
      + rewrite Hone in *. assert (r = 0) by lia. split; [nia | right; assumption].
      + assert (2 * q <= K) by nia. split; [nia | left; nia].
    - destruct Hge as [Hge|Hge]; [lia|].
      assert (2 ^ (23 + s) = 2 ^ (- e') * 2 ^ (- e)) as Hsplit.
      { rewrite <- pow2_split by lia. f_equal. lia. }
      assert (0 < 2 ^ (- e)) as Hp2 by (apply pow2_pos; lia).
      set (K := 2 ^ (23 + s)) in *. set (E := 2 ^ (- e)) in *.
      set (B := 2 ^ (- e')) in *.
      destruct (Z.eq_dec (Zpos m) E) as [HmE|HmE].
      + assert (q = B /\ r = 0) as [-> ->]; [|split; [lia | right; reflexivity]].
        rewrite HmE in *.
        assert (E * (q - B) + r = 0) as Hz by lia.
        assert (q - B = 0) by nia. split; nia.
      + assert (q < B); [|split; [lia | left; lia]].
        assert (E + 1 <= Zpos m) as Hm2 by lia.
        destruct (Z_lt_le_dec q B) as [|Hqb]; [assumption|exfalso].
        assert (B * (E + 1) <= Zpos m * q) by nia. lia. }
  apply binary_round_aux_upper; try assumption.
  destruct Hstrict as [Hs1| ->];
    [left; exact Hs1 | right; apply new_location_exact].
Qed.

Lemma f32_of_N_not_negative (n : N) (e : Z) : not_negative (f32_of_N n e).
Proof.
  destruct n as [|p]; [exact I|]. apply binary_round_not_negative.
Qed.

(** The exponential of a number is a zero, a positive float32 or plus
    infinity. *)
Lemma exp32_not_negative (x : float32) :
  x <> S754_nan -> not_negative (exp32 x).
Proof.
  intros Hx. destruct x as [s|s| |s m e]; unfold exp32.
  - rewrite f32_one_eq. exact I.
  - destruct s; exact I.
  - contradiction.
  - destruct s; apply f32_of_N_not_negative.
Qed.


(** The float32 sigmoid of a number lies in [[0, 1]], both ends
    included. *)
Lemma sigmoid_f32_range (x : float32) :
  x <> S754_nan -> in_unit_interval (sigmoid_f32 x) = true.
Proof.
  intros Hx. unfold sigmoid_f32.
  assert (SFopp x <> S754_nan) as Hx' by (destruct x; simpl; congruence).
  pose proof (exp32_not_negative (SFopp x) Hx') as Hy.
  destruct (exp32 (SFopp x)) as [s|s| |s m e].
  - destruct s; [destruct Hy|]. vm_compute. reflexivity.
  - destruct s; [destruct Hy|]. vm_compute. reflexivity.
  - destruct Hy.
  - destruct s; [destruct Hy|].
    pose proof (add_one_lower m e) as Hd.
    destruct (f32_add f32_one (S754_finite false m e)) as [sd|sd| |sd md ed].
    + destruct Hd.
    + destruct sd; [destruct Hd|]. vm_compute. reflexivity.
    + destruct Hd.
    + destruct sd; [destruct Hd|]. apply div_one_upper. exact Hd.
Qed.

(** It is a NaN for a NaN only. *)
Lemma sigmoid_f32_nan_only (x : float32) :
  sigmoid_f32 x = S754_nan -> x = S754_nan.
Proof.
  intros Hs. destruct x as [s|s| |s m e] eqn:Hx; [| |reflexivity|];
    (assert (x <> S754_nan) as Hn by (subst x; discriminate);
     subst x; apply sigmoid_f32_range in Hn; rewrite Hs in Hn; discriminate Hn).
Qed.

End Float32.

(* ===================================================================== *)
(** ** The value range of the forward pass in float32 *)




(** [exp32] on a few arguments: e, 1/e, the last finite value and the
    overflow, the smallest positive float32 and the underflow. *)
Lemma exp32_values :
  exp32 (S754_zero false) = f32_one
  /\ exp32 f32_one = S754_finite false 11401300 (-22)
  /\ exp32 (f32_of_Z (-1)) = S754_finite false 12343986 (-25)
  /\ exp32 (f32_of_Z 88) = S754_finite false 16286391 103
  /\ exp32 (f32_of_Z 89) = S754_infinity false
  /\ exp32 (f32_of_Z (-103)) = S754_finite false 1 (-149)
  /\ exp32 (f32_of_Z (-104)) = S754_zero false.
Proof. repeat split; vm_compute; reflexivity. Qed.

(** The float32 sigmoid between its two ends: 1/2 at 0, the float32 just
    below 1 at 16, exactly 1 from 17 on; a subnormal at -88, exactly 0
    from -89 on. *)
Lemma sigmoid_f32_values :
  sigmoid_f32 (S754_zero false) = S754_finite false 8388608 (-24)
  /\ sigmoid_f32 (f32_of_Z 16) = S754_finite false 16777214 (-24)
  /\ sigmoid_f32 (f32_of_Z 17) = f32_one
  /\ sigmoid_f32 (f32_of_Z (-88)) = S754_finite false 4320708 (-149)
  /\ sigmoid_f32 (f32_of_Z (-89)) = S754_zero false.
Proof. repeat split; vm_compute; reflexivity. Qed.





(* ===================================================================== *)
(** ** The per-frame losses of the recurrent model *)


Lemma counting_model_constructed :
  ConvLSTM.__init__ counting_env 1 1 1 2 0.001 false (LossName "mse") false
  = Ok counting_model.
Proof. reflexivity. Qed.

(** The forward pass of [counting_model] predicts [sigmoid 0] for the first
    frame and [sigmoid 1] for the second. *)
Lemma counting_model_forward :
  exists y_hat,
    ConvLSTM.forward sigmoid_R counting_model (zeros [1; 1; 1; 1; 1]) 2 = Ok y_hat
    /\ shape y_hat = [1; 1; 2; 1; 1]
    /\ at_ y_hat [0; 0; 0; 0; 0] = sigmoid_R 0
    /\ at_ y_hat [0; 0; 1; 0; 0] = sigmoid_R 1.
Proof.
  eexists. split; [reflexivity|]. split; [reflexivity|].
  split; cbv -[sigmoid_R exp IZR INR Rdiv Rminus Rplus Rmult];
    f_equal; simpl INR; lra.
Qed.

(** C9.  One training step of [counting_model] (one output channel, two
    forecast steps, mse loss) on the target frames 0 and 1: the step
    returns and logs its loss and the two per-frame losses, and the loss
    exceeds the mean of the per-frame losses by more than 1/12.  The loss of
    line 162 compares the prediction in the layout
    [[batch, channel, time, H, W]] with the target; the per-frame losses of
    line 167 are taken after [moveaxis] has put time first. *)
Theorem frame_losses_do_not_reconcile :
  exists loss f0 f1 w',
    ConvLSTM.training_step sigmoid_R counting_model
      (zeros [1; 1; 1; 1; 1], of_list [1; 2; 1; 1; 1] [0; 1]%R) 0 fresh_world
    = (Ok loss, w')
    /\ scalars_logged w' =
         [("train/loss", loss); ("train/frame_0_loss", f0);
          ("train/frame_1_loss", f1)]
    /\ (loss - (f0 + f1) / 2 > 1 / 12)%R.
Proof.
  do 4 eexists. split; [reflexivity|]. split; [reflexivity|].
  cbv -[sigmoid_R exp IZR INR Rdiv Rminus Rplus Rmult Rgt Rlt].
  simpl INR.
  replace (0 + (0 * 0 + (0 * 0 + (0 * 0 + (0 * 0 + (1 * 0 + (0 * 0 +
            (0 * 0 + (0 * 0 + (0 * 0 + 0))))))))))%R with 0%R by lra.
  replace (0 + (0 * 0 + (0 * 0 + (0 * 0 + (0 * 0 + (1 * (1 + 0) + (0 * 0 +
            (0 * 0 + (0 * 0 + (0 * 0 + 0))))))))))%R with 1%R by lra.
  rewrite sigmoid_R_0.
  pose proof sigmoid_R_1 as H1. pose proof (sigmoid_R_range 1) as [_ H2].
  set (a := sigmoid_R 1) in *. lra.
Qed.

(** The loss a step returns is the one computed before the per-frame loop:
    whatever the per-frame losses are, they do not enter it. *)
Lemma training_step_returns_primary_loss {A : Type} {SA : Scalar A}
    (sigmoid : A -> A) (self : ConvLSTM.EncoderDecoderConvLSTM A)
    (x y : Tensor A) (batch_idx : nat) (w w' : world A) (loss : A)
    (out : Tensor A) :
  ConvLSTM.make_vis self = false ->
  ConvLSTM.forward sigmoid self x (ConvLSTM.forecast_steps self) = Ok out ->
  ConvLSTM.training_step sigmoid self (x, y) batch_idx w = (Ok loss, w') ->
  ConvLSTM.criterion self out y = Ok loss.
Proof.
  intros Hvis Hfw. unfold ConvLSTM.training_step, mbind_, lift, pure.
  rewrite Hfw, Hvis.
  destruct (ConvLSTM.criterion self out y) as [l|e]; [|discriminate].
  simpl. destruct (moveaxis out 2 1) as [mv|e]; [|discriminate].
  destruct (ConvLSTM.frame_losses _ _ _ _ _) as [d|e]; [|discriminate].
  simpl. intros [= <- _]. reflexivity.
Qed.

(* ===================================================================== *)
(** ** Loss resolution on concrete arguments *)

(** C8, as stated, fails: the function [F.mse_loss] itself is a loss
    callable, and passing it as [loss] stops the construction at the
    assertion of line 33. *)
Lemma init_rejects_plain_callable :
  ConvLSTM.__init__ (A:=Q) idle_env 64 12 1 48 0.001 false
    (plain_function mse_loss) false
  = Raise AssertionError.
Proof. reflexivity. Qed.

(** An object that says it is equal to every string (such as
    [unittest.mock.ANY]) passes line 33 and gets [F.mse_loss] at line 34;
    one that is equal to "focal" alone gets [FocalLoss()] at line 38.
    Neither becomes the criterion itself. *)
Lemma init_compares_objects_by_eq :
  (exists self,
      ConvLSTM.__init__ (A:=Q) idle_env 64 12 1 48 0.001 false
        (LossObject (const_loss 7%Q) (fun _ => true)) false = Ok self
      /\ ConvLSTM.criterion self = mse_loss)
  /\ (exists self,
         ConvLSTM.__init__ (A:=Q) idle_env 64 12 1 48 0.001 false
           (LossObject (const_loss 7%Q) (String.eqb "focal")) false = Ok self
         /\ ConvLSTM.criterion self = ConvLSTM.FocalLoss idle_env).
Proof. split; eexists; split; reflexivity. Qed.

Lemma init_loss_resolution_witness :
  ("huber" ∉ ConvLSTM.recognized)
  /\ (ConvLSTM.__init__ (A:=Q) idle_env 64 12 1 48 0.001 false
        (LossName "huber") false = Raise AssertionError)
  /\ (ConvLSTM.__init__ (A:=Q) idle_env 64 12 1 48 0.001 false
        (LossObject mse_loss (String.eqb "huber")) false = Raise AssertionError).
Proof.
  assert ("huber" ∉ ConvLSTM.recognized) as Hn.
  { intros Hin. apply (bool_decide_eq_true_2 _) in Hin.
    vm_compute in Hin. discriminate Hin. }
  split; [exact Hn|].
  pose proof (init_loss_resolution (A:=Q) idle_env 64 12 1 48 0.001 false false)
    as Hres.
  cbv zeta in Hres. destruct Hres as (Hname & _ & Hobject & _).
  split; [exact (Hname "huber" Hn)|].
  apply (Hobject mse_loss (String.eqb "huber")).
  intros n Hin. apply String.eqb_neq. intros <-. exact (Hn Hin).
Defined.

(* ===================================================================== *)
(** ** The training step of the adversarial model *)


Section GANSteps.
Context {A : Type} {SA : Scalar A}.
Import GAN.

(** What line 127 composes.  If the generator update gets as far as the
    two discriminator losses [s] and [t] and the grid loss [g], it returns
    and reports [s + t - grid_lambda * g], as its ["loss"] and as
    ["train/g_loss"].  The conditions ask for a [visualize_step] attribute,
    which [__init__] does not assign, and for a mean prediction of the rank
    of the context, that is for forecasts of one dimension more than the
    context. *)
Lemma generator_step_loss (self : NowcastingGAN A)
    (images future_images : Tensor A) (batch_idx : nat) (w w1 w2 w3 : world A)
    (generated mean_prediction : Tensor A)
    (vis : Tensor A -> Tensor A -> Tensor A -> nat -> string -> M A unit)
    (s t g : A) :
  forward self images w = (Ok generated, w1) ->
  visualize_step self = Some vis ->
  vis images future_images generated batch_idx "train" w1 = (Ok tt, w2) ->
  sample_mean self images w2 = (Ok mean_prediction, w3) ->
  adversarial_loss self (spatial_discriminator self) images future_images
    mean_prediction = Ok s ->
  adversarial_loss self (temporal_discriminator self) images future_images
    mean_prediction = Ok t ->
  grid_regularizer self mean_prediction future_images = Ok g ->
  let g_loss := ssub (sadd s t) (smul (grid_lambda self) g) in
  training_step self (images, future_images) batch_idx 0 w
  = (Ok (Some (mkOutput g_loss [("g_loss", g_loss)] [("g_loss", g_loss)])),
     log_to w3 [("train/g_loss", g_loss)]).
Proof.
  intros Hfw Hvis Hrun Hmean Hs Ht Hg g_loss.
  unfold training_step, mbind_, lift.
  rewrite Hfw, Hvis. simpl. rewrite Hrun, Hmean, Hs, Ht, Hg. reflexivity.
Qed.

(** What line 155 composes.  If the discriminator update gets as far as
    the two discriminator losses [s] and [t], it returns and reports
    [s + t]; the grid regularizer is not called.  The conditions ask for a
    mean prediction of the rank of the context, that is for forecasts of
    one dimension more than the context. *)
Lemma discriminator_step_loss (self : NowcastingGAN A)
    (images future_images : Tensor A) (batch_idx : nat) (w w1 : world A)
    (mean_prediction : Tensor A) (s t : A) :
  sample_mean self images w = (Ok mean_prediction, w1) ->
  adversarial_loss self (spatial_discriminator self) images future_images
    mean_prediction = Ok s ->
  adversarial_loss self (temporal_discriminator self) images future_images
    mean_prediction = Ok t ->
  let d_loss := sadd s t in
  training_step self (images, future_images) batch_idx 1 w
  = (Ok (Some (mkOutput d_loss [("d_loss", d_loss)] [("d_loss", d_loss)])),
     log_to w1 [("train/d_loss", d_loss); ("train/temporal_loss", t);
                ("train/spatial_loss", s)]).
Proof.
  intros Hmean Hs Ht d_loss.
  unfold training_step, mbind_, lift.
  rewrite Hmean, Hs, Ht. reflexivity.
Qed.

Lemma sample_ext (self self' : NowcastingGAN A) :
  (forall x, forward self' x = forward self x) ->
  forall n images acc w,
    sample self' images n acc w = sample self images n acc w.
Proof.
  intros Hfw. induction n as [|n IH]; intros images acc w; simpl; [reflexivity|].
  unfold mbind_. rewrite Hfw.
  destruct (forward self images w) as [[g|e] w']; [apply IH | reflexivity].
Qed.

(** The discriminator update does not depend on the grid regularizer nor
    on its weight. *)
Lemma discriminator_step_ignores_grid (self : NowcastingGAN A)
    (grid : loss_fn A) (lam : A) (batch : Tensor A * Tensor A)
    (batch_idx : nat) (w : world A) :
  let self' :=
    mkModel (gen_lr self) (disc_lr self) (beta1 self) (beta2 self)
      (criterion self) (discriminator_loss self) grid lam
      (num_samples self) (make_vis self) (input_channels self)
      (conditioning_stack self) (latent_stack self) (sampler self)
      (temporal_discriminator self) (spatial_discriminator self)
      (visualize_step self) (criterionGAN self) (discriminator self)
      (criterionL1 self) (lambda_l1 self) (b1 self) (b2 self)
      (generator self) (lr_method self) (lr_epochs self) in
  training_step self' batch batch_idx 1 w = training_step self batch batch_idx 1 w.
Proof.
  intros self'. destruct batch as [images future_images].
  unfold training_step, sample_mean, mbind_.
  change (num_samples self') with (num_samples self).
  rewrite (sample_ext self self') by reflexivity.
  reflexivity.
Qed.

(** A model as [__init__] leaves it has no [visualize_step]: the generator
    update raises once the forecast has been generated. *)
Lemma init_attributes (env : Env A) (fs ic os hd : nat) (bl : bool)
    (glr dlr : Q) (mv : bool) (loss : loss_arg A) (pre : bool) (ct : string)
    (ns : nat) (gl be1 be2 : Q) (self : NowcastingGAN A) :
  __init__ env fs ic os hd bl glr dlr mv loss pre ct ns gl be1 be2 = Ok self ->
  visualize_step self = None /\ criterionGAN self = None
  /\ discriminator self = None /\ b1 self = None.
Proof.
  unfold __init__. destruct (get_loss env loss); simpl; [|discriminate].
  intros [= <-]. repeat split.
Qed.

End GANSteps.

Section GANProtocol.
Context {A : Type} {SA : Scalar A}.
Import GAN.

(** C7.  On a model as [__init__] builds it, the validation step reports
    nothing: for every batch it raises.  When the forecast and its
    concatenation to the context succeed, what it raises is the
    [AttributeError] for [criterionGAN] (for [visualize_step] on the
    steps that are drawn for visualisation). *)
Theorem validation_step_raises (env : Env A) (fs ic os hd : nat) (bl : bool)
    (glr dlr : Q) (mv : bool) (loss : loss_arg A) (pre : bool) (ct : string)
    (ns : nat) (gl be1 be2 : Q) (self : NowcastingGAN A) :
  __init__ env fs ic os hd bl glr dlr mv loss pre ct ns gl be1 be2 = Ok self ->
  forall images future_images batch_idx w,
    (exists e w',
        validation_step self (images, future_images) batch_idx w = (Raise e, w'))
    /\ (forall generated w1 fake,
          forward self images w = (Ok generated, w1) ->
          torch_cat [images; generated] 1 = Ok fake ->
          exists w',
            validation_step self (images, future_images) batch_idx w
            = (Raise (AttributeError
                        (if Qltb (np_stream w1 (np_cursor w1)) 0.01
                         then "visualize_step" else "criterionGAN")), w')).
Proof.
  intros Hinit images future_images batch_idx w.
  destruct (init_attributes _ _ _ _ _ _ _ _ _ _ _ _ _ _ _ _ _ Hinit)
    as (Hvis & Hcrit & _ & _).
  assert (forall generated w1 fake,
            forward self images w = (Ok generated, w1) ->
            torch_cat [images; generated] 1 = Ok fake ->
            exists w',
              validation_step self (images, future_images) batch_idx w
              = (Raise (AttributeError
                          (if Qltb (np_stream w1 (np_cursor w1)) 0.01
                           then "visualize_step" else "criterionGAN")), w'))
    as Hprecise.
  { intros generated w1 fake Hfw Hcat.
    unfold validation_step, mbind_, lift, np_random, score.
    rewrite Hfw, Hcat, Hvis, Hcrit. simpl.
    destruct (Qltb _ _); simpl; eexists; reflexivity. }
  split; [|exact Hprecise].
  destruct (forward self images w) as [[generated|e] w1] eqn:Hfw.
  - destruct (torch_cat [images; generated] 1) as [fake|e] eqn:Hcat.
    + destruct (Hprecise generated w1 fake eq_refl Hcat) as (w' & ->).
      eexists. eexists. reflexivity.
    + unfold validation_step, mbind_, lift. rewrite Hfw, Hcat.
      eexists. eexists. reflexivity.
  - unfold validation_step, mbind_. rewrite Hfw. eexists. eexists. reflexivity.
Qed.

(** With the four attributes assigned from outside, the step does report
    the two losses the way lines 177-188 combine them. *)
Lemma validation_step_with_attributes (self : NowcastingGAN A)
    (crit_gan : Tensor A -> bool -> result A) (d : module A)
    (crit_l1 : loss_fn A) (lam : A)
    (images future_images generated fake real d_fake d_real : Tensor A)
    (batch_idx : nat) (w w1 : world A) (gan_loss l1 real_loss : A) :
  criterionGAN self = Some crit_gan -> discriminator self = Some d ->
  criterionL1 self = Some crit_l1 -> lambda_l1 self = Some lam ->
  forward self images w = (Ok generated, w1) ->
  Qltb (np_stream w1 (np_cursor w1)) 0.01 = false ->
  torch_cat [images; generated] 1 = Ok fake ->
  torch_cat [images; future_images] 1 = Ok real ->
  call d fake = Ok d_fake -> crit_gan d_fake true = Ok gan_loss ->
  call d real = Ok d_real -> crit_gan d_real true = Ok real_loss ->
  crit_l1 generated future_images = Ok l1 ->
  exists out w',
    validation_step self (images, future_images) batch_idx w = (Ok out, w')
    /\ val_generator_loss out = sadd gan_loss (smul l1 lam)
    /\ val_discriminator_loss out = sdiv (sadd real_loss gan_loss) (s_of_nat 2).
Proof.
  intros Hc Hd Hl1 Hlam Hfw Hr Hfake Hreal Hdf Hcf Hdr Hcr Hl.
  unfold validation_step, score.
  unfold mbind_, lift, np_random, pure, log_dict, mbind, result_bind.
  repeat (cbv beta iota delta [rbind getattr];
          first [rewrite Hfw | rewrite Hfake | rewrite Hr | rewrite Hc
                | rewrite Hd | rewrite Hdf | rewrite Hcf | rewrite Hl1
                | rewrite Hl | rewrite Hlam | rewrite Hreal | rewrite Hdr
                | rewrite Hcr]).
  cbv beta iota delta [rbind getattr].
  eexists. eexists. split; [reflexivity|]. split; reflexivity.
Qed.


(** C4.  With the attributes [configure_optimizers] reads in place and a
    policy that is neither "plateau" nor "cosine", the call raises
    nothing: it creates the two Adam optimizers and then returns a
    [NotImplementedError] object to its caller. *)
Theorem configure_optimizers_unknown_policy (self : NowcastingGAN A)
    (beta_1 beta_2 : Q) (gen disc : module A) (policy : string) (w : world A) :
  b1 self = Some beta_1 -> b2 self = Some beta_2 ->
  generator self = Some gen -> discriminator self = Some disc ->
  lr_method self = Some policy ->
  policy <> "plateau" -> policy <> "cosine" ->
  configure_optimizers self w
  = (Ok (NotImplementedError_object "learning rate policy is not implemented"),
     adam_created w
       (Adam (parameters gen) (gen_lr self) (beta_1, beta_2))
       (Adam (parameters disc) (disc_lr self) (beta_1, beta_2))).
Proof.
  intros H1 H2 Hg Hd Hm Hp Hc.
  unfold configure_optimizers, mbind_, lift, new_Adam.
  rewrite H1, H2, Hg, Hd, Hm. simpl.
  apply String.eqb_neq in Hp, Hc. rewrite Hp, Hc. reflexivity.
Qed.

(** On a model as [__init__] builds it the policy is never looked at:
    the first line reads [self.b1], which does not exist. *)
Lemma configure_optimizers_fresh (env : Env A) (fs ic os hd : nat) (bl : bool)
    (glr dlr : Q) (mv : bool) (loss : loss_arg A) (pre : bool) (ct : string)
    (ns : nat) (gl be1 be2 : Q) (self : NowcastingGAN A) (w : world A) :
  __init__ env fs ic os hd bl glr dlr mv loss pre ct ns gl be1 be2 = Ok self ->
  configure_optimizers self w = (Raise (AttributeError "b1"), w).
Proof.
  intros Hinit.
  destruct (init_attributes _ _ _ _ _ _ _ _ _ _ _ _ _ _ _ _ _ Hinit)
    as (_ & _ & _ & Hb1).
  unfold configure_optimizers, mbind_, lift. rewrite Hb1. reflexivity.
Qed.

(** The two recognized policies do configure two schedulers. *)
Lemma configure_optimizers_recognized (self : NowcastingGAN A)
    (beta_1 beta_2 : Q) (gen disc : module A) (policy : string) (epochs : nat)
    (w : world A) :
  b1 self = Some beta_1 -> b2 self = Some beta_2 ->
  generator self = Some gen -> discriminator self = Some disc ->
  lr_method self = Some policy -> lr_epochs self = Some epochs ->
  policy = "plateau" \/ policy = "cosine" ->
  exists o1 o2 s1 s2 w',
    configure_optimizers self w = (Ok (Configured [o1; o2] [s1; s2]), w').
Proof.
  intros H1 H2 Hg Hd Hm He Hp.
  unfold configure_optimizers, mbind_, lift, new_Adam.
  rewrite H1, H2, Hg, Hd, Hm. simpl.
  destruct Hp as [-> | ->]; simpl; [|rewrite He; simpl];
    do 5 eexists; reflexivity.
Qed.

End GANProtocol.

(* ===================================================================== *)
(** ** The adversarial model on concrete batches *)


(** The stubbed scenario of the specification: spatial 2.0, temporal 3.0,
    grid 0.1, [grid_lambda] 20.0 (the default).  The two lines are reached
    only with a hook attached from outside and with [lifting_sampler],
    whose forecasts have one dimension more than the context. *)
Lemma generator_step_loss_witness :
  exists self out w',
    GAN.construct (stub_env lifting_sampler) [("forecast_steps", PInt 1)]
    = Ok self
    /\ GAN.training_step (GAN.set_visualize_step self silent_hook)
         (one_frame, one_frame) 0 0 fresh_world = (Ok (Some out), w')
    /\ (GAN.out_loss out == 3)%Q
    /\ scalars_logged w' = [("train/g_loss", GAN.out_loss out)].
Proof.
  eexists. eexists. eexists. split; [reflexivity|]. split.
  - eapply (generator_step_loss (A:=Q)); reflexivity.
  - split; reflexivity.
Defined.

Lemma discriminator_step_loss_witness :
  exists self out w',
    GAN.construct (stub_env lifting_sampler) [("forecast_steps", PInt 1)]
    = Ok self
    /\ GAN.training_step self (one_frame, one_frame) 0 1 fresh_world
       = (Ok (Some out), w')
    /\ (GAN.out_loss out == 5)%Q
    /\ scalars_logged w' =
         [("train/d_loss", GAN.out_loss out); ("train/temporal_loss", 3%Q);
          ("train/spatial_loss", 2%Q)].
Proof.
  eexists. eexists. eexists. split; [reflexivity|]. split.
  - eapply (discriminator_step_loss (A:=Q)); reflexivity.
  - split; reflexivity.
Defined.

(** As [__init__] leaves the model, the generator update does not get as
    far as a loss: line 105 calls a [visualize_step] that does not exist. *)
Lemma generator_step_fresh_model :
  exists self,
    GAN.construct (stub_env lifting_sampler) [("forecast_steps", PInt 1)]
    = Ok self
    /\ first_output (GAN.training_step self (one_frame, one_frame) 0 0 fresh_world)
       = Raise (AttributeError "visualize_step").
Proof. eexists. split; reflexivity. Qed.

(** C5.  With the default six samples, a context batch of two examples
    and a sampler that returns 5-D forecasts of shape [[2, 1, 1, 1, 1]]
    (example [i] of pass [k] is [i + 1 + k]): the mean prediction has the
    4-D shape [[1, 1, 1, 1]], its one element is the mean, 4, over the
    twelve slices of both examples, and the step raises when it
    concatenates this tensor to the 5-D context. *)
Theorem mean_prediction_loses_batch_dimension :
  exists self forecast w1 m w2,
    GAN.construct (stub_env shifting_sampler) [("forecast_steps", PInt 1)]
    = Ok self
    /\ GAN.num_samples self = 6
    /\ GAN.forward self batch_of_two fresh_world = (Ok forecast, w1)
    /\ shape forecast = [2; 1; 1; 1; 1]
    /\ GAN.sample_mean self batch_of_two fresh_world = (Ok m, w2)
    /\ shape m = [1; 1; 1; 1]
    /\ map Qred (to_list m) = [4%Q]
    /\ first_output (GAN.training_step self (batch_of_two, batch_of_two) 0 1 fresh_world)
       = Raise (RuntimeError "Tensors must have same number of dimensions").
Proof.
  do 5 eexists. split; [reflexivity|]. split; [reflexivity|].
  split; [reflexivity|]. split; [reflexivity|]. split; [reflexivity|].
  split; [reflexivity|]. split; [vm_compute; reflexivity|]. vm_compute. reflexivity.
Qed.

(** For any samples of one shape the leading dimension is averaged away. *)
Lemma mean_of_samples_shape {A : Type} {SA : Scalar A}
    (samples : list (Tensor A)) (b : nat) (sh : list nat) :
  samples <> [] -> Forall (fun t => shape t = b :: sh) samples ->
  exists m, GAN.mean_of_samples samples = Ok m /\ shape m = sh.
Proof.
  intros Hne Hall.
  destruct (cat_mean_drops_leading samples b sh Hne Hall) as (c & m & Hc & Hm & Hsh).
  exists m. unfold GAN.mean_of_samples. rewrite Hc. simpl. rewrite Hm. auto.
Qed.

Lemma validation_step_raises_witness :
  exists self e w',
    GAN.__init__ (stub_env shifting_sampler) 1 3 256 64 false 0.00005%Q
      0.0002%Q false (LossName "mse") false "standard" 6 20%Q 0%Q 0.999%Q = Ok self
    /\ GAN.validation_step self (batch_of_two, batch_of_two) 0 fresh_world
       = (Raise e, w').
Proof.
  eexists.
  destruct (proj1 (validation_step_raises (A:=Q)
              (stub_env shifting_sampler) 1 3 256 64 false 0.00005%Q
              0.0002%Q false (LossName "mse") false "standard" 6 20%Q 0%Q 0.999%Q _
              eq_refl batch_of_two batch_of_two 0 fresh_world)) as (e & w' & Hv).
  exists e, w'. split; [reflexivity | exact Hv].
Defined.

Lemma validation_step_fresh_model :
  exists self,
    GAN.construct (stub_env shifting_sampler) [("forecast_steps", PInt 1)]
    = Ok self
    /\ first_output (GAN.validation_step self (batch_of_two, batch_of_two) 0 fresh_world)
       = Raise (AttributeError "criterionGAN").
Proof. eexists. split; reflexivity. Qed.

Lemma configure_optimizers_unknown_policy_witness :
  exists self r w',
    GAN.construct (stub_env shifting_sampler) [("forecast_steps", PInt 1)]
    = Ok self
    /\ GAN.configure_optimizers
         (GAN.set_optimizer_attributes self 0.5 0.999
            (const_module "generator" 0%Q) (const_module "discriminator" 0%Q)
            "step" 10)
         fresh_world = (Ok r, w')
    /\ r = GAN.NotImplementedError_object "learning rate policy is not implemented"
    /\ optimizers_created w' =
         [Adam "generator" 0.00005 (0.5, 0.999)%Q;
          Adam "discriminator" 0.0002 (0.5, 0.999)%Q].
Proof.
  eexists. eexists. eexists. split; [reflexivity|]. split.
  - apply (configure_optimizers_unknown_policy (A:=Q) _ 0.5 0.999
             (const_module "generator" 0%Q) (const_module "discriminator" 0%Q)
             "step" fresh_world); try reflexivity; discriminate.
  - split; reflexivity.
Defined.

(* ===================================================================== *)
(** ** Further properties of the recurrent encoder-decoder *)

Section RecurrentMore.
Context {A : Type} {SA : Scalar A}.
Variable sigmoid : A -> A.
Import ConvLSTM.

(** The decoder loop only appends: one hidden state per step. *)
Lemma decode_extends (self : EncoderDecoderConvLSTM A) (ts : list nat) :
  forall ev st outs outs',
    decode self ts ev st outs = Ok outs' ->
    exists extra, outs' = (outs ++ extra)%list /\ length extra = length ts.
Proof.
  induction ts as [|t ts IH]; intros ev st outs outs'; simpl.
  - intros [= <-]. exists []. rewrite app_nil_r. auto.
  - destruct (cell_forward (decoder_1_convlstm self) ev st.1) as [s3|e]; simpl;
      [|discriminate].
    destruct (cell_forward (decoder_2_convlstm self) s3.1 st.2) as [s4|e]; simpl;
      [|discriminate].
    intros Hd. destruct (IH _ _ _ _ Hd) as (extra & -> & Hlen).
    exists (s4.1 :: extra). rewrite <- app_assoc. simpl. auto.
Qed.

(** Decoding [ts1 ++ ts2] steps starts with what decoding [ts1] steps
    gives. *)
Lemma decode_prefix (self : EncoderDecoderConvLSTM A) (ts1 ts2 : list nat) :
  forall ev st outs outs2,
    decode self (ts1 ++ ts2) ev st outs = Ok outs2 ->
    exists outs1 extra,
      decode self ts1 ev st outs = Ok outs1
      /\ outs2 = (outs1 ++ extra)%list.
Proof.
  induction ts1 as [|t ts1 IH]; intros ev st outs outs2; simpl.
  - intros Hd. destruct (decode_extends _ _ _ _ _ _ Hd) as (extra & -> & _).
    exists outs, extra. auto.
  - destruct (cell_forward (decoder_1_convlstm self) ev st.1) as [s3|e]; simpl;
      [|discriminate].
    destruct (cell_forward (decoder_2_convlstm self) s3.1 st.2) as [s4|e]; simpl;
      [|discriminate].
    apply IH.
Qed.

Lemma torch_stack_inv (ts : list (Tensor A)) (dim : nat) (t : Tensor A) :
  torch_stack ts dim = Ok t ->
  exists t0 rest,
    ts = t0 :: rest
    /\ Forall (fun u => shape u = shape t0) ts
    /\ dim <= ndim t0
    /\ t = mkTensor (insert_at dim (length ts) (shape t0))
             (fun idx => at_ (nth (nth dim idx 0) ts t0) (remove_at dim idx)).
Proof.
  destruct ts as [|t0 rest]; [discriminate|]. unfold torch_stack.
  destruct (forallb _ rest) eqn:Hall; simpl; [|discriminate].
  destruct (Nat.leb_spec dim (ndim t0)) as [Hle|Hgt]; simpl; [|discriminate].
  intros [= <-]. exists t0, rest. repeat split; try assumption.
  constructor; [reflexivity|].
  rewrite forallb_forall in Hall. apply Forall_forall. intros u Hu.
  apply list_elem_of_In in Hu. specialize (Hall u Hu).
  unfold list_eqb in Hall. apply bool_decide_eq_true in Hall. exact Hall.
Qed.

Lemma permute_swap_inv (t t' : Tensor A) :
  permute t [0; 2; 1; 3; 4] = Ok t' ->
  exists a b c d e, shape t = [a; b; c; d; e] /\ shape t' = [a; c; b; d; e]
    /\ forall i j k l m, at_ t' [i; j; k; l; m] = at_ t [i; k; j; l; m].
Proof.
  unfold permute, is_permutation, ndim.
  destruct (shape t) as [|a [|b [|c [|d [|e [|? ?]]]]]] eqn:Hsh; simpl;
    try discriminate.
  intros [= <-]. exists a, b, c, d, e. simpl. repeat split.
Qed.

Lemma head_of_prefix (cnn : Conv3d A) (outs1 extra : list (Tensor A))
    (o2 : Tensor A) :
  outs1 <> [] ->
  head_of sigmoid (outs1 ++ extra) cnn = Ok o2 ->
  exists o1,
    head_of sigmoid outs1 cnn = Ok o1
    /\ shape o1 = <[2 := length outs1]> (shape o2)
    /\ forall ib o t y x',
         t < length outs1 -> at_ o1 [ib; o; t; y; x'] = at_ o2 [ib; o; t; y; x'].
Proof.
  intros Hne H2. unfold head_of in *.
  unfold mbind, result_bind, rbind in *.
  destruct (torch_stack (outs1 ++ extra) 1) as [stk2|e] eqn:Hstk2; [|discriminate].
  destruct (torch_stack_inv _ _ _ Hstk2) as (t0 & rest & Hts & Hall & Hdim & Hstk2eq).
  destruct outs1 as [|u0 rest1]; [congruence|].
  simpl in Hts. injection Hts as <- Hrest.
  destruct (permute stk2 _) as [perm2|e] eqn:Hperm2; [|discriminate].
  destruct (permute_swap_inv _ _ Hperm2) as (a & b & c & d & e & Hs & Hs' & Hat2).
  rewrite Hstk2eq in Hs. simpl in Hs. unfold insert_at in Hs.
  destruct (shape u0) as [|a0 [|c0 [|d0 [|e0 [|? ?]]]]] eqn:Hu0; simpl in Hs;
    try discriminate.
  injection Hs as <- <- <- <- <-.
  apply Forall_app in Hall as [Hall1 _].
  destruct (torch_stack_ok (u0 :: rest1) [a0; c0; d0; e0] 1) as (stk1 & Hstk1 & Hsh1).
  { discriminate. }
  { exact Hall1. }
  { simpl. lia. }
  rewrite Hstk1.
  destruct (torch_stack_inv _ _ _ Hstk1) as (t0' & rest' & Hts' & _ & _ & Hstk1eq).
  injection Hts' as <- <-.
  unfold insert_at in Hsh1. simpl in Hsh1.
  destruct (permute_swap_1_2 stk1 _ _ _ _ _ Hsh1) as (perm1 & -> & Hp1 & Hat1).
  unfold conv3d_forward in *. rewrite Hs' in H2. rewrite Hp1.
  destruct (negb (c0 =? in_channels cnn)); [discriminate|].
  injection H2 as <-. eexists. split; [reflexivity|]. split; [reflexivity|].
  intros ib o t y x' Ht. simpl. f_equal. f_equal. f_equal.
  apply map_ext. intros [|ic [|ky [|kx [|? ?]]]]; try reflexivity.
  f_equal. unfold padded_at. rewrite Hs', Hp1. simpl.
  destruct (_ && _); [|reflexivity].
  rewrite Hat1, Hat2. rewrite Hstk1eq, Hstk2eq. simpl.
  destruct t as [|t]; [reflexivity|].
  f_equal. simpl in Ht.
  rewrite app_nth1 by lia. reflexivity.
Qed.

Lemma autoencoder_head (self : EncoderDecoderConvLSTM A) (x : Tensor A)
    (seq_len future_step : nat) (s1 s2 s3 s4 : Tensor A * Tensor A) :
  autoencoder sigmoid self x seq_len future_step s1 s2 s3 s4 =
    (enc ← encode self x (seq 0 seq_len) (s1, s2);
     outputs ← decode self (seq 0 future_step) enc.2.1 (s3, s4) [];
     head_of sigmoid outputs (decoder_CNN self)).
Proof. reflexivity. Qed.

(** X1.  The forecast depends on the input sequence only through the
    final hidden state of the second encoder cell: two inputs with the same
    batch and image size whose encodings end in the same hidden state get
    the same forecast, for every horizon.  The cell state of the second
    encoder cell and both states of the first are dropped. *)
Theorem forward_through_encoder_vector (self : EncoderDecoderConvLSTM A)
    (x x' : Tensor A) (b T T' c c' h w future_seq : nat)
    (st st' : (Tensor A * Tensor A) * (Tensor A * Tensor A)) :
  shape x = [b; T; c; h; w] -> shape x' = [b; T'; c'; h; w] ->
  encode self x (seq 0 T)
    (init_hidden (encoder_1_convlstm self) b (h, w),
     init_hidden (encoder_2_convlstm self) b (h, w)) = Ok st ->
  encode self x' (seq 0 T')
    (init_hidden (encoder_1_convlstm self) b (h, w),
     init_hidden (encoder_2_convlstm self) b (h, w)) = Ok st' ->
  st.2.1 = st'.2.1 ->
  forward sigmoid self x future_seq = forward sigmoid self x' future_seq.
Proof.
  intros Hx Hx' He He' Heq. unfold forward. rewrite Hx, Hx'.
  rewrite !autoencoder_head, He, He'. simpl. rewrite Heq. reflexivity.
Qed.

(** X2.  Forecasts are consistent across horizons: when the forward pass
    returns for the horizon [n + k], it returns for the horizon [n >= 1]
    too, with the time dimension cut to [n], and the two forecasts agree on
    every element of the first [n] frames. *)
Theorem forecast_prefix (self : EncoderDecoderConvLSTM A) (x : Tensor A)
    (n k : nat) (long : Tensor A) :
  1 <= n ->
  forward sigmoid self x (n + k) = Ok long ->
  exists short,
    forward sigmoid self x n = Ok short
    /\ shape short = <[2 := n]> (shape long)
    /\ forall ib o t y x',
         t < n -> at_ short [ib; o; t; y; x'] = at_ long [ib; o; t; y; x'].
Proof.
  intros Hn. unfold forward.
  destruct (shape x) as [|b [|T [|c [|h [|w [|? ?]]]]]]; try discriminate.
  rewrite !autoencoder_head.
  destruct (encode self x (seq 0 T) _) as [st|e]; [|discriminate].
  simpl. rewrite seq_app. simpl.
  destruct (decode self (seq 0 n ++ seq n k) _ _ _) as [outs2|e] eqn:Hd2;
    [|discriminate].
  simpl. intros Hhead.
  destruct (decode_prefix _ _ _ _ _ _ _ Hd2) as (outs1 & extra & Hd1 & ->).
  rewrite Hd1. simpl.
  destruct (decode_extends _ _ _ _ _ _ Hd1) as (fresh & Hfresh & Hlen).
  simpl in Hfresh. subst outs1. rewrite length_seq in Hlen.
  destruct (head_of_prefix (decoder_CNN self) fresh extra long) as (short & Hs & Hsh & Hat).
  { intros ->. simpl in Hlen. lia. }
  { exact Hhead. }
  exists short. rewrite Hlen in Hsh, Hat. auto.
Qed.

Lemma forward_zero_raises_some (self : EncoderDecoderConvLSTM A) (x : Tensor A) :
  exists e, forward sigmoid self x 0 = Raise e.
Proof.
  unfold forward.
  destruct (shape x) as [|b [|T [|c [|h [|w [|? ?]]]]]]; try (eexists; reflexivity).
  unfold autoencoder.
  destruct (encode self x (seq 0 T) _) as [st|e]; simpl; eexists; reflexivity.
Qed.

(** X3.  A model whose [forecast_steps] is 0 cannot be trained, validated
    or tested: each of the three steps raises on every batch, before
    anything is logged or drawn. *)
Theorem steps_need_a_horizon (self : EncoderDecoderConvLSTM A)
    (batch : Tensor A * Tensor A) (batch_idx : nat) (w : world A) :
  forecast_steps self = 0 ->
  exists e,
    training_step sigmoid self batch batch_idx w = (Raise e, w)
    /\ validation_step sigmoid self batch batch_idx w = (Raise e, w)
    /\ test_step sigmoid self batch batch_idx w = (Raise e, w).
Proof.
  intros H0. destruct batch as [x y].
  destruct (forward_zero_raises_some self x) as (e & He).
  exists e. unfold training_step, validation_step, test_step, mbind_, lift.
  rewrite H0, He. auto.
Qed.

End RecurrentMore.

(* ===================================================================== *)
(** ** Further properties of the steps of the recurrent model *)

Section RecurrentSteps.
Context {A : Type} {SA : Scalar A}.
Variable sigmoid : A -> A.
Import ConvLSTM.

Lemma log_to_twice (w : world A) (d1 d2 : list (string * A)) :
  log_to (log_to w d1) d2 = log_to w (d1 ++ d2).
Proof. unfold log_to. simpl. rewrite <- app_assoc. reflexivity. Qed.

Lemma frame_losses_keys (crit : loss_fn A) (prefix : string)
    (y_hat y : Tensor A) (fs : list nat) :
  forall d, frame_losses crit prefix y_hat y fs = Ok d ->
            d.*1 = map (fun f => prefix +:+ pretty f +:+ "_loss") fs.
Proof.
  induction fs as [|f fs IH]; intros d; simpl.
  - intros [= <-]. reflexivity.
  - destruct (frame y_hat f) as [p|e]; simpl; [|discriminate].
    destruct (frame y f) as [t|e]; simpl; [|discriminate].
    destruct (crit p t) as [l|e]; simpl; [|discriminate].
    destruct (frame_losses crit prefix y_hat y fs) as [rest|e]; simpl;
      [|discriminate].
    intros [= <-]. simpl. f_equal. apply IH. reflexivity.
Qed.

Lemma frame_losses_prefix (crit : loss_fn A) (p1 p2 : string)
    (y_hat y : Tensor A) (fs : list nat) :
  forall d1, frame_losses crit p1 y_hat y fs = Ok d1 ->
             exists d2, frame_losses crit p2 y_hat y fs = Ok d2 /\ d2.*2 = d1.*2.
Proof.
  induction fs as [|f fs IH]; intros d1; simpl.
  - intros [= <-]. exists []. auto.
  - destruct (frame y_hat f) as [p|e]; simpl; [|discriminate].
    destruct (frame y f) as [t|e]; simpl; [|discriminate].
    destruct (crit p t) as [l|e]; simpl; [|discriminate].
    destruct (frame_losses crit p1 y_hat y fs) as [rest|e]; simpl; [|discriminate].
    destruct (IH rest eq_refl) as (rest2 & -> & Hr). simpl.
    intros [= <-]. eexists. split; [reflexivity|]. simpl. f_equal. exact Hr.
Qed.

Lemma log_to_nil (w : world A) : log_to w [] = w.
Proof. destruct w. unfold log_to. simpl. rewrite app_nil_r. reflexivity. Qed.

Lemma after_visualisation_outcome (self : EncoderDecoderConvLSTM A)
    (y_hat y : Tensor A) (w : world A) :
  after_visualisation self y_hat y w =
    ((step_outcome self y_hat y).1, log_to w (step_outcome self y_hat y).2).
Proof.
  unfold after_visualisation, step_outcome, mbind_, lift, log, log_dict, pure.
  destruct (criterion self y_hat y) as [loss|e]; simpl;
    [|rewrite log_to_nil; reflexivity].
  destruct (moveaxis y_hat 2 1) as [mv|e]; simpl; [|reflexivity].
  destruct (frame_losses _ _ _ _ _) as [d|e]; simpl; [|reflexivity].
  f_equal. unfold log_to. simpl. rewrite <- app_assoc. reflexivity.
Qed.

Lemma step_outcome_ok (self : EncoderDecoderConvLSTM A) (y_hat y : Tensor A)
    (loss : A) :
  (step_outcome self y_hat y).1 = Ok loss ->
  criterion self y_hat y = Ok loss
  /\ exists mv frames,
       moveaxis y_hat 2 1 = Ok mv
       /\ frame_losses (criterion self) "train/frame_" mv y
            (seq 0 (forecast_steps self)) = Ok frames
       /\ (step_outcome self y_hat y).2 = ("train/loss", loss) :: frames.
Proof.
  unfold step_outcome.
  destruct (criterion self y_hat y) as [l|e]; simpl; [|discriminate].
  destruct (moveaxis y_hat 2 1) as [mv|e]; simpl; [|discriminate].
  destruct (frame_losses _ _ _ _ _) as [d|e] eqn:Hd; simpl; [|discriminate].
  intros [= <-]. split; [reflexivity|]. exists mv, d. rewrite Hd.
  repeat split; reflexivity.
Qed.

Lemma training_step_plain (self : EncoderDecoderConvLSTM A) (x y : Tensor A)
    (batch_idx : nat) (w : world A) :
  make_vis self = false ->
  training_step sigmoid self (x, y) batch_idx w =
    match forward sigmoid self x (forecast_steps self) with
    | Ok y_hat => after_visualisation self y_hat y w
    | Raise e => (Raise e, w)
    end.
Proof.
  intros Hv. unfold training_step, after_visualisation, mbind_, lift, pure.
  rewrite Hv. destruct (forward _ _ _ _); reflexivity.
Qed.

(** X4.  A training step that returns without visualisation has logged
    ["train/loss"] with the returned loss, then one loss per forecast index
    under the keys ["train/frame_0_loss"], ["train/frame_1_loss"], ... in
    this order, and has changed nothing else. *)
Theorem training_step_metrics (self : EncoderDecoderConvLSTM A)
    (batch : Tensor A * Tensor A) (batch_idx : nat) (w w' : world A) (loss : A) :
  make_vis self = false ->
  training_step sigmoid self batch batch_idx w = (Ok loss, w') ->
  exists frames,
    w' = log_to w (("train/loss", loss) :: frames)
    /\ frames.*1 = map (fun f => "train/frame_" +:+ pretty f +:+ "_loss")
                      (seq 0 (forecast_steps self)).
Proof.
  intros Hv. destruct batch as [x y]. rewrite (training_step_plain _ _ _ _ _ Hv).
  destruct (forward _ _ _ _) as [y_hat|e]; [|discriminate].
  rewrite after_visualisation_outcome. intros [= Hl <-].
  destruct (step_outcome_ok _ _ _ _ Hl) as (_ & mv & frames & _ & Hf & ->).
  exists frames. split; [reflexivity|]. exact (frame_losses_keys _ _ _ _ _ _ Hf).
Qed.

(** The visualisation only adds images. *)
Lemma for_range_scalars (rg : list nat) (body : nat -> M A unit) :
  (forall i w r w1, body i w = (r, w1) -> scalars_logged w1 = scalars_logged w) ->
  forall w r w1, for_range rg body w = (r, w1) ->
                 scalars_logged w1 = scalars_logged w.
Proof.
  intros Hb. induction rg as [|i rg IH]; intros w r w1; simpl.
  - intros [= _ <-]. reflexivity.
  - unfold mbind_. destruct (body i w) as [[[]|e] w0] eqn:Hbi.
    + intros Hr. rewrite (IH _ _ _ Hr). exact (Hb _ _ _ _ Hbi).
    + intros [= _ <-]. exact (Hb _ _ _ _ Hbi).
Qed.

Lemma add_images_scalars (tag : string) (t : Tensor A) (step : nat)
    (w w1 : world A) (r : result unit) :
  add_images tag t step w = (r, w1) -> scalars_logged w1 = scalars_logged w.
Proof.
  unfold add_images, mbind_, lift.
  destruct (select t 0 0) as [img|e]; [|intros [= _ <-]; reflexivity].
  destruct (shape img) as [|n [|m ?]]; try (intros [= _ <-]; reflexivity).
  apply for_range_scalars. intros i w2 r2 w3.
  apply for_range_scalars. intros j w4 r4 w5. intros [= _ <-]. reflexivity.
Qed.

Lemma visualize_scalars (self : EncoderDecoderConvLSTM A) (x y y_hat : Tensor A)
    (batch_idx : nat) (w w1 : world A) (r : result unit) :
  visualize self x y y_hat batch_idx w = (r, w1) ->
  scalars_logged w1 = scalars_logged w.
Proof.
  unfold visualize. destruct (logger self); simpl;
    [|intros [= _ <-]; reflexivity].
  unfold mbind_.
  destruct (add_images "Input_Image_" x batch_idx w) as [[[]|e] w2] eqn:H1.
  - destruct (add_images "Output_Image_" y_hat batch_idx w2) as [[[]|e] w3] eqn:H2.
    + intros H3. rewrite (add_images_scalars _ _ _ _ _ _ H3).
      rewrite (add_images_scalars _ _ _ _ _ _ H2).
      exact (add_images_scalars _ _ _ _ _ _ H1).
    + intros [= _ <-]. rewrite (add_images_scalars _ _ _ _ _ _ H2).
      exact (add_images_scalars _ _ _ _ _ _ H1).
  - intros [= _ <-]. exact (add_images_scalars _ _ _ _ _ _ H1).
Qed.

Lemma training_step_split (self : EncoderDecoderConvLSTM A) (x y : Tensor A)
    (batch_idx : nat) (w w' : world A) (loss : A) :
  training_step sigmoid self (x, y) batch_idx w = (Ok loss, w') ->
  exists y_hat w1,
    forward sigmoid self x (forecast_steps self) = Ok y_hat
    /\ scalars_logged w1 = scalars_logged w
    /\ after_visualisation self y_hat y w1 = (Ok loss, w').
Proof.
  unfold training_step. unfold mbind_ at 1. unfold lift at 1.
  destruct (forward _ _ _ _) as [y_hat|e]; [|discriminate].
  unfold mbind_ at 1.
  destruct (make_vis self).
  - unfold mbind_ at 1. unfold np_random at 1.
    destruct (Qltb _ _).
    + destruct (visualize self x y y_hat batch_idx _) as [[[]|e] w1] eqn:Hvis;
        [|discriminate].
      intros Hrest. exists y_hat, w1. split; [reflexivity|].
      split; [|exact Hrest].
      rewrite (visualize_scalars _ _ _ _ _ _ _ _ Hvis). reflexivity.
    + unfold pure at 1. intros Hrest. eexists y_hat, _. split; [reflexivity|].
      split; [|exact Hrest]. reflexivity.
  - unfold pure at 1. intros Hrest. exists y_hat, w. auto.
Qed.

(** X5.  The three steps agree on the loss: whenever the training step
    returns a loss, the test step returns the same loss and leaves the
    world as it was, and the validation step returns the same loss. *)
Theorem steps_agree_on_loss (self : EncoderDecoderConvLSTM A)
    (batch : Tensor A * Tensor A) (batch_idx : nat) (w w' : world A) (loss : A) :
  training_step sigmoid self batch batch_idx w = (Ok loss, w') ->
  test_step sigmoid self batch batch_idx w = (Ok loss, w)
  /\ exists w'', validation_step sigmoid self batch batch_idx w = (Ok loss, w'').
Proof.
  destruct batch as [x y]. intros Ht.
  destruct (training_step_split _ _ _ _ _ _ _ Ht) as (y_hat & w1 & Hfw & _ & Hrest).
  rewrite after_visualisation_outcome in Hrest. injection Hrest as Hl _.
  destruct (step_outcome_ok _ _ _ _ Hl) as (Hc & mv & frames & Hmv & Hf & _).
  split.
  - unfold test_step, mbind_, lift. rewrite Hfw, Hc. reflexivity.
  - unfold validation_step, mbind_, lift. rewrite Hfw, Hc, Hmv.
    destruct (frame_losses_prefix _ _ "val/frame_" _ _ _ _ Hf) as (d2 & -> & _).
    eexists. reflexivity.
Qed.

Lemma encode_set_make_vis (self : EncoderDecoderConvLSTM A) (b : bool)
    (x : Tensor A) (ts : list nat) :
  forall st, encode (set_make_vis self b) x ts st = encode self x ts st.
Proof.
  induction ts as [|t ts IH]; intros st; simpl; [reflexivity|].
  destruct (select x 1 t) as [x_t|e]; simpl; [|reflexivity].
  destruct (cell_forward (encoder_1_convlstm self) x_t st.1) as [s1|e]; simpl;
    [|reflexivity].
  destruct (cell_forward (encoder_2_convlstm self) s1.1 st.2) as [s2|e]; simpl;
    [|reflexivity].
  apply IH.
Qed.

Lemma decode_set_make_vis (self : EncoderDecoderConvLSTM A) (b : bool)
    (ts : list nat) :
  forall ev st outs,
    decode (set_make_vis self b) ts ev st outs = decode self ts ev st outs.
Proof.
  induction ts as [|t ts IH]; intros ev st outs; simpl; [reflexivity|].
  destruct (cell_forward (decoder_1_convlstm self) ev st.1) as [s3|e]; simpl;
    [|reflexivity].
  destruct (cell_forward (decoder_2_convlstm self) s3.1 st.2) as [s4|e]; simpl;
    [|reflexivity].
  apply IH.
Qed.

Lemma forward_set_make_vis (self : EncoderDecoderConvLSTM A) (b : bool)
    (x : Tensor A) (n : nat) :
  forward sigmoid (set_make_vis self b) x n = forward sigmoid self x n.
Proof.
  unfold forward.
  destruct (shape x) as [|? [|T [|? [|? [|? [|? ?]]]]]]; try reflexivity.
  unfold autoencoder. rewrite encode_set_make_vis.
  change (init_hidden (encoder_1_convlstm (set_make_vis self b)))
    with (init_hidden (encoder_1_convlstm self)).
  destruct (encode self x (seq 0 T) _) as [st|e]; simpl; [|reflexivity].
  rewrite decode_set_make_vis. reflexivity.
Qed.

(** X6.  Visualisation is observational: when a training step returns a
    loss, the same step with [make_vis] switched off returns the same loss
    and logs the same scalars. *)
Theorem visualisation_is_observational (self : EncoderDecoderConvLSTM A)
    (batch : Tensor A * Tensor A) (batch_idx : nat) (w w' : world A) (loss : A) :
  training_step sigmoid self batch batch_idx w = (Ok loss, w') ->
  exists w'',
    training_step sigmoid (set_make_vis self false) batch batch_idx w
    = (Ok loss, w'')
    /\ scalars_logged w'' = scalars_logged w'.
Proof.
  destruct batch as [x y]. intros Ht.
  destruct (training_step_split _ _ _ _ _ _ _ Ht) as (y_hat & w1 & Hfw & Hs & Hrest).
  rewrite after_visualisation_outcome in Hrest. injection Hrest as Hl <-.
  rewrite (training_step_plain (set_make_vis self false)) by reflexivity.
  rewrite forward_set_make_vis.
  change (forecast_steps (set_make_vis self false)) with (forecast_steps self).
  rewrite Hfw.
  change (after_visualisation (set_make_vis self false) y_hat y w)
    with (after_visualisation self y_hat y w).
  rewrite after_visualisation_outcome, Hl.
  eexists. split; [reflexivity|]. unfold log_to. simpl. rewrite Hs. reflexivity.
Qed.

End RecurrentSteps.

(* ===================================================================== *)
(** ** The mse loss on tensors of one shape *)

Section MseFacts.
Context {A : Type} {SA : Scalar A}.








End MseFacts.

Section SingleFrame.
Context {A : Type} {SA : Scalar A}.
Variable sigmoid : A -> A.
Import ConvLSTM.


End SingleFrame.

(* ===================================================================== *)
(** ** Further properties of the constructors *)

Section ConstructorsMore.
Context {A : Type} {SA : Scalar A}.

(** X8.  A loss name resolves to a criterion exactly when it is one of the
    five recognized names, whether assertions are enabled or not: the
    assertion of line 33 and the final [else] of line 41 reject the same
    names. *)
Theorem loss_name_resolves_iff_recognized (env : ConvLSTM.Env A) (s : string) :
  is_ok (ConvLSTM.resolve_loss env (LossName s))
  = bool_decide (s ∈ ConvLSTM.recognized).
Proof.
  destruct (decide (s ∈ ConvLSTM.recognized)) as [Hin|Hnot].
  - rewrite (bool_decide_eq_true_2 _ Hin). apply resolve_loss_recognized, Hin.
  - rewrite (bool_decide_eq_false_2 _ Hnot).
    rewrite (resolve_loss_unrecognized env s Hnot). reflexivity.
Qed.

(** The three cross-entropy names give the same criterion. *)
Lemma cross_entropy_names (env : ConvLSTM.Env A) (s : string) :
  s ∈ ["bce"; "binary_crossentropy"; "crossentropy"] ->
  ConvLSTM.resolve_loss env (LossName s) = Ok (ConvLSTM.F_nll_loss env).
Proof.
  rewrite !elem_of_cons, elem_of_nil.
  intros [->|[->|[->|[]]]]; unfold ConvLSTM.resolve_loss;
    destruct (ConvLSTM.debug env); reflexivity.
Qed.

Lemma config_get_insert_ne (config : gmap string pyval) (k k' : string)
    (v d : pyval) :
  k <> k' -> config_get (<[k := v]> config) k' d = config_get config k' d.
Proof. intros Hne. unfold config_get. rewrite lookup_insert_ne by exact Hne. reflexivity. Qed.

(** X9.  [from_config] of the recurrent model reads the five keys
    [num_hidden], [in_channels], [out_channels], [forecast_steps] and [lr]
    and nothing else: an entry under any other key (the constructor's own
    names [hidden_dim], [input_channels], [loss], [make_vis] included) does
    not change what it builds. *)
Theorem from_config_reads_five_keys (env : ConvLSTM.Env A)
    (config : gmap string pyval) (k : string) (v : pyval) :
  k ∉ read_keys ->
  ConvLSTM.from_config env (<[k := v]> config) = ConvLSTM.from_config env config.
Proof.
  unfold read_keys. rewrite !not_elem_of_cons. intros (H1 & H2 & H3 & H4 & H5 & _).
  unfold ConvLSTM.from_config.
  rewrite !config_get_insert_ne by assumption. reflexivity.
Qed.

End ConstructorsMore.

(* ===================================================================== *)
(** ** Further properties of the adversarial model *)

Section GANMore.
Context {A : Type} {SA : Scalar A}.
Import GAN.

Lemma advance_0 (w : world A) : advance w 0 = w.
Proof. destruct w. unfold advance. simpl. rewrite Nat.add_0_r. reflexivity. Qed.

Lemma advance_S (w : world A) (n : nat) : advance (advance w 1) n = advance w (S n).
Proof. unfold advance. simpl. f_equal. lia. Qed.

Lemma forward_inv (self : NowcastingGAN A) (x g : Tensor A) (w w1 : world A) :
  forward self x w = (Ok g, w1) ->
  w1 = advance w 1
  /\ exists cs latent,
       conditioning_stack self x = Ok cs
       /\ latent_stack self (torch_cursor w) = Ok latent
       /\ sampler self cs latent = Ok g.
Proof.
  unfold forward, mbind_, lift, torch_draw.
  destruct (conditioning_stack self x) as [cs|e]; [|discriminate].
  destruct (latent_stack self (torch_cursor w)) as [latent|e]; [|discriminate].
  intros [= Hs <-]. split.
  - unfold advance. f_equal. lia.
  - exists cs, latent. auto.
Qed.

Lemma forward_at (self : NowcastingGAN A) (x g : Tensor A) (w : world A)
    (cs : list (Tensor A)) (latent : Tensor A) :
  conditioning_stack self x = Ok cs ->
  latent_stack self (torch_cursor w) = Ok latent ->
  sampler self cs latent = Ok g ->
  forward self x w = (Ok g, advance w 1).
Proof.
  intros Hc Hl Hs. unfold forward, mbind_, lift, torch_draw.
  rewrite Hc, Hl, Hs. unfold advance. f_equal. f_equal. lia.
Qed.

Lemma sample_draws_aux (self : NowcastingGAN A) (images : Tensor A) (n : nat) :
  forall acc w l w',
    sample self images n acc w = (Ok l, w') ->
    w' = advance w n
    /\ exists gs,
         l = (acc ++ gs)%list /\ length gs = n
         /\ forall k g, gs !! k = Some g ->
              exists cs latent,
                conditioning_stack self images = Ok cs
                /\ latent_stack self (torch_cursor w + k) = Ok latent
                /\ sampler self cs latent = Ok g.
Proof.
  induction n as [|n IH]; intros acc w l w'; simpl.
  - intros [= <- <-]. split; [symmetry; apply advance_0|].
    exists []. rewrite app_nil_r. repeat split. intros k g Hk. discriminate.
  - unfold mbind_. destruct (forward self images w) as [[g0|e] w1] eqn:Hfw;
      [|discriminate].
    intros Hs. destruct (forward_inv _ _ _ _ _ Hfw) as (-> & cs & latent & Hc & Hl & Hg).
    destruct (IH _ _ _ _ Hs) as (-> & gs & -> & Hlen & Hk).
    split; [apply advance_S|].
    exists (g0 :: gs). rewrite <- app_assoc. simpl. repeat split; [lia|].
    intros [|k] g Hlk; simpl in Hlk.
    + injection Hlk as <-. exists cs, latent. rewrite Nat.add_0_r. auto.
    + destruct (Hk k g Hlk) as (cs' & latent' & Hc' & Hl' & Hg').
      exists cs', latent'. repeat split; try assumption.
      simpl in Hl'. replace (torch_cursor w + S k) with (torch_cursor w + 1 + k) by lia.
      exact Hl'.
Qed.

(** X10.  The sampling loop makes [n] forward passes on the same context:
    when it returns, it has appended [n] forecasts, the [k]-th of which the
    sampler produced from the conditioning states of the context and the
    latent of draw number [torch_cursor + k]; torch's generator has
    advanced by [n] and nothing else in the world has changed. *)
Theorem sample_draws (self : NowcastingGAN A) (images : Tensor A) (n : nat) :
  forall acc w l w',
    sample self images n acc w = (Ok l, w') ->
    w' = advance w n
    /\ exists gs,
         l = (acc ++ gs)%list /\ length gs = n
         /\ forall k g, gs !! k = Some g ->
              exists cs latent,
                conditioning_stack self images = Ok cs
                /\ latent_stack self (torch_cursor w + k) = Ok latent
                /\ sampler self cs latent = Ok g.
Proof. exact (sample_draws_aux self images n). Qed.

Lemma map_seq_from {X} (f : nat -> X) (n k : nat) :
  map f (seq n k) = map (fun i => f (n + i)) (seq 0 k).
Proof.
  revert n f. induction k as [|k IH]; intros n f; simpl; [reflexivity|].
  rewrite Nat.add_0_r. f_equal.
  rewrite (IH (S n)), (IH 1). apply map_ext. intros i. f_equal. lia.
Qed.

(** Element [i :: idx] of the concatenation along dimension 0. *)
Lemma cat_at_slices (ts : list (Tensor A)) (n : nat) (sh idx : list nat) :
  Forall (fun t => shape t = n :: sh) ts ->
  map (fun i => cat_at ts 0 (i :: idx)) (seq 0 (length ts * n))
  = flat_map (fun t => map (fun i => at_ t (i :: idx)) (seq 0 n)) ts.
Proof.
  induction 1 as [|t ts Ht _ IH]; [reflexivity|].
  cbn [length Nat.mul flat_map]. rewrite seq_app, map_app. f_equal.
  - apply map_ext_in. intros i Hi. apply in_seq in Hi. simpl. rewrite Ht. simpl.
    destruct (Nat.ltb_spec i n); [reflexivity | lia].
  - rewrite <- IH. simpl. rewrite map_seq_from.
    apply map_ext. intros i. rewrite Ht. simpl.
    destruct (Nat.ltb_spec (n + i) n); [lia|].
    replace (n + i - n) with i by lia. reflexivity.
Qed.

Lemma total_leading (ts : list (Tensor A)) (n : nat) (sh : list nat) :
  Forall (fun t => shape t = n :: sh) ts ->
  foldr Nat.add 0 (map (fun t => nth 0 (shape t) 0) ts) = length ts * n.
Proof.
  induction 1 as [|t ts Ht _ IH]; [reflexivity|].
  simpl. rewrite Ht, IH. reflexivity.
Qed.

Lemma torch_cat_0 (ts : list (Tensor A)) (n : nat) (sh : list nat) :
  ts <> [] -> Forall (fun t => shape t = n :: sh) ts ->
  torch_cat ts 0 = Ok (mkTensor (length ts * n :: sh) (cat_at ts 0)).
Proof.
  intros Hne Hall. pose proof (total_leading _ _ _ Hall) as Htot.
  destruct ts as [|t0 rest]; [congruence|].
  apply Forall_cons in Hall as [H0 Hrest].
  unfold torch_cat.
  assert (forallb (fun t => ndim t =? ndim t0) rest = true) as ->.
  { apply forallb_forall. intros t Hin. apply Nat.eqb_eq.
    rewrite Forall_forall in Hrest. unfold ndim.
    rewrite (Hrest t), H0; [reflexivity|]. apply list_elem_of_In, Hin. }
  unfold ndim at 1. rewrite H0. cbn [negb length Nat.ltb Nat.leb].
  rewrite (forallb_list_eqb rest (n :: sh) (remove_at 0) Hrest).
  cbn [negb]. rewrite Htot. reflexivity.
Qed.

Lemma mean_of_samples_at (samples : list (Tensor A)) (n : nat) (sh : list nat)
    (m : Tensor A) :
  Forall (fun t => shape t = n :: sh) samples ->
  mean_of_samples samples = Ok m ->
  shape m = sh
  /\ forall idx,
       at_ m idx
       = smean (flat_map (fun t => map (fun i => at_ t (i :: idx)) (seq 0 n))
                  samples).
Proof.
  intros Hall. unfold mean_of_samples.
  destruct (decide (samples = [])) as [->|Hne]; [discriminate|].
  rewrite (torch_cat_0 _ _ _ Hne Hall).
  unfold mbind, result_bind, rbind, torch_mean, ndim.
  cbn [shape length Nat.ltb Nat.leb negb nth remove_at take drop app].
  intros [= <-]. split; [reflexivity|]. intros idx.
  cbn [at_]. rewrite <- (cat_at_slices _ _ _ idx Hall). reflexivity.
Qed.

(** X11.  What the mean prediction is: for [N] samples of shape
    [[b, ...]], element [idx] of [torch.mean(torch.cat(samples, 0), 0)] is
    the mean of the [N * b] elements [sample[i][idx]], over all samples and
    all examples [i] of the batch, and the result has lost the leading
    dimension. *)
Theorem mean_prediction_pools_the_batch (samples : list (Tensor A)) (b : nat)
    (sh : list nat) (m : Tensor A) :
  Forall (fun t => shape t = b :: sh) samples ->
  mean_of_samples samples = Ok m ->
  shape m = sh
  /\ forall idx,
       at_ m idx
       = smean (flat_map (fun t => map (fun i => at_ t (i :: idx)) (seq 0 b))
                  samples).
Proof. apply mean_of_samples_at. Qed.

(** X12.  On a batch of one example the mean prediction is the
    element-wise average of the samples (without the batch dimension). *)
Theorem mean_prediction_batch_of_one (samples : list (Tensor A))
    (sh : list nat) (m : Tensor A) :
  Forall (fun t => shape t = 1 :: sh) samples ->
  mean_of_samples samples = Ok m ->
  shape m = sh
  /\ forall idx, at_ m idx = smean (map (fun t => at_ t (0 :: idx)) samples).
Proof.
  intros Hall Hm. destruct (mean_of_samples_at _ _ _ _ Hall Hm) as (Hsh & Hat).
  split; [exact Hsh|]. intros idx. rewrite Hat.
  assert (forall l : list (Tensor A),
            flat_map (fun t => map (fun i => at_ t (i :: idx)) (seq 0 1)) l
            = map (fun t => at_ t (0 :: idx)) l) as Hfm.
  { induction l as [|t l IH]; simpl in *; [|rewrite IH]; reflexivity. }
  rewrite Hfm. reflexivity.
Qed.

Lemma mean_of_samples_rank (t0 : Tensor A) (rest : list (Tensor A))
    (m : Tensor A) :
  mean_of_samples (t0 :: rest) = Ok m -> ndim m + 1 = ndim t0.
Proof.
  unfold mean_of_samples, torch_cat.
  destruct (negb (forallb _ rest)); [discriminate|].
  destruct (Nat.ltb_spec 0 (ndim t0)) as [Hpos|]; [|discriminate].
  cbn [negb]. destruct (negb (forallb _ rest)); [discriminate|].
  unfold mbind, result_bind, rbind, torch_mean, ndim. cbn [shape].
  unfold ndim in Hpos.
  destruct (shape t0) as [|n sh]; [simpl in Hpos; lia|].
  simpl. intros [= <-]. cbn [shape]. unfold remove_at. simpl. rewrite drop_0. lia.
Qed.

Lemma adversarial_loss_rank (self : NowcastingGAN A) (d : module A)
    (images future_images m : Tensor A) :
  ndim m <> ndim images ->
  exists e, adversarial_loss self d images future_images m = Raise e.
Proof.
  intros Hr. unfold adversarial_loss, mbind, result_bind, rbind.
  destruct (torch_cat [images; future_images] 1) as [real|e];
    [|eexists; reflexivity].
  destruct (call d real) as [d_real|e]; [|eexists; reflexivity].
  unfold torch_cat. cbn [forallb].
  apply Nat.eqb_neq in Hr. rewrite Hr. simpl. eexists. reflexivity.
Qed.

Lemma sample_mean_rank (self : NowcastingGAN A) (images m : Tensor A)
    (w w' : world A) :
  (forall w0 g w1, forward self images w0 = (Ok g, w1) -> ndim g = ndim images) ->
  sample_mean self images w = (Ok m, w') ->
  ndim m <> ndim images.
Proof.
  intros Hrank. unfold sample_mean, mbind_, lift.
  destruct (sample self images (num_samples self) [] w) as [[l|e] w1] eqn:Hs;
    [|discriminate].
  destruct (sample_draws_aux self images _ _ _ _ _ Hs) as (_ & gs & -> & _ & Hk).
  simpl. destruct gs as [|g0 gs]; [discriminate|].
  intros [= Hm _]. apply mean_of_samples_rank in Hm.
  destruct (Hk 0 g0 eq_refl) as (cs & latent & Hc & Hl & Hg).
  rewrite Nat.add_0_r in Hl.
  rewrite <- (Hrank w g0 _ (forward_at _ _ _ _ _ _ Hc Hl Hg)). lia.
Qed.


(** X14.  With [num_samples = 0] there is nothing to concatenate: the
    discriminator update raises at [torch.cat] on every batch, without
    having touched the world. *)
Theorem no_samples_raises (self : NowcastingGAN A)
    (batch : Tensor A * Tensor A) (batch_idx : nat) (w : world A) :
  num_samples self = 0 ->
  training_step self batch batch_idx 1 w
  = (Raise (RuntimeError "torch.cat(): expected a non-empty list of Tensors"), w).
Proof.
  intros H0. destruct batch as [images future_images].
  unfold training_step, sample_mean, mbind_, lift. rewrite H0. reflexivity.
Qed.

(** X15.  An optimizer index other than 0 and 1 selects no update: the
    step returns [None] without a forward pass, a draw or a log entry. *)
Theorem other_optimizer_index_does_nothing (self : NowcastingGAN A)
    (batch : Tensor A * Tensor A) (batch_idx optimizer_idx : nat) (w : world A) :
  2 <= optimizer_idx ->
  training_step self batch batch_idx optimizer_idx w = (Ok None, w).
Proof.
  intros Hidx. destruct batch as [images future_images].
  destruct optimizer_idx as [|[|n]]; [lia | lia | reflexivity].
Qed.

(** X16.  In the validation step the generated sequence is scored twice
    by the same discriminator against the same label [True] (lines 177 and
    185): once the four attributes exist and no visualisation is drawn, the
    reported discriminator loss is [(real_loss + gan_loss) / 2], where
    [gan_loss] is the generator's own adversarial loss, the generator loss
    is [gan_loss + l1 * lambda_l1], and ["val/loss"] is their sum. *)
Theorem validation_scores_fake_as_real (self : NowcastingGAN A)
    (crit_gan : Tensor A -> bool -> result A) (d : module A)
    (crit_l1 : loss_fn A) (lam : A)
    (images future_images generated fake real d_fake d_real : Tensor A)
    (batch_idx : nat) (w w1 : world A) (gan_loss l1 real_loss : A) :
  criterionGAN self = Some crit_gan -> discriminator self = Some d ->
  criterionL1 self = Some crit_l1 -> lambda_l1 self = Some lam ->
  forward self images w = (Ok generated, w1) ->
  Qltb (np_stream w1 (np_cursor w1)) 0.01 = false ->
  torch_cat [images; generated] 1 = Ok fake ->
  torch_cat [images; future_images] 1 = Ok real ->
  call d fake = Ok d_fake -> crit_gan d_fake true = Ok gan_loss ->
  call d real = Ok d_real -> crit_gan d_real true = Ok real_loss ->
  crit_l1 generated future_images = Ok l1 ->
  let g_loss := sadd gan_loss (smul l1 lam) in
  let d_loss := sdiv (sadd real_loss gan_loss) (s_of_nat 2) in
  exists w',
    validation_step self (images, future_images) batch_idx w
    = (Ok (mkValOutput d_loss g_loss [("d_loss", d_loss)] [("d_loss", d_loss)]), w')
    /\ scalars_logged w'
       = (scalars_logged w1 ++
          [("val/d_loss", d_loss); ("val/g_loss", g_loss);
           ("val/loss", sadd d_loss g_loss)])%list.
Proof.
  intros Hc Hd Hl1 Hlam Hfw Hr Hfake Hreal Hdf Hcf Hdr Hcr Hl g_loss d_loss.
  unfold validation_step, score.
  unfold mbind_, lift, np_random, pure, log_dict, mbind, result_bind.
  repeat (cbv beta iota delta [rbind getattr];
          first [rewrite Hfw | rewrite Hfake | rewrite Hr | rewrite Hc
                | rewrite Hd | rewrite Hdf | rewrite Hcf | rewrite Hl1
                | rewrite Hl | rewrite Hlam | rewrite Hreal | rewrite Hdr
                | rewrite Hcr]).
  cbv beta iota delta [rbind getattr].
  eexists. split; reflexivity.
Qed.

(** X17.  Which schedule [configure_optimizers] builds, once the
    attributes it reads exist: "plateau" gives two [ReduceLROnPlateau]
    (mode min, factor 0.2, threshold 0.01, patience 10) and does not read
    [lr_epochs]; "cosine" gives two [CosineAnnealingLR] over [lr_epochs]
    with minimum 0, and raises [AttributeError] when [lr_epochs] is
    missing.  In all three cases both Adam optimizers have been created,
    the generator's with [gen_lr] and the discriminator's with [disc_lr]. *)
Theorem schedule_selection (self : NowcastingGAN A) (beta_1 beta_2 : Q)
    (gen disc : module A) (w : world A) :
  b1 self = Some beta_1 -> b2 self = Some beta_2 ->
  generator self = Some gen -> discriminator self = Some disc ->
  let og := Adam (parameters gen) (gen_lr self) (beta_1, beta_2) in
  let od := Adam (parameters disc) (disc_lr self) (beta_1, beta_2) in
  (lr_method self = Some "plateau" ->
   configure_optimizers self w
   = (Ok (Configured [og; od]
            [ReduceLROnPlateau og "min" 0.2 0.01 10;
             ReduceLROnPlateau od "min" 0.2 0.01 10]),
      adam_created w og od))
  /\ (lr_method self = Some "cosine" ->
      forall epochs, lr_epochs self = Some epochs ->
      configure_optimizers self w
      = (Ok (Configured [og; od]
               [CosineAnnealingLR og epochs 0; CosineAnnealingLR od epochs 0]),
         adam_created w og od))
  /\ (lr_method self = Some "cosine" -> lr_epochs self = None ->
      configure_optimizers self w
      = (Raise (AttributeError "lr_epochs"), adam_created w og od)).
Proof.
  intros H1 H2 Hg Hd og od.
  repeat split.
  - intros Hm. unfold configure_optimizers, mbind_, lift, new_Adam.
    rewrite H1, H2, Hg, Hd, Hm. reflexivity.
  - intros Hm epochs He. unfold configure_optimizers, mbind_, lift, new_Adam.
    rewrite H1, H2, Hg, Hd, Hm. simpl. rewrite He. reflexivity.
  - intros Hm He. unfold configure_optimizers, mbind_, lift, new_Adam.
    rewrite H1, H2, Hg, Hd, Hm. simpl. rewrite He. reflexivity.
Qed.

End GANMore.

(* ===================================================================== *)
(** ** The two updates never report a loss *)

Section GANUpdates.
Context {A : Type} {SA : Scalar A}.
Import GAN.

Lemma advance_add (w : world A) (n k : nat) :
  advance (advance w n) k = advance w (n + k).
Proof. unfold advance. simpl. f_equal. lia. Qed.

(** A forward pass takes at most one draw from torch's generator and does
    nothing else to the world, whether it returns or raises. *)
Lemma forward_world (self : NowcastingGAN A) (x : Tensor A) (w : world A) :
  exists n, (forward self x w).2 = advance w n.
Proof.
  unfold forward, mbind_, lift, torch_draw.
  destruct (conditioning_stack self x) as [cs|e]; simpl.
  - exists 1.
    destruct (latent_stack self (torch_cursor w)) as [latent|e]; simpl;
      [destruct (sampler self cs latent); simpl|];
      unfold advance; f_equal; lia.
  - exists 0. symmetry. apply advance_0.
Qed.

Lemma sample_world (self : NowcastingGAN A) (images : Tensor A) (n : nat) :
  forall acc w, exists k, (sample self images n acc w).2 = advance w k.
Proof.
  induction n as [|n IH]; intros acc w; simpl.
  - exists 0. symmetry. apply advance_0.
  - unfold mbind_. destruct (forward_world self images w) as (k1 & Hk1).
    destruct (forward self images w) as [[g|e] w1]; simpl in Hk1; subst w1.
    + destruct (IH (acc ++ [g])%list (advance w k1)) as (k2 & Hk2).
      exists (k1 + k2). rewrite Hk2. apply advance_add.
    + exists k1. reflexivity.
Qed.

Lemma sample_mean_world (self : NowcastingGAN A) (images : Tensor A)
    (w : world A) :
  exists k, (sample_mean self images w).2 = advance w k.
Proof.
  unfold sample_mean, mbind_, lift.
  destruct (sample_world self images (num_samples self) [] w) as (k & Hk).
  exists k.
  destruct (sample self images (num_samples self) [] w) as [[l|e] w1];
    simpl in *; exact Hk.
Qed.

(** The mean prediction of a generator whose forecasts have the rank of the
    context cannot be joined to the context: the concatenation of lines 116
    and 146 refuses tensors of different rank. *)
Lemma adversarial_loss_rank_error (self : NowcastingGAN A) (d : module A)
    (images future_images m real d_real : Tensor A) :
  ndim m <> ndim images ->
  torch_cat [images; future_images] 1 = Ok real ->
  call d real = Ok d_real ->
  adversarial_loss self d images future_images m
  = Raise (RuntimeError "Tensors must have same number of dimensions").
Proof.
  intros Hr Hreal Hd. unfold adversarial_loss, mbind, result_bind, rbind.
  rewrite Hreal, Hd. unfold torch_cat. cbn [forallb].
  apply Nat.eqb_neq in Hr. rewrite Hr. reflexivity.
Qed.

(** With such a generator the generator update raises as well, whatever
    hook has been attached. *)
Lemma generator_step_rank_raises (self : NowcastingGAN A)
    (images future_images : Tensor A) (batch_idx : nat) (w : world A) :
  (forall w0 g w1, forward self images w0 = (Ok g, w1) -> ndim g = ndim images) ->
  exists e w',
    training_step self (images, future_images) batch_idx 0 w = (Raise e, w').
Proof.
  intros Hrank. unfold training_step. unfold mbind_ at 1.
  destruct (forward self images w) as [[g|e] w1]; [|eexists; eexists; reflexivity].
  unfold mbind_ at 1. unfold lift at 1.
  destruct (getattr "visualize_step" (visualize_step self)) as [vis|e];
    [|eexists; eexists; reflexivity].
  unfold mbind_ at 1.
  destruct (vis images future_images g batch_idx "train" w1) as [[[]|e] w2];
    [|eexists; eexists; reflexivity].
  unfold mbind_ at 1.
  destruct (sample_mean self images w2) as [[m|e] w3] eqn:Hm;
    [|eexists; eexists; reflexivity].
  pose proof (sample_mean_rank _ _ _ _ _ Hrank Hm) as Hr.
  destruct (adversarial_loss_rank self (spatial_discriminator self)
              images future_images m Hr) as (e & He).
  unfold mbind_ at 1. unfold lift at 1. rewrite He.
  eexists. eexists. reflexivity.
Qed.

(** C1.  On every model the constructor builds, the generator update
    (optimizer index 0) reports no loss: for every batch it raises, having
    done nothing to the world but draw from torch's generator, so that
    line 127 is never reached.  When the forward pass of line 102 returns,
    what is raised is the [AttributeError] of line 105: [__init__] assigns
    no [visualize_step].  Attaching a hook from outside does not help: with
    a 5-D context and 5-D forecasts the step still raises (line 116). *)
Theorem generator_step_reports_no_loss (env : Env A) (fs ic os hd : nat)
    (bl : bool) (glr dlr : Q) (mv : bool) (loss : loss_arg A) (pre : bool)
    (ct : string) (ns : nat) (gl be1 be2 : Q) (self : NowcastingGAN A) :
  __init__ env fs ic os hd bl glr dlr mv loss pre ct ns gl be1 be2 = Ok self ->
  forall images future_images batch_idx w,
    (exists e n,
        training_step self (images, future_images) batch_idx 0 w
        = (Raise e, advance w n))
    /\ (forall generated w1,
          forward self images w = (Ok generated, w1) ->
          training_step self (images, future_images) batch_idx 0 w
          = (Raise (AttributeError "visualize_step"), w1))
    /\ (forall hook,
          ndim images = 5 ->
          (forall w0 g w1, forward self images w0 = (Ok g, w1) -> ndim g = 5) ->
          exists e w',
            training_step (set_visualize_step self hook)
              (images, future_images) batch_idx 0 w
            = (Raise e, w')).
Proof.
  intros Hinit images future_images batch_idx w.
  destruct (init_attributes _ _ _ _ _ _ _ _ _ _ _ _ _ _ _ _ _ Hinit) as (Hvis & _).
  assert (forall generated w1,
            forward self images w = (Ok generated, w1) ->
            training_step self (images, future_images) batch_idx 0 w
            = (Raise (AttributeError "visualize_step"), w1)) as Hattr.
  { intros generated w1 Hfw. unfold training_step, mbind_, lift.
    rewrite Hfw, Hvis. reflexivity. }
  split; [|split; [exact Hattr|]].
  - destruct (forward_world self images w) as (n & Hn).
    destruct (forward self images w) as [[generated|e] w1] eqn:Hfw;
      simpl in Hn; subst w1.
    + exists (AttributeError "visualize_step"), n. apply (Hattr generated). reflexivity.
    + exists e, n. unfold training_step, mbind_. rewrite Hfw. reflexivity.
  - intros hook Hdim Hrank.
    apply generator_step_rank_raises.
    intros w0 g w1 Hfw. rewrite Hdim. exact (Hrank w0 g w1 Hfw).
Qed.

(** C2.  With a 5-D context and a generator whose forecasts are 5-D, the
    discriminator update (optimizer index 1) reports no loss: for every
    batch it raises, having done nothing to the world but draw from torch's
    generator, so that line 155 is never reached.  When the samples have
    been averaged and the real sequence has been scored, what is raised is
    the [RuntimeError] of [torch.cat] at line 146: the mean prediction has
    lost a dimension. *)
Theorem discriminator_step_reports_no_loss (self : NowcastingGAN A)
    (images future_images : Tensor A) (batch_idx : nat) (w : world A) :
  ndim images = 5 ->
  (forall w0 g w1, forward self images w0 = (Ok g, w1) -> ndim g = 5) ->
  (exists e n,
      training_step self (images, future_images) batch_idx 1 w
      = (Raise e, advance w n))
  /\ (forall m w1 real d_real,
        sample_mean self images w = (Ok m, w1) ->
        torch_cat [images; future_images] 1 = Ok real ->
        call (spatial_discriminator self) real = Ok d_real ->
        training_step self (images, future_images) batch_idx 1 w
        = (Raise (RuntimeError "Tensors must have same number of dimensions"),
           w1)).
Proof.
  intros Hdim Hrank5.
  assert (forall w0 g w1,
            forward self images w0 = (Ok g, w1) -> ndim g = ndim images) as Hrank.
  { intros w0 g w1 Hfw. rewrite Hdim. exact (Hrank5 w0 g w1 Hfw). }
  split.
  - destruct (sample_mean_world self images w) as (n & Hn).
    unfold training_step. unfold mbind_ at 1.
    destruct (sample_mean self images w) as [[m|e] w1] eqn:Hm;
      simpl in Hn; subst w1; [|exists e, n; reflexivity].
    pose proof (sample_mean_rank _ _ _ _ _ Hrank Hm) as Hr.
    destruct (adversarial_loss_rank self (spatial_discriminator self)
                images future_images m Hr) as (e & He).
    unfold mbind_ at 1. unfold lift at 1. rewrite He.
    exists e, n. reflexivity.
  - intros m w1 real d_real Hm Hreal Hd.
    pose proof (sample_mean_rank _ _ _ _ _ Hrank Hm) as Hr.
    unfold training_step. unfold mbind_ at 1. rewrite Hm.
    unfold mbind_ at 1. unfold lift at 1.
    rewrite (adversarial_loss_rank_error self _ _ _ _ _ _ Hr Hreal Hd).
    reflexivity.
Qed.

End GANUpdates.

(* ===================================================================== *)
(** ** The further properties on concrete models *)

Lemma stub_gan_constructed
    (sampler : list (Tensor Q) -> Tensor Q -> result (Tensor Q)) :
  GAN.construct (stub_env sampler) [("forecast_steps", PInt 1)]
  = Ok (stub_gan 6 sampler).
Proof. reflexivity. Qed.

Lemma forward_through_encoder_vector_witness :
  ConvLSTM.forward sigmoid_R idle_model (zeros [1; 3; 1; 8; 8]) 2
  = ConvLSTM.forward sigmoid_R idle_model
      (mkTensor [1; 5; 1; 8; 8] (fun _ => 1%R)) 2.
Proof.
  apply (forward_through_encoder_vector sigmoid_R idle_model
           (zeros [1; 3; 1; 8; 8]) (mkTensor [1; 5; 1; 8; 8] (fun _ => 1%R))
           1 3 5 1 1 8 8 2
           (ConvLSTM.init_hidden (idle_cell 1 4) 1 (8, 8),
            ConvLSTM.init_hidden (idle_cell 4 4) 1 (8, 8))
           (ConvLSTM.init_hidden (idle_cell 1 4) 1 (8, 8),
            ConvLSTM.init_hidden (idle_cell 4 4) 1 (8, 8)));
    reflexivity.
Defined.

Lemma forecast_prefix_witness :
  exists long short,
    ConvLSTM.forward sigmoid_R counting_model (zeros [1; 1; 1; 1; 1]) (1 + 1)
    = Ok long
    /\ ConvLSTM.forward sigmoid_R counting_model (zeros [1; 1; 1; 1; 1]) 1
       = Ok short
    /\ shape short = <[2 := 1]> (shape long)
    /\ at_ short [0; 0; 0; 0; 0] = at_ long [0; 0; 0; 0; 0].
Proof.
  eexists.
  destruct (forecast_prefix sigmoid_R counting_model (zeros [1; 1; 1; 1; 1]) 1 1 _
              (le_n 1) eq_refl) as (short & Hs & Hsh & Hat).
  exists short. split; [reflexivity|]. split; [exact Hs|]. split; [exact Hsh|].
  apply Hat. lia.
Defined.

Lemma steps_need_a_horizon_witness :
  exists e,
    ConvLSTM.training_step sigmoid_R no_horizon_model
      (zeros [1; 1; 1; 1; 1], two_frames) 0 fresh_world = (Raise e, fresh_world).
Proof.
  destruct (steps_need_a_horizon sigmoid_R no_horizon_model
              (zeros [1; 1; 1; 1; 1], two_frames) 0 fresh_world eq_refl)
    as (e & Ht & _).
  exists e. exact Ht.
Defined.

Lemma training_step_metrics_witness :
  exists loss w' frames,
    ConvLSTM.training_step sigmoid_R counting_model
      (zeros [1; 1; 1; 1; 1], two_frames) 0 fresh_world = (Ok loss, w')
    /\ w' = log_to fresh_world (("train/loss", loss) :: frames)
    /\ frames.*1 = ["train/frame_0_loss"; "train/frame_1_loss"].
Proof.
  eexists. eexists.
  destruct (training_step_metrics sigmoid_R counting_model
              (zeros [1; 1; 1; 1; 1], two_frames) 0 fresh_world _ _
              eq_refl eq_refl) as (frames & Hw & Hk).
  exists frames. split; [reflexivity|]. split; [exact Hw | exact Hk].
Defined.

Lemma steps_agree_on_loss_witness :
  exists loss w',
    ConvLSTM.training_step sigmoid_R counting_model
      (zeros [1; 1; 1; 1; 1], two_frames) 0 fresh_world = (Ok loss, w')
    /\ ConvLSTM.test_step sigmoid_R counting_model
         (zeros [1; 1; 1; 1; 1], two_frames) 0 fresh_world
       = (Ok loss, fresh_world).
Proof.
  eexists. eexists. split; [reflexivity|].
  apply (steps_agree_on_loss sigmoid_R counting_model
           (zeros [1; 1; 1; 1; 1], two_frames) 0 fresh_world _ _ eq_refl).
Defined.

Lemma visualisation_is_observational_witness :
  exists loss w' w'',
    ConvLSTM.training_step sigmoid_R watched_model
      (zeros [1; 1; 1; 1; 1], two_frames) 0 eager_world = (Ok loss, w')
    /\ ConvLSTM.training_step sigmoid_R (set_make_vis watched_model false)
         (zeros [1; 1; 1; 1; 1], two_frames) 0 eager_world = (Ok loss, w'')
    /\ scalars_logged w'' = scalars_logged w'.
Proof.
  destruct (ConvLSTM.training_step sigmoid_R watched_model
              (zeros [1; 1; 1; 1; 1], two_frames) 0 eager_world)
    as [[loss|e] w'] eqn:Hstep;
    [|exfalso; vm_compute in Hstep; discriminate Hstep].
  destruct (visualisation_is_observational sigmoid_R watched_model
              (zeros [1; 1; 1; 1; 1], two_frames) 0 eager_world w' loss Hstep)
    as (w'' & Ht & Hs).
  exists loss, w', w''. split; [reflexivity|]. split; [exact Ht | exact Hs].
Defined.


Lemma from_config_reads_five_keys_witness :
  ConvLSTM.from_config (A:=Q) idle_env (<["hidden_dim" := PInt 7]> ∅)
  = ConvLSTM.from_config idle_env ∅.
Proof.
  apply (from_config_reads_five_keys (A:=Q) idle_env ∅ "hidden_dim" (PInt 7)).
  intros Hin. apply (bool_decide_eq_true_2 _) in Hin.
  vm_compute in Hin. discriminate Hin.
Defined.

Lemma sample_draws_witness :
  exists l w',
    GAN.sample (stub_gan 6 shifting_sampler) batch_of_two 3 [] fresh_world
    = (Ok l, w')
    /\ w' = advance fresh_world 3
    /\ length l = 3.
Proof.
  eexists. eexists.
  destruct (sample_draws (stub_gan 6 shifting_sampler) batch_of_two 3 []
              fresh_world _ _ eq_refl) as (Hw & gs & Hl & Hlen & _).
  split; [reflexivity|]. split; [exact Hw|]. reflexivity.
Defined.

Lemma three_samples_shapes :
  Forall (fun t : Tensor Q => shape t = 2 :: [1; 1]) three_samples.
Proof. repeat constructor. Qed.

Lemma mean_prediction_pools_the_batch_witness :
  exists m,
    GAN.mean_of_samples three_samples = Ok m
    /\ shape m = [1; 1]
    /\ at_ m [0; 0]
       = smean (flat_map (fun t => map (fun i => at_ t (i :: [0; 0])) (seq 0 2))
                  three_samples)
    /\ (at_ m [0%nat; 0%nat] == 7 # 2)%Q.
Proof.
  eexists. split; [reflexivity|].
  destruct (mean_prediction_pools_the_batch three_samples 2 [1; 1] _
              three_samples_shapes eq_refl) as (Hsh & Hat).
  split; [exact Hsh|]. split; [apply Hat|]. reflexivity.
Defined.

Lemma three_single_samples_shapes :
  Forall (fun t : Tensor Q => shape t = 1 :: [2]) three_single_samples.
Proof. repeat constructor. Qed.

Lemma mean_prediction_batch_of_one_witness :
  exists m,
    GAN.mean_of_samples three_single_samples = Ok m
    /\ shape m = [2]
    /\ at_ m [1] = smean (map (fun t => at_ t [0; 1]) three_single_samples)
    /\ (at_ m [1%nat] == 5)%Q.
Proof.
  eexists. split; [reflexivity|].
  destruct (mean_prediction_batch_of_one three_single_samples [2] _
              three_single_samples_shapes eq_refl) as (Hsh & Hat).
  split; [exact Hsh|]. split; [apply Hat|]. reflexivity.
Defined.

Lemma shifting_sampler_keeps_rank (n : nat) (images : Tensor Q) :
  forall w0 g w1,
    GAN.forward (stub_gan n shifting_sampler) images w0 = (Ok g, w1) ->
    ndim g = ndim images.
Proof. intros w0 g w1 [= <- _]. reflexivity. Qed.


Lemma no_samples_raises_witness :
  GAN.training_step (stub_gan 0 lifting_sampler) (one_frame, one_frame) 0 1
    fresh_world
  = (Raise (RuntimeError "torch.cat(): expected a non-empty list of Tensors"),
     fresh_world).
Proof.
  apply (no_samples_raises (stub_gan 0 lifting_sampler) (one_frame, one_frame)
           0 fresh_world).
  reflexivity.
Defined.

Lemma other_optimizer_index_does_nothing_witness :
  GAN.training_step (stub_gan 6 lifting_sampler) (one_frame, one_frame) 0 2
    fresh_world
  = (Ok None, fresh_world).
Proof.
  apply (other_optimizer_index_does_nothing (stub_gan 6 lifting_sampler)
           (one_frame, one_frame) 0 2 fresh_world).
  lia.
Defined.

Lemma validation_scores_fake_as_real_witness :
  exists out w',
    GAN.validation_step validated_gan (batch_of_two, batch_of_two) 0 fresh_world
    = (Ok out, w')
    /\ (GAN.val_discriminator_loss out == 1 # 2)%Q
    /\ (GAN.val_generator_loss out == 51 # 2)%Q
    /\ length (scalars_logged w') = 3.
Proof.
  edestruct (validation_scores_fake_as_real validated_gan score_if_real
               (const_module "discriminator" (1 # 2)%Q) (const_loss (1 # 4)%Q)
               100%Q batch_of_two batch_of_two)
    with (batch_idx := 0) (w := fresh_world (A:=Q)) as (w' & Hv & Hlog);
    [reflexivity .. | ].
  eexists. exists w'. split; [exact Hv|].
  split; [reflexivity|]. split; [reflexivity|]. rewrite Hlog. reflexivity.
Defined.

Lemma schedule_selection_witness :
  (exists o1 o2 w',
      GAN.configure_optimizers plateau_gan fresh_world
      = (Ok (GAN.Configured [o1; o2]
               [GAN.ReduceLROnPlateau o1 "min" 0.2 0.01 10;
                GAN.ReduceLROnPlateau o2 "min" 0.2 0.01 10]), w'))
  /\ (exists w',
         GAN.configure_optimizers cosine_without_epochs fresh_world
         = (Raise (AttributeError "lr_epochs"), w')
         /\ length (optimizers_created w') = 2).
Proof.
  split.
  - eexists. eexists. eexists.
    apply (proj1 (schedule_selection plateau_gan 0.5 0.999
                    (const_module "generator" 0%Q)
                    (const_module "discriminator" 0%Q) fresh_world
                    eq_refl eq_refl eq_refl eq_refl)).
    reflexivity.
  - eexists. split.
    + apply (proj2 (proj2 (schedule_selection cosine_without_epochs 0.5 0.999
                             (const_module "generator" 0%Q)
                             (const_module "discriminator" 0%Q) fresh_world
                             eq_refl eq_refl eq_refl eq_refl))); reflexivity.
    + reflexivity.
Defined.

(** The failing input of C5 ([forecast_steps = 1], forecasts of the shape
    of the context, a batch of two): both updates stop before any loss. *)
Lemma generator_step_reports_no_loss_witness :
  exists self,
    GAN.__init__ (stub_env shifting_sampler) 1 3 256 64 false 0.00005%Q
      0.0002%Q false (LossName "mse") false "standard" 6 20%Q 0%Q 0.999%Q = Ok self
    /\ GAN.training_step self (batch_of_two, batch_of_two) 0 0 fresh_world
       = (Raise (AttributeError "visualize_step"), advance fresh_world 1)
    /\ exists e w',
         GAN.training_step (GAN.set_visualize_step self silent_hook)
           (batch_of_two, batch_of_two) 0 0 fresh_world
         = (Raise e, w').
Proof.
  eexists. split; [reflexivity|].
  pose proof (generator_step_reports_no_loss (A:=Q)
                (stub_env shifting_sampler) 1 3 256 64 false 0.00005%Q
                0.0002%Q false (LossName "mse") false "standard" 6 20%Q
                0%Q 0.999%Q _ eq_refl
                batch_of_two batch_of_two 0 fresh_world)
    as (_ & Hattr & Hhook).
  split.
  - eapply Hattr. reflexivity.
  - apply (Hhook silent_hook eq_refl).
    intros w0 g w1 H. exact (shifting_sampler_keeps_rank 6 batch_of_two w0 g w1 H).
Defined.

Lemma discriminator_step_reports_no_loss_witness :
  exists self w',
    GAN.construct (stub_env shifting_sampler) [("forecast_steps", PInt 1)]
    = Ok self
    /\ GAN.training_step self (batch_of_two, batch_of_two) 0 1 fresh_world
       = (Raise (RuntimeError "Tensors must have same number of dimensions"), w')
    /\ scalars_logged w' = [].
Proof.
  eexists. eexists. split; [reflexivity|]. split.
  - eapply (proj2 (discriminator_step_reports_no_loss (A:=Q) _
                     batch_of_two batch_of_two 0 fresh_world eq_refl
                     (fun w0 g w1 H =>
                        shifting_sampler_keeps_rank 6 batch_of_two w0 g w1 H)));
      reflexivity.
  - reflexivity.
Defined.

(* ===================================================================== *)
(** ** From the constructor arguments to the behaviour *)

Section FromConstructor.
Context {A : Type} {SA : Scalar A}.

(** X18.  A model built by the constructor with [input_channels],
    [hidden_dim] and [out_channels] maps every input of shape
    [[b, T, input_channels, H, W]] and every horizon [n >= 1] to an output
    of shape [[b, out_channels, n, H, W]], whatever [hidden_dim] and the
    loss are. *)
Theorem constructed_model_output_shape (sigmoid : A -> A) (env : ConvLSTM.Env A)
    (hidden_dim input_channels out_channels forecast_steps : nat) (lr : Q)
    (make_vis pretrained : bool) (loss : loss_arg A)
    (self : ConvLSTM.EncoderDecoderConvLSTM A)
    (x : Tensor A) (b T h w n : nat) :
  ConvLSTM.__init__ env hidden_dim input_channels out_channels forecast_steps
    lr make_vis loss pretrained = Ok self ->
  env_respects_dims env b h w ->
  shape x = [b; T; input_channels; h; w] -> 1 <= n ->
  exists out,
    ConvLSTM.forward sigmoid self x n = Ok out
    /\ shape out = [b; out_channels; n; h; w].
Proof.
  intros Hinit [Hcell Hconv] Hx Hn. unfold ConvLSTM.__init__ in Hinit.
  destruct (ConvLSTM.resolve_loss env loss) as [crit|e]; [|discriminate].
  simpl in Hinit. injection Hinit as <-.
  destruct (forward_ok sigmoid
              (ConvLSTM.mkModel forecast_steps crit lr make_vis
                 (ConvLSTM.new_ConvLSTMCell env input_channels hidden_dim)
                 (ConvLSTM.new_ConvLSTMCell env hidden_dim hidden_dim)
                 (ConvLSTM.new_ConvLSTMCell env hidden_dim hidden_dim)
                 (ConvLSTM.new_ConvLSTMCell env hidden_dim hidden_dim)
                 (ConvLSTM.new_Conv3d env hidden_dim out_channels) false)
              x input_channels hidden_dim b T h w n) as (pre & Hfw & Hpre);
    [| exact Hx | exact Hn |].
  - constructor; simpl; try apply Hcell; apply Hconv.
  - exists (tmap sigmoid pre). split; [exact Hfw|].
    simpl in Hpre. rewrite (proj2 (Hconv _ _)) in Hpre. exact Hpre.
Qed.

(** X19.  On every model the constructor builds, the generator update is
    dead: after its first forward pass it raises [AttributeError] for
    [visualize_step] (line 105), one draw of torch's generator consumed
    and no loss computed or logged. *)
Theorem generator_update_needs_visualize_step (env : GAN.Env A)
    (fs ic os hd : nat) (bl : bool) (glr dlr : Q) (mv : bool)
    (loss : loss_arg A) (pre : bool) (ct : string) (ns : nat) (gl be1 be2 : Q)
    (self : GAN.NowcastingGAN A) (images future_images generated : Tensor A)
    (batch_idx : nat) (w w1 : world A) :
  GAN.__init__ env fs ic os hd bl glr dlr mv loss pre ct ns gl be1 be2 = Ok self ->
  GAN.forward self images w = (Ok generated, w1) ->
  GAN.training_step self (images, future_images) batch_idx 0 w
  = (Raise (AttributeError "visualize_step"), advance w 1).
Proof.
  intros Hinit Hfw.
  destruct (init_attributes _ _ _ _ _ _ _ _ _ _ _ _ _ _ _ _ _ Hinit) as (Hvis & _).
  destruct (forward_inv _ _ _ _ _ Hfw) as (-> & _).
  unfold GAN.training_step, mbind_, lift. rewrite Hfw, Hvis. reflexivity.
Qed.

(** X20.  [forecast_steps] is the one parameter of the adversarial
    model's constructor without a default: a call whose keywords are all
    parameters of [__init__] but do not include [forecast_steps] raises a
    [TypeError]. *)
Theorem forecast_steps_is_required (env : GAN.Env A)
    (kwargs : list (string * pyval)) :
  unexpected_keyword GAN.init_signature kwargs = None ->
  "forecast_steps" ∉ kwargs.*1 ->
  GAN.construct env kwargs
  = Raise (TypeError "missing 1 required positional argument: 'forecast_steps'").
Proof.
  intros Hk Hno. unfold GAN.construct, bind_kwargs. rewrite Hk.
  unfold GAN.init_signature. cbn [bind_params].
  rewrite (not_elem_of_list_to_map_1 _ _ Hno). reflexivity.
Qed.

End FromConstructor.

Lemma idle_env_respects_dims (b h w : nat) : env_respects_dims (A:=R) idle_env b h w.
Proof.
  split.
  - intros i hd. repeat split. apply idle_cell_contract.
  - intros i o. split; reflexivity.
Qed.

Lemma constructed_model_output_shape_witness :
  exists self out,
    ConvLSTM.__init__ (A:=R) idle_env 4 1 1 2 0.001 false (LossName "mse") false
    = Ok self
    /\ ConvLSTM.forward sigmoid_R self (zeros [1; 3; 1; 8; 8]) 2 = Ok out
    /\ shape out = [1; 1; 2; 8; 8].
Proof.
  eexists.
  destruct (constructed_model_output_shape sigmoid_R idle_env 4 1 1 2 0.001 false
              false (LossName "mse") _ (zeros [1; 3; 1; 8; 8]) 1 3 8 8 2
              eq_refl (idle_env_respects_dims 1 8 8) eq_refl (le_S _ _ (le_n 1)))
    as (out & Hfw & Hsh).
  exists out. split; [reflexivity|]. split; [exact Hfw | exact Hsh].
Defined.

Lemma generator_update_needs_visualize_step_witness :
  exists self,
    GAN.__init__ (stub_env lifting_sampler) 1 3 256 64 false 0.00005%Q
      0.0002%Q false (LossName "mse") false "standard" 6 20%Q 0%Q 0.999%Q = Ok self
    /\ GAN.training_step self (one_frame, one_frame) 0 0 fresh_world
       = (Raise (AttributeError "visualize_step"), advance fresh_world 1).
Proof.
  eexists. split; [reflexivity|].
  eapply (generator_update_needs_visualize_step (A:=Q)
            (stub_env lifting_sampler) 1 3 256 64 false 0.00005%Q
            0.0002%Q false (LossName "mse") false "standard" 6 20%Q 0%Q 0.999%Q);
    reflexivity.
Defined.

Lemma forecast_steps_is_required_witness :
  GAN.construct (stub_env lifting_sampler) [("num_samples", PInt 4)]
  = Raise (TypeError "missing 1 required positional argument: 'forecast_steps'").
Proof.
  apply (forecast_steps_is_required (stub_env lifting_sampler)
           [("num_samples", PInt 4)]).
  - reflexivity.
  - intros Hin. apply (bool_decide_eq_true_2 _) in Hin.
    vm_compute in Hin. discriminate Hin.
Defined.
